(** * Kong gateway authentication core: token verification, key-set caching,
      authorization policy and the remote-verifier retry loop.

    The development embeds the Python sources
      - services/auth-service/app.py
          ([Authz]: [is_authorized], [determine_enterprise_id];
           [AuthService]: [get_public_keys], [verify_jwt_token])
      - kong/helm-chart/python-plugins/custom-jwt-auth.py  ([JwtPlugin])
      - kong/helm-chart/python-plugins/custom-auth-pre-function.py
                                                           ([PreFunction])
    as executable Rocq functions with explicit state passing.

    Conventions.  A Python [str] is the string of its UTF-8 bytes.  A
    Python dictionary used as a cache is a [gmap]; a dictionary entry that
    may be missing is an [option]; a function that may raise returns
    [exn + A]; module globals and instance attributes are
    fields of a state record that also carries the trace of observable
    effects (key-set fetches, signature checks).  Timestamps are integers:
    the sources compare and add them, and render them as dates in log
    lines.  One call reads one clock value.  What lies outside the
    repository (PyJWT's parser and signature check, base64, the RSA
    constructor, [datetime.fromtimestamp], the network) is a parameter;
    PyJWT's claim validation is modelled after PyJWT 2.x. *)

From Stdlib Require Import ZArith Ascii String DecimalString List Bool Lia.
From stdpp Require Import base option list gmap strings.

Local Set Warnings "-register-all".
Local Open Scope string_scope.
Local Open Scope Z_scope.

(** ** Python helpers *)

Module Py.

(** [needle in hay] on Python strings: substring containment. *)
Fixpoint str_in (needle hay : string) : bool :=
  String.prefix needle hay ||
  match hay with
  | EmptyString => false
  | String _ hay' => str_in needle hay'
  end.

(** [x in l] on a Python list of strings. *)
Definition in_list (x : string) (l : list string) : bool :=
  existsb (String.eqb x) l.

(** [s.startswith(p)] *)
Definition startswith (s p : string) : bool := String.prefix p s.

(** [s[n:]] for a non-negative [n]. *)
Fixpoint drop_chars (n : nat) (s : string) : string :=
  match n, s with
  | O, _ => s
  | S n', String _ s' => drop_chars n' s'
  | S _, EmptyString => EmptyString
  end.

(** Truthiness of an optional string ([None] and [''] are falsy). *)
Definition truthy_str (o : option string) : bool :=
  match o with
  | Some s => negb (String.eqb s "")
  | None => false
  end.

(** [str(x)] of an optional string, as an f-string renders it. *)
Definition str_opt (o : option string) : string :=
  match o with
  | Some s => s
  | None => "None"
  end.

(** A byte of the form 10xxxxxx: inside the encoding of a code point. *)
Definition is_continuation (c : ascii) : bool :=
  match c with
  | Ascii _ _ _ _ _ _ b6 b7 => b7 && negb b6
  end.

(** [len(s)]: the number of code points, that is, of bytes that do not
    continue the encoding of one. *)
Fixpoint len (s : string) : nat :=
  match s with
  | EmptyString => O
  | String c s' => if is_continuation c then len s' else S (len s')
  end.

End Py.

(** ** Token payload (the claims dictionary) *)

(** The [aud] claim is a string or a list of strings. *)
Inductive aud_claim :=
| AudStr (s : string)
| AudList (l : list string).

(** [realm_access] is a nested dictionary with an optional [roles] list. *)
Record realm_access_t := { ra_roles : option (list string) }.

Record payload := {
  p_sub : option string;
  p_iss : option string;
  p_aud : option aud_claim;
  p_exp : option Z;
  p_iat : option Z;
  p_nbf : option Z;
  p_client_id : option string;
  p_preferred_username : option string;
  p_email : option string;
  p_realm_access : option realm_access_t
}.

(** [decoded_token.get('realm_access', {}).get('roles', [])] *)
Definition roles_of (decoded_token : payload) : list string :=
  match p_realm_access decoded_token with
  | Some ra => match ra_roles ra with Some r => r | None => [] end
  | None => []
  end.

(** ** services/auth-service/app.py: the authorization decision engine *)

Module Authz.

(** [determine_enterprise_id]: static client -> enterprise table.  The path
    and the method are only logged, whatever values they are. *)
Definition determine_enterprise_id {A B : Type} (decoded_token : payload)
    (api_path : A) (method : B) : string :=
  let client_id := default "" (p_client_id decoded_token) in
  if String.eqb client_id "kong_client" then "enterprise-123"
  else if String.eqb client_id "mobile_app" then "enterprise-456"
  else if String.eqb client_id "web_app" then "enterprise-789"
  else "enterprise-default".

(** The rule blocks of [is_authorized]: [Some b] when a branch executes
    [return b], [None] when control falls out of the [if]/[elif] chain. *)
Definition rule_decision (roles : list string) (api_path method : string)
    : option bool :=
  if Py.str_in "/orders" api_path then
    if String.eqb method "GET" then Some (Py.in_list "offline_access" roles)
    else if String.eqb method "POST" then Some (Py.in_list "uma_authorization" roles)
    else if Py.in_list method ["PUT"; "DELETE"] then
      Some (Py.in_list "default-roles-kong" roles)
    else None
  else if Py.str_in "/inventory" api_path then
    if String.eqb method "GET" then Some true
    else if Py.in_list method ["PUT"; "POST"; "DELETE"] then
      Some (Py.in_list "uma_authorization" roles)
    else None
  else None.

Definition is_authorized (decoded_token : payload) (api_path method : string)
    : bool :=
  let roles := roles_of decoded_token in
  match rule_decision roles api_path method with
  | Some has_access => has_access
  | None => (0 <? Z.of_nat (length roles))
  end.

End Authz.

(** ** Python exceptions

    Exception classes that the sources raise, catch or receive from their
    libraries, with the base classes Python gives them.  An [except C]
    clause catches an exception whose class is [C] or derives from it, and
    the clauses of a [try] are tried in source order. *)

Module Exc.

Inductive exc_class :=
| Exception
| ValueError | AttributeError | TypeError | KeyError | OSError
| JSONDecodeError                 (* json.JSONDecodeError(ValueError) *)
| RequestException                (* requests.RequestException(IOError) *)
| RequestsJSONDecodeError         (* requests: InvalidJSONError + JSONDecodeError *)
| URLError                        (* urllib.error.URLError(OSError) *)
| HTTPError                       (* urllib.error.HTTPError(URLError) *)
| PyJWTError
| InvalidTokenError | DecodeError | InvalidSignatureError
| ExpiredSignatureError | InvalidAudienceError | InvalidIssuerError
| InvalidIssuedAtError | ImmatureSignatureError | InvalidAlgorithmError
| MissingRequiredClaimError | InvalidKeyError.

Definition exc_class_eqb (a b : exc_class) : bool :=
  match a, b with
  | Exception, Exception | ValueError, ValueError
  | AttributeError, AttributeError | TypeError, TypeError
  | KeyError, KeyError | OSError, OSError
  | JSONDecodeError, JSONDecodeError | RequestException, RequestException
  | RequestsJSONDecodeError, RequestsJSONDecodeError
  | URLError, URLError | HTTPError, HTTPError | PyJWTError, PyJWTError
  | InvalidTokenError, InvalidTokenError | DecodeError, DecodeError
  | InvalidSignatureError, InvalidSignatureError
  | ExpiredSignatureError, ExpiredSignatureError
  | InvalidAudienceError, InvalidAudienceError
  | InvalidIssuerError, InvalidIssuerError
  | InvalidIssuedAtError, InvalidIssuedAtError
  | ImmatureSignatureError, ImmatureSignatureError
  | InvalidAlgorithmError, InvalidAlgorithmError
  | MissingRequiredClaimError, MissingRequiredClaimError
  | InvalidKeyError, InvalidKeyError => true
  | _, _ => false
  end.

(** Direct base classes. *)
Definition bases (c : exc_class) : list exc_class :=
  match c with
  | Exception => []
  | ValueError | AttributeError | TypeError | KeyError | OSError => [Exception]
  | JSONDecodeError => [ValueError]
  | RequestException => [OSError]
  | RequestsJSONDecodeError => [RequestException; JSONDecodeError]
  | URLError => [OSError]
  | HTTPError => [URLError]
  | PyJWTError => [Exception]
  | InvalidTokenError => [PyJWTError]
  | DecodeError => [InvalidTokenError]
  | InvalidSignatureError => [DecodeError]
  | ExpiredSignatureError | InvalidAudienceError | InvalidIssuerError
  | InvalidIssuedAtError | ImmatureSignatureError | InvalidAlgorithmError
  | MissingRequiredClaimError => [InvalidTokenError]
  | InvalidKeyError => [PyJWTError]
  end.

(** [issubclass(c, d)]; the hierarchy above has depth below 6. *)
Fixpoint issubclass_fuel (fuel : nat) (c d : exc_class) : bool :=
  exc_class_eqb c d ||
  match fuel with
  | O => false
  | S fuel' => existsb (fun b => issubclass_fuel fuel' b d) (bases c)
  end.

Definition issubclass (c d : exc_class) : bool := issubclass_fuel 6 c d.

(** A raised exception: its class and [str(e)]. *)
Record exn := { exn_class : exc_class; exn_str : string }.

Definition raise {A : Type} (c : exc_class) (msg : string) : exn + A :=
  inl {| exn_class := c; exn_str := msg |}.

(** The [except] clauses of one [try], in source order; [None] when no clause
    matches and the exception propagates. *)
Fixpoint dispatch {A : Type} (handlers : list (exc_class * (exn -> A)))
    (e : exn) : option A :=
  match handlers with
  | [] => None
  | (c, h) :: rest =>
      if issubclass (exn_class e) c then Some (h e) else dispatch rest e
  end.

(** Index of the clause that catches [e]. *)
Fixpoint caught_by (clauses : list exc_class) (e : exn) : option nat :=
  match clauses with
  | [] => None
  | c :: rest =>
      if issubclass (exn_class e) c then Some O
      else option_map S (caught_by rest e)
  end.

End Exc.

(** ** Key-set documents and the libraries the sources call *)

(** One entry of the [keys] array of a JWKS document. *)
Record jwk := {
  jwk_kid : option string;
  jwk_kty : option string;
  jwk_use : option string;
  jwk_alg : option string;
  jwk_n : option string;
  jwk_e : option string
}.

(** What [response.json()] returned: a JSON object, whose [keys] entry may
    be absent, or some other JSON value (on which [.get] raises). *)
Inductive jwks_doc :=
| JwksObject (keys : option (list jwk))
| JwksOther.

(** [jwks.get('keys', [])] *)
Definition doc_keys (jwks : jwks_doc) : Exc.exn + list jwk :=
  match jwks with
  | JwksObject ks => inr (default [] ks)
  | JwksOther => Exc.raise Exc.AttributeError "object has no attribute 'get'"
  end.

(** The unverified header segment of a token. *)
Record header := {
  h_alg : option string;
  h_kid : option string;
  h_typ : option string
}.

(** A token whose three segments decode: its header, and its payload when
    the payload segment holds a JSON object. *)
Record jws := {
  jws_header : header;
  jws_payload : option payload
}.

(** Observable effects, in the order they happen. *)
Inductive event :=
| EvFetch (url : string)          (* an HTTP GET of a key-set endpoint *)
| EvVerifySig (token : string).   (* a cryptographic signature check *)

Definition is_fetch (ev : event) : bool :=
  match ev with EvFetch _ => true | EvVerifySig _ => false end.

Definition is_sigcheck (ev : event) : bool :=
  match ev with EvVerifySig _ => true | EvFetch _ => false end.

Definition fetch_count (tr : list event) : nat :=
  length (List.filter is_fetch tr).
Definition sigcheck_count (tr : list event) : nat :=
  length (List.filter is_sigcheck tr).

(** The collaborators outside the repository: token parsing and signature
    checking (PyJWT, cryptography), base64 and dates (Python's standard
    library).  The sources are verified for every implementation of this
    interface. *)
Class Libs := {
  pubkey : Type;
  (** PyJWT's segment parser: the header and payload of a token string, or
      the [DecodeError] it raises. *)
  jws_load : string -> Exc.exn + jws;
  (** Whether the token's signature verifies under a public key. *)
  sig_verifies : string -> pubkey -> bool;
  (** [jwt.algorithms.RSAAlgorithm.from_jwk] *)
  from_jwk : jwk -> Exc.exn + pubkey;
  (** [base64.urlsafe_b64decode] *)
  urlsafe_b64decode : string -> Exc.exn + list Byte.byte;
  (** [rsa.RSAPublicNumbers(e, n).public_key()] *)
  rsa_public_key : Z -> Z -> Exc.exn + pubkey;
  (** [datetime.fromtimestamp]: the exception it raises for a timestamp
      outside the range of the platform; its value is only logged. *)
  fromtimestamp : Z -> Exc.exn + unit
}.

(** The identity provider as seen through [requests.get(url, verify=...)]
    followed by [raise_for_status()] and [json()]. *)
Definition network := string -> bool -> Exc.exn + jwks_doc.

(** ** PyJWT 2.x: [get_unverified_header] and [decode] *)

Module PyJWT.
Section WithLibs.
Context `{L : Libs}.

Definition get_unverified_header (token : string) : Exc.exn + header :=
  match jws_load token with
  | inl e => inl e
  | inr j => inr (jws_header j)
  end.

(** The options dictionary passed to [decode].  PyJWT 2.x reads the six
    [verify_] keys and the list [require] of claims that must be present;
    the three [require_] keys, which the gateway plugin passes, belong to
    PyJWT 1.x and are carried along without being read. *)
Record options := {
  verify_signature : bool;
  verify_exp : bool;
  verify_nbf : bool;
  verify_iat : bool;
  verify_aud : bool;
  verify_iss : bool;
  require : list string;
  require_exp : bool;
  require_iat : bool;
  require_nbf : bool
}.

(** The library's defaults; a caller's dictionary is merged over them. *)
Definition default_options : options :=
  {| verify_signature := true; verify_exp := true; verify_nbf := true;
     verify_iat := true; verify_aud := true; verify_iss := true;
     require := [];
     require_exp := false; require_iat := false; require_nbf := false |}.

(** Header algorithm gate, then the signature itself. *)
Definition verify_signature_step (token : string) (h : header) (key : pubkey)
    (algorithms : list string) : (Exc.exn + unit) * list event :=
  match h_alg h with
  | None => (Exc.raise Exc.InvalidAlgorithmError "Algorithm not specified", [])
  | Some alg =>
      if String.eqb alg "" || negb (Py.in_list alg algorithms) then
        (Exc.raise Exc.InvalidAlgorithmError
           "The specified alg value is not allowed", [])
      else if sig_verifies token key then (inr tt, [EvVerifySig token])
      else (Exc.raise Exc.InvalidSignatureError "Signature verification failed",
            [EvVerifySig token])
  end.

Definition dquote : Ascii.ascii := Ascii.ascii_of_nat 34.

Definition missing_claim (name : string) : Exc.exn + unit :=
  Exc.raise Exc.MissingRequiredClaimError
    ("Token is missing the " ++ String dquote (name ++ String dquote " claim")).

(** [payload.get(name) is None] for the claims of the payload record. *)
Definition claim_missing (p : payload) (name : string) : bool :=
  if String.eqb name "sub" then negb (bool_decide (is_Some (p_sub p)))
  else if String.eqb name "iss" then negb (bool_decide (is_Some (p_iss p)))
  else if String.eqb name "aud" then negb (bool_decide (is_Some (p_aud p)))
  else if String.eqb name "exp" then negb (bool_decide (is_Some (p_exp p)))
  else if String.eqb name "iat" then negb (bool_decide (is_Some (p_iat p)))
  else if String.eqb name "nbf" then negb (bool_decide (is_Some (p_nbf p)))
  else if String.eqb name "client_id" then
    negb (bool_decide (is_Some (p_client_id p)))
  else if String.eqb name "preferred_username" then
    negb (bool_decide (is_Some (p_preferred_username p)))
  else if String.eqb name "email" then negb (bool_decide (is_Some (p_email p)))
  else if String.eqb name "realm_access" then
    negb (bool_decide (is_Some (p_realm_access p)))
  else true.

(** [for claim in options["require"]: ...] *)
Fixpoint require_claims (p : payload) (claims : list string) : Exc.exn + unit :=
  match claims with
  | [] => inr tt
  | claim :: rest =>
      if claim_missing p claim then missing_claim claim
      else require_claims p rest
  end.

Definition validate_required (p : payload) (o : options) : Exc.exn + unit :=
  require_claims p (require o).

Definition validate_iat (p : payload) (o : options) (now : Z) : Exc.exn + unit :=
  match p_iat p with
  | Some iat =>
      if verify_iat o && (now <? iat) then
        Exc.raise Exc.ImmatureSignatureError "The token is not yet valid (iat)"
      else inr tt
  | None => inr tt
  end.

Definition validate_nbf (p : payload) (o : options) (now : Z) : Exc.exn + unit :=
  match p_nbf p with
  | Some nbf =>
      if verify_nbf o && (now <? nbf) then
        Exc.raise Exc.ImmatureSignatureError "The token is not yet valid (nbf)"
      else inr tt
  | None => inr tt
  end.

Definition validate_exp (p : payload) (o : options) (now : Z) : Exc.exn + unit :=
  match p_exp p with
  | Some exp =>
      if verify_exp o && (exp <=? now) then
        Exc.raise Exc.ExpiredSignatureError "Signature has expired"
      else inr tt
  | None => inr tt
  end.

Definition validate_iss (p : payload) (o : options) (issuer : option string)
    : Exc.exn + unit :=
  if verify_iss o then
    match issuer with
    | None => inr tt
    | Some expected =>
        match p_iss p with
        | None => missing_claim "iss"
        | Some iss =>
            if String.eqb iss expected then inr tt
            else Exc.raise Exc.InvalidIssuerError "Invalid issuer"
        end
    end
  else inr tt.

Definition aud_list (a : aud_claim) : list string :=
  match a with
  | AudStr s => [s]
  | AudList l => l
  end.

Definition aud_falsy (a : option aud_claim) : bool :=
  match a with
  | None => true
  | Some (AudStr s) => String.eqb s ""
  | Some (AudList l) => match l with [] => true | _ => false end
  end.

Definition validate_aud (p : payload) (o : options) (audience : option string)
    : Exc.exn + unit :=
  if verify_aud o then
    match audience with
    | None =>
        if aud_falsy (p_aud p) then inr tt
        else Exc.raise Exc.InvalidAudienceError "Invalid audience"
    | Some expected =>
        if aud_falsy (p_aud p) then missing_claim "aud"
        else if Py.in_list expected (from_option aud_list [] (p_aud p)) then inr tt
        else Exc.raise Exc.InvalidAudienceError "Audience doesn't match"
    end
  else inr tt.

(** Sequencing of checks that may raise. *)
Definition and_then (c : Exc.exn + unit) (k : Exc.exn + unit) : Exc.exn + unit :=
  match c with
  | inl e => inl e
  | inr _ => k
  end.

Definition validate_claims (p : payload) (o : options)
    (audience issuer : option string) (now : Z) : Exc.exn + unit :=
  and_then (validate_required p o)
  (and_then (validate_iat p o now)
  (and_then (validate_nbf p o now)
  (and_then (validate_exp p o now)
  (and_then (validate_iss p o issuer)
            (validate_aud p o audience))))).

(** [jwt.decode(token, key, algorithms=..., audience=..., issuer=...,
    options=...)] at clock reading [now]: the payload or the exception
    raised, and the signature checks performed on the way. *)
Definition decode (token : string) (key : pubkey) (algorithms : list string)
    (audience issuer : option string) (o : options) (now : Z)
    : (Exc.exn + payload) * list event :=
  match jws_load token with
  | inl e => (inl e, [])
  | inr j =>
      let '(sig, evs) :=
        if verify_signature o
        then verify_signature_step token (jws_header j) key algorithms
        else (inr tt, []) in
      match sig with
      | inl e => (inl e, evs)
      | inr _ =>
          match jws_payload j with
          | None => (Exc.raise Exc.DecodeError "Invalid payload string", evs)
          | Some p =>
              match validate_claims p o audience issuer now with
              | inl e => (inl e, evs)
              | inr _ => (inr p, evs)
              end
          end
      end
  end.

End WithLibs.
End PyJWT.

(** ** services/auth-service/app.py: key cache and token verification *)

Module AuthService.
Section WithLibs.
Context `{L : Libs}.

(** [os.environ.get('KEYCLOAK_REALM', 'kong')] *)
Variable KEYCLOAK_REALM : string.

Definition KEYCLOAK_BASE_URL : string := "https://d1df8d9f5a76.ngrok-free.app".

Definition JWKS_URL : string :=
  KEYCLOAK_BASE_URL ++ "/realms/" ++ KEYCLOAK_REALM
    ++ "/protocol/openid-connect/certs".

(** The module globals, and the effects observed so far. *)
Record state := {
  public_keys_cache : gmap string pubkey;
  cache_expiry : option Z;
  trace : list event
}.

Definition initial_state : state :=
  {| public_keys_cache := ∅; cache_expiry := None; trace := [] |}.

Definition log (evs : list event) (st : state) : state :=
  {| public_keys_cache := public_keys_cache st;
     cache_expiry := cache_expiry st;
     trace := trace st ++ evs |}.

(** Truthiness of [cache_expiry] ([None] and [0.0] are falsy) and of the
    cache dictionary (empty is falsy). *)
Definition expiry_truthy (o : option Z) : bool :=
  match o with
  | Some e => negb (e =? 0)
  | None => false
  end.

Definition dict_truthy {A : Type} (m : gmap string A) : bool :=
  negb (Nat.eqb (size m) 0).

(** The guard of the fast path:
    [cache_expiry and current_time < cache_expiry and public_keys_cache]. *)
Definition cache_lookup (current_time : Z) (st : state)
    : option (gmap string pubkey) :=
  if expiry_truthy (cache_expiry st)
     && (current_time <? default 0 (cache_expiry st))
     && dict_truthy (public_keys_cache st)
  then Some (public_keys_cache st)
  else None.

(** The loop over [jwks.get('keys', [])]: entries without a truthy [kid]
    are skipped, a later entry overwrites an earlier one with the same
    [kid], and an exception of [from_jwk] aborts the whole loop. *)
Fixpoint build_keys (ks : list jwk) (keys : gmap string pubkey)
    : Exc.exn + gmap string pubkey :=
  match ks with
  | [] => inr keys
  | key :: rest =>
      if Py.truthy_str (jwk_kid key) then
        match from_jwk key with
        | inl e => inl e
        | inr pk => build_keys rest (<[default "" (jwk_kid key) := pk]> keys)
        end
      else build_keys rest keys
  end.

(** The body of the [try] once the HTTP call has come back. *)
Definition parse_keys (resp : Exc.exn + jwks_doc)
    : Exc.exn + gmap string pubkey :=
  match resp with
  | inl e => inl e
  | inr jwks =>
      match doc_keys jwks with
      | inl e => inl e
      | inr ks => build_keys ks ∅
      end
  end.

(** What happens after [requests.get] returns or raises: on success the
    globals are replaced, on any exception the cache (as it is then) is
    returned unchanged. *)
Definition refresh (current_time : Z) (resp : Exc.exn + jwks_doc) (st : state)
    : gmap string pubkey * state :=
  match parse_keys resp with
  | inr keys =>
      (keys, {| public_keys_cache := keys;
                cache_expiry := Some (current_time + 3600);
                trace := trace st |})
  | inl _ => (public_keys_cache st, st)
  end.

Definition get_public_keys (current_time : Z) (net : network) (st : state)
    : gmap string pubkey * state :=
  match cache_lookup current_time st with
  | Some cached => (cached, st)
  | None =>
      refresh current_time (net JWKS_URL true) (log [EvFetch JWKS_URL] st)
  end.

(** [if token.startswith('Bearer '): token = token[7:]] *)
Definition strip_bearer (token : string) : string :=
  if Py.startswith token "Bearer " then Py.drop_chars 7 token else token.

(** The two log lines after a successful [decode] that render [exp] and
    [iat] as dates: [datetime.fromtimestamp(decoded_token.get('exp', 0))]
    and the same for [iat].  They sit inside the [try]. *)
Definition log_dates (decoded_token : payload) : Exc.exn + unit :=
  match fromtimestamp (default 0 (p_exp decoded_token)) with
  | inl e => inl e
  | inr _ => fromtimestamp (default 0 (p_iat decoded_token))
  end.

(** [verify_jwt_token]: every [except] clause returns [None], so the result
    is the decoded payload or [None]. *)
Definition verify_jwt_token (token : string) (now : Z) (net : network)
    (st : state) : option payload * state :=
  let token := strip_bearer token in
  match PyJWT.get_unverified_header token with
  | inl _ => (None, st)
  | inr unverified_header =>
      let kid := h_kid unverified_header in
      if negb (Py.truthy_str kid) then (None, st)
      else
        let '(public_keys, st1) := get_public_keys now net st in
        match public_keys !! default "" kid with
        | None => (None, st1)
        | Some key =>
            (* issuer=expected_issuer is commented out in the source *)
            let '(r, evs) :=
              PyJWT.decode token key ["RS256"] (Some "account") None
                PyJWT.default_options now in
            match r with
            | inl _ => (None, log evs st1)
            | inr decoded_token =>
                match log_dates decoded_token with
                | inl _ => (None, log evs st1)
                | inr _ => (Some decoded_token, log evs st1)
                end
            end
        end
  end.

(** The issuer the source computes and logs before decoding. *)
Definition expected_issuer : string :=
  "http://d1df8d9f5a76.ngrok-free.app/realms/kong".

End WithLibs.
End AuthService.

(** ** kong/helm-chart/python-plugins/custom-jwt-auth.py *)

Module JwtPlugin.
Section WithLibs.
Context `{L : Libs}.

Record config := {
  keycloak_base_url : option string;
  keycloak_realm : option string;
  expected_issuer : option string;
  expected_audience : option string;
  cfg_cache_ttl : option Z;
  cfg_ssl_verify : option bool
}.

(** The instance attributes of [Plugin], and the effects observed so far. *)
Record plugin := {
  cfg : config;
  jwks_cache : gmap string jwks_doc;
  cache_expiry : Z;
  cache_ttl : Z;
  trace : list event
}.

(** [Plugin.__init__] *)
Definition init (c : config) : plugin :=
  {| cfg := c; jwks_cache := ∅; cache_expiry := 0;
     cache_ttl := default 3600 (cfg_cache_ttl c); trace := [] |}.

Definition log (evs : list event) (st : plugin) : plugin :=
  {| cfg := cfg st; jwks_cache := jwks_cache st;
     cache_expiry := cache_expiry st; cache_ttl := cache_ttl st;
     trace := trace st ++ evs |}.

Definition cache_key (keycloak_base_url realm : string) : string :=
  keycloak_base_url ++ "/" ++ realm.

Definition jwks_url (keycloak_base_url realm : string) : string :=
  keycloak_base_url ++ "/realms/" ++ realm ++ "/protocol/openid-connect/certs".

(** [cache_key in self.jwks_cache and current_time < self.cache_expiry] *)
Definition cache_lookup (keycloak_base_url realm : string) (current_time : Z)
    (st : plugin) : option jwks_doc :=
  match jwks_cache st !! cache_key keycloak_base_url realm with
  | Some jwks => if current_time <? cache_expiry st then Some jwks else None
  | None => None
  end.

(** Where the first part of [_get_public_key_from_jwks] leaves control. *)
Inductive jwks_step :=
| GotJwks (jwks : jwks_doc) (st : plugin)
| Returned (r : option pubkey * option string) (st : plugin)
| Raised (e : Exc.exn) (st : plugin).

(** The inner [try] once [requests.get] has come back. *)
Definition refresh (keycloak_base_url realm : string) (current_time : Z)
    (resp : Exc.exn + jwks_doc) (st : plugin) : jwks_step :=
  let url := jwks_url keycloak_base_url realm in
  match resp with
  | inr jwks =>
      GotJwks jwks
        {| cfg := cfg st;
           jwks_cache := <[cache_key keycloak_base_url realm := jwks]> (jwks_cache st);
           cache_expiry := current_time + cache_ttl st;
           cache_ttl := cache_ttl st;
           trace := trace st |}
  | inl e =>
      match Exc.dispatch
              [(Exc.RequestException, fun e =>
                  (None, Some ("Failed to fetch JWKS from " ++ url ++ ": "
                               ++ Exc.exn_str e)));
               (Exc.JSONDecodeError, fun e =>
                  (None, Some ("Invalid JWKS response from " ++ url ++ ": "
                               ++ Exc.exn_str e)))] e with
      | Some r => Returned r st
      | None => Raised e st
      end
  end.

Definition obtain_jwks (keycloak_base_url realm : string) (ssl_verify : bool)
    (current_time : Z) (net : network) (st : plugin) : jwks_step :=
  match cache_lookup keycloak_base_url realm current_time st with
  | Some jwks => GotJwks jwks st
  | None =>
      let url := jwks_url keycloak_base_url realm in
      refresh keycloak_base_url realm current_time (net url ssl_verify)
        (log [EvFetch url] st)
  end.

(** The [for key in keys] loop with its [break]. *)
Definition find_key (keys : list jwk) (kid : string) : option jwk :=
  List.find (fun key => bool_decide (jwk_kid key = Some kid)) keys.

(** [_base64url_decode] *)
Definition _base64url_decode (data : string) : Exc.exn + list Byte.byte :=
  let padding := 4 - Z.of_nat (Py.len data) mod 4 in
  let data :=
    if negb (padding =? 4)
    then data ++ string_of_list_ascii (repeat "="%char (Z.to_nat padding))
    else data in
  urlsafe_b64decode data.

(** [int.from_bytes(b, byteorder='big')] *)
Definition int_from_bytes_big (b : list Byte.byte) : Z :=
  fold_left (fun acc x => acc * 256 + Z.of_N (Byte.to_N x)) b 0.

(** The inner [try] that builds the RSA key from [n] and [e]. *)
Definition construct_key (target_key : jwk) : option pubkey * option string :=
  let n := jwk_n target_key in
  let e := jwk_e target_key in
  if negb (Py.truthy_str n) || negb (Py.truthy_str e) then
    (None, Some "Missing RSA key components (n or e)")
  else
    let built :=
      match _base64url_decode (default "" n) with
      | inl ex => inl ex
      | inr n_bytes =>
          match _base64url_decode (default "" e) with
          | inl ex => inl ex
          | inr e_bytes =>
              rsa_public_key (int_from_bytes_big e_bytes)
                             (int_from_bytes_big n_bytes)
          end
      end in
    match built with
    | inr public_key => (Some public_key, None)
    | inl ex =>
        (None, Some ("Failed to construct RSA public key: " ++ Exc.exn_str ex))
    end.

(** Key selection and validation, after the key set is in hand. *)
Definition select_key (jwks : jwks_doc) (kid : string)
    : Exc.exn + (option pubkey * option string) :=
  match doc_keys jwks with
  | inl e => inl e
  | inr keys =>
      match find_key keys kid with
      | None =>
          inr (None, Some ("Key with kid '" ++ kid ++ "' not found in JWKS"))
      | Some target_key =>
          if negb (bool_decide (jwk_kty target_key = Some "RSA")) then
            inr (None, Some ("Unsupported key type: "
                             ++ Py.str_opt (jwk_kty target_key)))
          else if negb (bool_decide (jwk_use target_key = Some "sig")
                        || bool_decide (jwk_use target_key = None)) then
            inr (None, Some ("Key not for signature use: "
                             ++ Py.str_opt (jwk_use target_key)))
          else inr (construct_key target_key)
      end
  end.

Definition outer_handler (e : Exc.exn) : option pubkey * option string :=
  (None, Some ("Error getting public key from JWKS: " ++ Exc.exn_str e)).

Definition _get_public_key_from_jwks (keycloak_base_url realm kid : string)
    (ssl_verify : bool) (current_time : Z) (net : network) (st : plugin)
    : (option pubkey * option string) * plugin :=
  match obtain_jwks keycloak_base_url realm ssl_verify current_time net st with
  | Returned r st1 => (r, st1)
  | Raised e st1 => (outer_handler e, st1)
  | GotJwks jwks st1 =>
      match select_key jwks kid with
      | inl e => (outer_handler e, st1)
      | inr r => (r, st1)
      end
  end.

(** The options dictionary [_validate_jwt] passes to [decode], merged over
    the library's defaults: the dictionary has no [require] entry. *)
Definition decode_options : PyJWT.options :=
  {| PyJWT.verify_signature := true; PyJWT.verify_exp := true;
     PyJWT.verify_nbf := true; PyJWT.verify_iat := true;
     PyJWT.verify_aud := true; PyJWT.verify_iss := true;
     PyJWT.require := [];
     PyJWT.require_exp := true; PyJWT.require_iat := true;
     PyJWT.require_nbf := false |}.

(** The [except] clauses after [pyjwt.decode], in source order. *)
Definition decode_handlers (expected_issuer expected_audience : string)
    : list (Exc.exc_class * (Exc.exn -> string)) :=
  [ (Exc.ExpiredSignatureError, fun _ => "Token has expired");
    (Exc.InvalidTokenError, fun e => "Invalid token: " ++ Exc.exn_str e);
    (Exc.InvalidIssuerError, fun _ =>
       "Invalid issuer: expected " ++ expected_issuer);
    (Exc.InvalidAudienceError, fun _ =>
       "Invalid audience: expected " ++ expected_audience);
    (Exc.InvalidSignatureError, fun _ => "Invalid token signature");
    (Exc.Exception, fun e => "Token validation error: " ++ Exc.exn_str e) ].

(** [_validate_jwt]: the triple (is_valid, payload, error_message). *)
Definition _validate_jwt (token keycloak_base_url realm : string)
    (expected_issuer expected_audience : string) (ssl_verify : bool)
    (now : Z) (net : network) (st : plugin)
    : (bool * option payload * option string) * plugin :=
  match PyJWT.get_unverified_header token with
  | inl e => ((false, None, Some ("Invalid JWT header: " ++ Exc.exn_str e)), st)
  | inr header =>
      let kid := h_kid header in
      let alg := default "RS256" (h_alg header) in
      if negb (String.eqb alg "RS256") then
        ((false, None, Some ("Unsupported algorithm: " ++ alg)), st)
      else if negb (Py.truthy_str kid) then
        ((false, None, Some "Missing key ID (kid) in JWT header"), st)
      else
        let '((public_key, error_msg), st1) :=
          _get_public_key_from_jwks keycloak_base_url realm (default "" kid)
            ssl_verify now net st in
        match public_key with
        | None =>
            ((false, None,
              Some (if Py.truthy_str error_msg then default "" error_msg
                    else "Failed to get public key")), st1)
        | Some public_key =>
            let '(r, evs) :=
              PyJWT.decode token public_key ["RS256"] (Some expected_audience)
                (Some expected_issuer) decode_options now in
            match r with
            | inr payload => ((true, Some payload, None), log evs st1)
            | inl e =>
                match Exc.dispatch
                        (decode_handlers expected_issuer expected_audience) e with
                | Some msg => ((false, None, Some msg), log evs st1)
                | None =>
                    ((false, None,
                      Some ("JWT validation error: " ++ Exc.exn_str e)),
                     log evs st1)
                end
            end
        end
  end.

(** One call of [_get_public_key_from_jwks] with the clock reading and the
    network it meets. *)
Record lookup_call := {
  lc_base_url : string;
  lc_realm : string;
  lc_kid : string;
  lc_ssl_verify : bool;
  lc_time : Z;
  lc_net : network
}.

(** A sequence of calls on one plugin instance, each starting in the state
    the previous one left. *)
Definition run_lookups (calls : list lookup_call) (st : plugin) : plugin :=
  fold_left
    (fun s c =>
       (_get_public_key_from_jwks (lc_base_url c) (lc_realm c) (lc_kid c)
          (lc_ssl_verify c) (lc_time c) (lc_net c) s).2)
    calls st.

End WithLibs.
End JwtPlugin.

(** ** kong/helm-chart/python-plugins/custom-auth-pre-function.py *)

(** JSON values as [json.loads] returns them. *)
Inductive jval :=
| JNull
| JBool (b : bool)
| JNum (z : Z)
| JStr (s : string)
| JList (l : list jval)
| JDict (d : list (string * jval)).

Module PreFunction.

(** Python truthiness of a JSON value. *)
Definition truthy (v : jval) : bool :=
  match v with
  | JNull => false
  | JBool b => b
  | JNum z => negb (z =? 0)
  | JStr s => negb (String.eqb s "")
  | JList l => match l with [] => false | _ => true end
  | JDict d => match d with [] => false | _ => true end
  end.

Fixpoint assoc (k : string) (d : list (string * jval)) : option jval :=
  match d with
  | [] => None
  | (k', v) :: rest => if String.eqb k k' then Some v else assoc k rest
  end.

(** [v.get(k)]: raises [AttributeError] unless [v] is a dictionary. *)
Definition dict_get (v : jval) (k : string) : Exc.exn + option jval :=
  match v with
  | JDict d => inr (assoc k d)
  | _ => Exc.raise Exc.AttributeError "object has no attribute 'get'"
  end.

(** [{"error": msg}] *)
Definition err (msg : string) : jval := JDict [("error", JStr msg)].

(** [str(n)] of an integer. *)
Definition str_of_Z (n : Z) : string :=
  DecimalString.NilZero.string_of_int (Z.to_int n).

Definition rev_string (s : string) : string :=
  string_of_list_ascii (rev (list_ascii_of_string s)).

(** [s.endswith(suffix)] *)
Definition endswith (s suffix : string) : bool :=
  String.prefix (rev_string suffix) (rev_string s).

Fixpoint lstrip_char (c : ascii) (s : string) : string :=
  match s with
  | String c' s' => if Ascii.eqb c c' then lstrip_char c s' else s
  | EmptyString => EmptyString
  end.

(** [s.rstrip(c)] for a single character [c]. *)
Definition rstrip_char (c : ascii) (s : string) : string :=
  rev_string (lstrip_char c (rev_string s)).

(** The body of an [HTTPError] as the handler finds it. *)
Inductive error_fp :=
| NoFp                          (* [e.fp] is falsy *)
| Body (error_body : string)    (* [e.read().decode('utf-8')] *)
| ReadRaises (e : Exc.exn).     (* [read()] or [decode] raises [e] *)

(** [e.read().decode('utf-8') if e.fp else ""] *)
Definition read_error_body (fp : error_fp) : Exc.exn + string :=
  match fp with
  | NoFp => inr ""
  | Body error_body => inr error_body
  | ReadRaises e => inl e
  end.

(** What one pass through the [try] body does: [urlopen] answers and the
    body is read and decoded, or an exception is raised on the way. *)
Inductive urlopen_result :=
| Response (status_code : Z) (response_data : string)
| RaiseHTTPError (code : Z) (fp : error_fp)
| RaiseURLError (msg : string)
| RaiseOther (msg : string).   (* any other exception, [str(e)] = msg *)

(** The remote service: URL and attempt index to the result of the call. *)
Definition remote := string -> nat -> urlopen_result.

Record config := {
  auth_service_url : option string;
  auth_service_timeout : option Z;
  ssl_verify : option bool;
  retry_count : option Z
}.

(** What [kong.request] exposes; the Authorization header is taken after
    the source has reduced a tuple value to its first element. *)
Record request := {
  req_path : string;
  req_method : string;
  req_authorization : option string
}.

(** How [access] ends: [kong.response.exit(status, body)], or the request
    goes upstream with the headers set. *)
Inductive response :=
| Exit (status : Z) (body : jval)
| Forward (headers : list (string * jval)).

Section WithJson.

(** [json.loads] *)
Variable json_loads : string -> Exc.exn + jval.

(** [json.loads(s) if s else {}] *)
Definition loads_or_empty (s : string) : Exc.exn + jval :=
  if String.eqb s "" then inr (JDict []) else json_loads s.

(** How one iteration of the loop ends: [None] stands for [continue],
    [Some (inr r)] for [return r], and [Some (inl e)] for an exception that
    no clause of the [try] catches, which leaves [_make_http_request]. *)
Definition iteration : Type := option (Exc.exn + (bool * jval)).

(** The tail shared by the three retrying [except] clauses:
    [if attempt < retry_count: continue / else: return False, {...}]. *)
Definition retry_or (retry_count attempt : Z) (final : jval) : iteration :=
  if attempt <? retry_count then None else Some (inr (false, final)).

(** One iteration of the [for attempt in range(retry_count + 1)] loop.  The
    clause for [HTTPError] reads the error body first; an exception raised
    there is raised inside an [except] clause, so the clauses after it do
    not apply. *)
Definition attempt_once (retry_count attempt : Z) (res : urlopen_result)
    : iteration :=
  match res with
  | Response status_code response_data =>
      if status_code =? 200 then
        match json_loads response_data with
        | inr response_json => Some (inr (true, response_json))
        | inl e => retry_or retry_count attempt
                     (err ("Request error: " ++ Exc.exn_str e))
        end
      else if status_code =? 401 then
        Some (inr (false, err "Invalid or expired token"))
      else if status_code =? 403 then
        Some (inr (false, err "Access denied"))
      else
        match loads_or_empty response_data with
        | inr response_json => Some (inr (false, response_json))
        | inl e => retry_or retry_count attempt
                     (err ("Request error: " ++ Exc.exn_str e))
        end
  | RaiseHTTPError code fp =>
      match read_error_body fp with
      | inl e => Some (inl e)
      | inr error_body =>
          if (code =? 401) || (code =? 403) then
            match loads_or_empty error_body with
            | inr error_json => Some (inr (false, error_json))
            | inl _ => Some (inr (false, err ("HTTP " ++ str_of_Z code)))
            end
          else
            retry_or retry_count attempt
              (err ("HTTP " ++ str_of_Z code ++ ": " ++ error_body))
      end
  | RaiseURLError msg =>
      retry_or retry_count attempt (err ("Connection error: " ++ msg))
  | RaiseOther msg =>
      retry_or retry_count attempt (err ("Request error: " ++ msg))
  end.

(** The loop over the attempt indices still to run; [made] counts the
    [urlopen] calls issued so far. *)
Fixpoint attempts_loop (retry_count : Z) (http : nat -> urlopen_result)
    (attempts : list nat) (made : nat) : (Exc.exn + (bool * jval)) * nat :=
  match attempts with
  | [] => (inr (false, err "Max retry attempts exceeded"), made)
  | attempt :: rest =>
      match attempt_once retry_count (Z.of_nat attempt) (http attempt) with
      | Some r => (r, S made)
      | None => attempts_loop retry_count http rest (S made)
      end
  end.

(** [_make_http_request]: the pair it returns, or the exception it raises,
    and the number of HTTP calls it made. *)
Definition _make_http_request (url : string) (retry_count : Z) (net : remote)
    : (Exc.exn + (bool * jval)) * nat :=
  attempts_loop retry_count (net url)
    (seq 0 (Z.to_nat (retry_count + 1))) 0.

Definition full_auth_url (auth_service_url : string) : string :=
  if endswith auth_service_url "/auth/verify" then auth_service_url
  else rstrip_char "/"%char auth_service_url ++ "/auth/verify".

(** [_call_auth_service]; an exception anywhere in its body gives
    [(False, {"error": "Authentication service error"})]. *)
Definition _call_auth_service (c : config) (auth_service_url : string)
    (net : remote) : (bool * jval) * nat :=
  let retry_count := default 0 (retry_count c) in
  let '(r, made) :=
    _make_http_request (full_auth_url auth_service_url) retry_count net in
  match r with
  | inl _ => ((false, err "Authentication service error"), made)
  | inr (success, response_data) =>
      if negb success then
        match dict_get response_data "error" with (* evaluated for the log line *)
        | inl _ => ((false, err "Authentication service error"), made)
        | inr _ => ((false, response_data), made)
        end
      else
        match dict_get response_data "authorized" with
        | inl _ => ((false, err "Authentication service error"), made)
        | inr authorized =>
            if from_option truthy false authorized
            then ((true, response_data), made)
            else ((false, err "Access denied by auth service"), made)
        end
  end.

(** [user_data.get(k, "")] on a dictionary. *)
Definition get_or_empty (user_data : jval) (k : string) : jval :=
  match dict_get user_data k with
  | inr (Some v) => v
  | _ => JStr ""
  end.

Definition upstream_headers (user_data : jval) : list (string * jval) :=
  [ ("X-User-ID", get_or_empty user_data "user_id");
    ("X-Enterprise-ID", get_or_empty user_data "enterprise_id");
    ("X-Client-ID", get_or_empty user_data "client_id");
    ("X-Username", get_or_empty user_data "username") ]
  ++ match dict_get user_data "roles" with
     | inr (Some roles) => if truthy roles then [("X-Roles", roles)] else []
     | _ => []
     end.

(** [Plugin.access] *)
Definition access (c : config) (req : request) (net : remote) : response :=
  if negb (Py.truthy_str (auth_service_url c)) then
    Exit 500 (err "Authentication service not configured")
  else if negb (Py.truthy_str (req_authorization req)) then
    Exit 401 (err "Authorization header required")
  else
    let '((is_authorized, auth_response), _) :=
      _call_auth_service c (default "" (auth_service_url c)) net in
    if negb is_authorized then Exit 403 (err "Access denied")
    else if truthy auth_response then
      (* auth_response and auth_response.get("authorized") *)
      match dict_get auth_response "authorized" with
      | inr (Some a) =>
          if truthy a then Forward (upstream_headers auth_response)
          else Forward []
      | inr None => Forward []
      | inl _ => Exit 500 (err "Internal authentication error")
      end
    else Forward [].

End WithJson.
End PreFunction.

(** ** Concurrent invocations of a key-set lookup

    Neither source takes a lock around its cache.  A lookup is two atomic
    steps separated by the blocking HTTP call: the cache check (which either
    answers from the cache or issues the request) and the completion (which
    stores or falls back).  Workers interleave at that boundary. *)

Module Interleave.
Section Protocol.

Variables St Out Resp : Type.
(** The cache check at clock reading [t]: [Some out] on a hit. *)
Variable hit : Z -> St -> option Out.
(** Issuing the request. *)
Variable begin_fetch : St -> St.
(** The code after the request has come back. *)
Variable complete : Z -> Resp -> St -> Out * St.
(** What the network answers to worker [i]. *)
Variable resp_of : nat -> Resp.

Inductive worker :=
| Ready (t : Z)
| InFlight (t : Z)
| Finished (out : Out).

Record system := {
  shared : St;
  workers : list worker
}.

Definition step (i : nat) (sys : system) : system :=
  match workers sys !! i with
  | Some (Ready t) =>
      match hit t (shared sys) with
      | Some out =>
          {| shared := shared sys;
             workers := <[i := Finished out]> (workers sys) |}
      | None =>
          {| shared := begin_fetch (shared sys);
             workers := <[i := InFlight t]> (workers sys) |}
      end
  | Some (InFlight t) =>
      let '(out, s') := complete t (resp_of i) (shared sys) in
      {| shared := s'; workers := <[i := Finished out]> (workers sys) |}
  | Some (Finished _) | None => sys
  end.

(** A schedule names the worker that moves at each instant. *)
Definition run (schedule : list nat) (sys : system) : system :=
  fold_left (fun s i => step i s) schedule sys.

Definition start (times : list Z) (s0 : St) : system :=
  {| shared := s0; workers := map Ready times |}.

Definition is_in_flight (w : worker) : bool :=
  match w with InFlight _ => true | _ => false end.

Definition is_ready (w : worker) : bool :=
  match w with Ready _ => true | _ => false end.

Definition in_flight (sys : system) : nat :=
  length (List.filter is_in_flight (workers sys)).

Definition ready (sys : system) : nat :=
  length (List.filter is_ready (workers sys)).

(** Every worker checks the cache, then every worker completes. *)
Definition stampede (n : nat) : list nat := seq 0 n ++ seq 0 n.

End Protocol.

Arguments Ready {Out} t.
Arguments InFlight {Out} t.
Arguments Finished {Out} out.
Arguments shared {St Out} _.
Arguments workers {St Out} _.
Arguments Build_system {St Out} _ _.
Arguments step {St Out Resp} hit begin_fetch complete resp_of i sys.
Arguments run {St Out Resp} hit begin_fetch complete resp_of schedule sys.
Arguments start {St Out} times s0.
Arguments is_in_flight {Out} w.
Arguments is_ready {Out} w.
Arguments in_flight {St Out} sys.
Arguments ready {St Out} sys.

End Interleave.

(** Concurrent [get_public_keys] calls of the auth service. *)
Module AuthServiceWorkers.
Section WithLibs.
Context `{L : Libs}.
Variable KEYCLOAK_REALM : string.

Definition system : Type :=
  Interleave.system AuthService.state (gmap string pubkey).

Definition run (resp_of : nat -> Exc.exn + jwks_doc)
    (schedule : list nat) (sys : system) : system :=
  Interleave.run
    AuthService.cache_lookup
    (AuthService.log [EvFetch (AuthService.JWKS_URL KEYCLOAK_REALM)])
    AuthService.refresh resp_of schedule sys.

Definition fetches (sys : system) : nat :=
  fetch_count (AuthService.trace (Interleave.shared sys)).

End WithLibs.
End AuthServiceWorkers.

(** Concurrent [_get_public_key_from_jwks] calls on one plugin instance,
    all for the same (base URL, realm) pair. *)
Module JwtPluginWorkers.
Section WithLibs.
Context `{L : Libs}.
Variables keycloak_base_url realm : string.

Definition step_state (r : JwtPlugin.jwks_step) : JwtPlugin.plugin :=
  match r with
  | JwtPlugin.GotJwks _ st | JwtPlugin.Returned _ st | JwtPlugin.Raised _ st => st
  end.

Definition hit (t : Z) (st : JwtPlugin.plugin) : option JwtPlugin.jwks_step :=
  match JwtPlugin.cache_lookup keycloak_base_url realm t st with
  | Some jwks => Some (JwtPlugin.GotJwks jwks st)
  | None => None
  end.

Definition complete (t : Z) (resp : Exc.exn + jwks_doc) (st : JwtPlugin.plugin)
    : JwtPlugin.jwks_step * JwtPlugin.plugin :=
  let r := JwtPlugin.refresh keycloak_base_url realm t resp st in
  (r, step_state r).

Definition system : Type :=
  Interleave.system JwtPlugin.plugin JwtPlugin.jwks_step.

Definition run (resp_of : nat -> Exc.exn + jwks_doc)
    (schedule : list nat) (sys : system) : system :=
  Interleave.run hit
    (JwtPlugin.log [EvFetch (JwtPlugin.jwks_url keycloak_base_url realm)])
    complete resp_of schedule sys.

Definition fetches (sys : system) : nat :=
  fetch_count (JwtPlugin.trace (Interleave.shared sys)).

End WithLibs.
End JwtPluginWorkers.

(** ** services/auth-service/app.py: the HTTP handlers *)

Module AuthServiceApi.

(** The JSON bodies the handlers answer with. *)
Inductive api_body :=
| BError (error : string)                       (* {"error": ...} *)
| BInvalid (error : string)                     (* {"valid": False, "error": ...} *)
| BAuthorized (user_id : option string)
    (enterprise_id client_id username timestamp : string)
| BValid (user_id client_id : option string) (expires_at : option Z)
    (timestamp : string).

(** Truthiness of the decoded claims dictionary. *)
Definition payload_truthy (p : payload) : bool :=
  bool_decide (is_Some (p_sub p)) || bool_decide (is_Some (p_iss p))
  || bool_decide (is_Some (p_aud p)) || bool_decide (is_Some (p_exp p))
  || bool_decide (is_Some (p_iat p)) || bool_decide (is_Some (p_nbf p))
  || bool_decide (is_Some (p_client_id p))
  || bool_decide (is_Some (p_preferred_username p))
  || bool_decide (is_Some (p_email p))
  || bool_decide (is_Some (p_realm_access p)).

(** The request body is whatever JSON value the client sent; its members
    are read with [data.get(k)], which gives [None] (here [JNull]) for a
    missing key.  Numbers are integers: a float passes or fails every test
    below as an integer does. *)
Definition get (d : list (string * jval)) (k : string) : jval :=
  default JNull (PreFunction.assoc k d).

(** Whether [len(v)] is defined. *)
Definition has_len (v : jval) : bool :=
  match v with
  | JStr _ | JList _ | JDict _ => true
  | JNull | JBool _ | JNum _ => false
  end.

(** [v == s] for a string literal [s]. *)
Definition eq_str (v : jval) (s : string) : bool :=
  match v with
  | JStr x => String.eqb x s
  | _ => false
  end.

(** [v in [s1, ..., sn]] for string literals. *)
Definition in_strs (v : jval) (l : list string) : bool :=
  existsb (eq_str v) l.

(** [needle in v] for a string literal [needle]: a substring test on a
    string, membership on a list, a key test on a dictionary; [None],
    booleans and numbers are not iterable. *)
Definition contains (needle : string) (v : jval) : Exc.exn + bool :=
  match v with
  | JStr s => inr (Py.str_in needle s)
  | JList l => inr (existsb (fun x => eq_str x needle) l)
  | JDict d => inr (bool_decide (is_Some (PreFunction.assoc needle d)))
  | JNull | JBool _ | JNum _ =>
      Exc.raise Exc.TypeError "argument is not iterable"
  end.

(** [is_authorized] as the handler calls it, on the path and method values
    of the body.  On strings it is [Authz.is_authorized]. *)
Definition is_authorized (decoded_token : payload) (api_path method : jval)
    : Exc.exn + bool :=
  let roles := roles_of decoded_token in
  let has_default_access := (0 <? Z.of_nat (length roles)) in
  match contains "/orders" api_path with
  | inl e => inl e
  | inr true =>
      if eq_str method "GET" then inr (Py.in_list "offline_access" roles)
      else if eq_str method "POST" then
        inr (Py.in_list "uma_authorization" roles)
      else if in_strs method ["PUT"; "DELETE"] then
        inr (Py.in_list "default-roles-kong" roles)
      else inr has_default_access
  | inr false =>
      match contains "/inventory" api_path with
      | inl e => inl e
      | inr true =>
          if eq_str method "GET" then inr true
          else if in_strs method ["PUT"; "POST"; "DELETE"] then
            inr (Py.in_list "uma_authorization" roles)
          else inr has_default_access
      | inr false => inr has_default_access
      end
  end.

Definition internal_error : Z * api_body :=
  (500, BError "Internal server error").

Section WithLibs.
Context `{L : Libs}.
Variable KEYCLOAK_REALM : string.

(** [verify_jwt_token(token)] on the token value of the body: on a value
    that is not a string, [token.startswith] raises inside the function's
    [try] and the result is [None]. *)
Definition verify_token (token : jval) (now : Z) (net : network)
    (st : AuthService.state) : option payload * AuthService.state :=
  match token with
  | JStr s => AuthService.verify_jwt_token KEYCLOAK_REALM s now net st
  | _ => (None, st)
  end.

(** [verify_auth], the handler of POST /auth/verify.  [body] is what
    [request.get_json()] does (it may raise), [timestamp] is
    [datetime.utcnow().isoformat()].  Every exception inside the handler
    gives the answer 500. *)
Definition verify_auth (body : Exc.exn + jval) (now : Z)
    (timestamp : string) (net : network) (st : AuthService.state)
    : (Z * api_body) * AuthService.state :=
  match body with
  | inl _ => (internal_error, st)
  | inr data =>
      if negb (PreFunction.truthy data) then
        ((400, BError "No JSON payload provided"), st)
      else
        match data with
        | JDict d =>
            let api_path := get d "path" in
            let method := get d "method" in
            let token := get d "token" in
            (* the log line evaluates len(token) if token else 0 *)
            if PreFunction.truthy token && negb (has_len token) then
              (internal_error, st)
            else if negb (PreFunction.truthy api_path
                          && PreFunction.truthy method
                          && PreFunction.truthy token) then
              ((400, BError "Missing required fields: path, method, token"), st)
            else
              let '(decoded_token, st1) := verify_token token now net st in
              match decoded_token with
              | None => ((401, BError "Invalid or expired token"), st1)
              | Some decoded_token =>
                  if negb (payload_truthy decoded_token) then
                    ((401, BError "Invalid or expired token"), st1)
                  else
                    let user_id := p_sub decoded_token in
                    let client_id :=
                      default "unknown" (p_client_id decoded_token) in
                    let preferred_username :=
                      default "unknown" (p_preferred_username decoded_token) in
                    let enterprise_id :=
                      Authz.determine_enterprise_id decoded_token
                        api_path method in
                    match is_authorized decoded_token api_path method with
                    | inl _ => (internal_error, st1)
                    | inr is_auth =>
                        if negb is_auth then
                          ((403, BError "Access denied"), st1)
                        else
                          ((200, BAuthorized user_id enterprise_id client_id
                                   preferred_username timestamp), st1)
                    end
              end
        | _ => (internal_error, st)   (* data.keys() raises *)
        end
  end.

(** [verify_token_only], the handler of POST /auth/token/verify. *)
Definition verify_token_only (body : Exc.exn + jval) (now : Z)
    (timestamp : string) (net : network) (st : AuthService.state)
    : (Z * api_body) * AuthService.state :=
  match body with
  | inl _ => (internal_error, st)
  | inr data =>
      if negb (PreFunction.truthy data) then
        ((400, BError "No JSON payload provided"), st)
      else
        match data with
        | JDict d =>
            let token := get d "token" in
            if PreFunction.truthy token && negb (has_len token) then
              (internal_error, st)
            else if negb (PreFunction.truthy token) then
              ((400, BError "Missing token field"), st)
            else
              let '(decoded_token, st1) := verify_token token now net st in
              match decoded_token with
              | None => ((401, BInvalid "Invalid or expired token"), st1)
              | Some decoded_token =>
                  if negb (payload_truthy decoded_token) then
                    ((401, BInvalid "Invalid or expired token"), st1)
                  else
                    ((200, BValid (p_sub decoded_token)
                             (p_client_id decoded_token)
                             (p_exp decoded_token) timestamp), st1)
              end
        | _ => (internal_error, st)   (* data.keys() raises *)
        end
  end.

End WithLibs.
End AuthServiceApi.

(** ** custom-jwt-auth.py: the access phase and the base64 padding *)

Module JwtPluginApi.

(** How [access] ends: [kong.response.exit(status, body)] with the body's
    entries, or the request goes upstream with the headers set. *)
Inductive outcome :=
| Exit (status : Z) (body : list (string * string))
| Forward (headers : list (string * string)).

(** The argument [_base64url_decode] hands to [urlsafe_b64decode]. *)
Definition pad_base64url (data : string) : string :=
  let padding := 4 - Z.of_nat (Py.len data) mod 4 in
  if negb (padding =? 4)
  then data ++ string_of_list_ascii (repeat "="%char (Z.to_nat padding))
  else data.

Section WithLibs.
Context `{L : Libs}.

(** The headers set for the upstream service from the claims. *)
Definition identity_headers (p : payload) : list (string * string) :=
  [ ("X-User-ID", default "" (p_sub p));
    ("X-Username", default "" (p_preferred_username p));
    ("X-User-Email", default "" (p_email p));
    ("X-User-Roles", String.concat "," (roles_of p)) ].

(** [Plugin.access]; [auth_header] is the Authorization header after a
    tuple value has been reduced to its first element. *)
Definition access (auth_header : option string) (now : Z) (net : network)
    (st : JwtPlugin.plugin) : outcome * JwtPlugin.plugin :=
  let c := JwtPlugin.cfg st in
  if negb (Py.truthy_str (JwtPlugin.keycloak_base_url c)
           && Py.truthy_str (JwtPlugin.keycloak_realm c)
           && Py.truthy_str (JwtPlugin.expected_issuer c)
           && Py.truthy_str (JwtPlugin.expected_audience c)) then
    (Exit 500 [("error", "Plugin configuration error")], st)
  else if negb (Py.truthy_str auth_header) then
    (Exit 401 [("error", "Authorization Required");
               ("message", "Missing Authorization header")], st)
  else if negb (Py.startswith (default "" auth_header) "Bearer ") then
    (Exit 401 [("error", "Invalid Authorization Format");
               ("message", "Authorization header must start with 'Bearer '")],
     st)
  else
    let jwt_token := Py.drop_chars 7 (default "" auth_header) in
    let '((is_valid, payload, error_msg), st1) :=
      JwtPlugin._validate_jwt jwt_token
        (default "" (JwtPlugin.keycloak_base_url c))
        (default "" (JwtPlugin.keycloak_realm c))
        (default "" (JwtPlugin.expected_issuer c))
        (default "" (JwtPlugin.expected_audience c))
        (default false (JwtPlugin.cfg_ssl_verify c)) now net st in
    if negb is_valid then
      (Exit 401 [("error", "Invalid Token");
                 ("message", Py.str_opt error_msg)], st1)
    else
      match payload with
      | Some p =>
          if AuthServiceApi.payload_truthy p
          then (Forward (identity_headers p), st1)
          else (Forward [], st1)
      | None => (Forward [], st1)
      end.

End WithLibs.
End JwtPluginApi.

(** ** Sample data: a small identity provider and a few tokens *)

Module Sample.

Definition claims (iss aud : string) (roles : list string) : payload :=
  {| p_sub := Some "user-1"; p_iss := Some iss; p_aud := Some (AudStr aud);
     p_exp := Some 2000; p_iat := Some 900; p_nbf := None;
     p_client_id := Some "kong_client";
     p_preferred_username := Some "alice"; p_email := None;
     p_realm_access := Some {| ra_roles := Some roles |} |}.

Definition with_roles (roles : list string) : payload :=
  claims "http://d1df8d9f5a76.ngrok-free.app/realms/kong" "account" roles.

Definition hdr (alg kid : string) : header :=
  {| h_alg := Some alg; h_kid := Some kid; h_typ := Some "JWT" |}.

Definition good_claims : payload := with_roles ["offline_access"].

Definition evil_issuer_claims : payload :=
  claims "http://evil.example/realms/kong" "account" ["offline_access"].

(** Claims without [exp], [iat] and [nbf]. *)
Definition undated_claims : payload :=
  {| p_sub := Some "user-1";
     p_iss := Some "http://d1df8d9f5a76.ngrok-free.app/realms/kong";
     p_aud := Some (AudStr "account");
     p_exp := None; p_iat := None; p_nbf := None;
     p_client_id := Some "kong_client";
     p_preferred_username := Some "alice"; p_email := None;
     p_realm_access := Some {| ra_roles := Some ["offline_access"] |} |}.

(** The tokens the sample parser knows; anything else does not parse. *)
Definition load (token : string) : Exc.exn + jws :=
  if String.eqb token "t.good" then
    inr {| jws_header := hdr "RS256" "k1"; jws_payload := Some good_claims |}
  else if String.eqb token "t.evil-issuer" then
    inr {| jws_header := hdr "RS256" "k1";
           jws_payload := Some evil_issuer_claims |}
  else if String.eqb token "t.hs256" then
    inr {| jws_header := hdr "HS256" "k1"; jws_payload := Some good_claims |}
  else if String.eqb token "t.unknown-kid" then
    inr {| jws_header := hdr "RS256" "k9"; jws_payload := Some good_claims |}
  else if String.eqb token "t.undated" then
    inr {| jws_header := hdr "RS256" "k1"; jws_payload := Some undated_claims |}
  else Exc.raise Exc.DecodeError "Not enough segments".

(** Dates run from year 1 to year 9999. *)
Definition year_9999 (t : Z) : Exc.exn + unit :=
  if (-62135596800 <=? t) && (t <=? 253402300799) then inr tt
  else Exc.raise Exc.ValueError "year is out of range".

(** A public key is named by a string; the provider's key is "key-1" and
    every sample token carries a signature made with it. *)
Definition libs : Libs :=
  {| pubkey := string;
     jws_load := load;
     sig_verifies := fun _ key => String.eqb key "key-1";
     from_jwk := fun _ => inr "key-1";
     urlsafe_b64decode := fun _ => inr [];
     rsa_public_key := fun _ _ => inr "key-1";
     fromtimestamp := year_9999 |}.

Definition key1 : jwk :=
  {| jwk_kid := Some "k1"; jwk_kty := Some "RSA"; jwk_use := Some "sig";
     jwk_alg := Some "RS256"; jwk_n := Some "AQAB"; jwk_e := Some "AQAB" |}.

Definition jwks : jwks_doc := JwksObject (Some [key1]).

Definition net_up : network := fun _ _ => inr jwks.

Definition net_down : network :=
  fun _ _ => Exc.raise Exc.RequestException "connection refused".

(** A provider that answers with a key set that holds no key. *)
Definition net_no_keys : network := fun _ _ => inr (JwksObject (Some [])).

(** A remote verifier that is unreachable, and one that always answers 500. *)
Definition remote_unreachable : PreFunction.remote :=
  fun _ _ => PreFunction.RaiseURLError "connection refused".

Definition remote_500 : PreFunction.remote :=
  fun _ _ => PreFunction.RaiseHTTPError 500 (PreFunction.Body "").

Definition remote_403_then_200 : PreFunction.remote :=
  fun _ attempt =>
    match attempt with
    | O => PreFunction.RaiseHTTPError 403 (PreFunction.Body "")
    | _ => PreFunction.Response 200 "ok"
    end.

Definition loads (s : string) : Exc.exn + jval :=
  if String.eqb s "ok" then inr (JDict [("authorized", JBool true)])
  else Exc.raise Exc.JSONDecodeError "Expecting value".

Definition plugin_config : JwtPlugin.config :=
  {| JwtPlugin.keycloak_base_url := Some "https://idp.example";
     JwtPlugin.keycloak_realm := Some "kong";
     JwtPlugin.expected_issuer :=
       Some "http://d1df8d9f5a76.ngrok-free.app/realms/kong";
     JwtPlugin.expected_audience := Some "account";
     JwtPlugin.cfg_cache_ttl := None;
     JwtPlugin.cfg_ssl_verify := None |}.

Definition prefunction_config (retries : Z) : PreFunction.config :=
  {| PreFunction.auth_service_url := Some "http://auth-service:8003";
     PreFunction.auth_service_timeout := None;
     PreFunction.ssl_verify := None;
     PreFunction.retry_count := Some retries |}.

Definition get_orders : PreFunction.request :=
  {| PreFunction.req_path := "/api/custom/orders";
     PreFunction.req_method := "GET";
     PreFunction.req_authorization := Some "Bearer t.good" |}.

(** The plugin after one successful lookup at time 0: the key set of the
    pair is cached until 3600. *)
Definition warm_plugin : JwtPlugin.plugin :=
  JwtPluginWorkers.step_state
    (JwtPlugin.obtain_jwks (L := libs) "https://idp.example" "kong" false 0
       net_up (JwtPlugin.init plugin_config)).

(** The auth service after one successful lookup at time 0. *)
Definition warm_service : AuthService.state (L := libs) :=
  (AuthService.get_public_keys (L := libs) "kong" 0 net_up
     AuthService.initial_state).2.

(** A second set of libraries whose [from_jwk] accepts RSA keys only and
    names the key it builds by its modulus. *)
Definition strict_libs : Libs :=
  {| pubkey := string;
     jws_load := load;
     sig_verifies := fun _ key => String.eqb key "AQAB";
     from_jwk := fun k =>
       if bool_decide (jwk_kty k = Some "RSA") then inr (default "" (jwk_n k))
       else Exc.raise Exc.InvalidKeyError "Not an RSA key";
     urlsafe_b64decode := fun _ => inr [];
     rsa_public_key := fun _ _ => inr "AQAB";
     fromtimestamp := year_9999 |}.

Definition ec_key : jwk :=
  {| jwk_kid := Some "k2"; jwk_kty := Some "EC"; jwk_use := Some "sig";
     jwk_alg := Some "ES256"; jwk_n := None; jwk_e := None |}.

Definition key1_rotated : jwk :=
  {| jwk_kid := Some "k1"; jwk_kty := Some "RSA"; jwk_use := Some "sig";
     jwk_alg := Some "RS256"; jwk_n := Some "BBBB"; jwk_e := Some "AQAB" |}.

(** A provider that publishes an RSA key and an EC key. *)
Definition net_mixed : network :=
  fun _ _ => inr (JwksObject (Some [key1; ec_key])).

Definition warm_strict_service : AuthService.state (L := strict_libs) :=
  (AuthService.get_public_keys (L := strict_libs) "kong" 0 net_up
     AuthService.initial_state).2.

(** Request bodies for the auth service's handlers: a POST on the orders
    API, a body without a token, and a body whose path is a number. *)
Definition post_orders_body : jval :=
  JDict [("path", JStr "/api/custom/orders"); ("method", JStr "POST");
         ("token", JStr "Bearer t.good")].

Definition no_token_body : jval :=
  JDict [("path", JStr "/api/custom/orders"); ("method", JStr "GET")].

Definition numeric_path_body : jval :=
  JDict [("path", JNum 123); ("method", JStr "GET");
         ("token", JStr "Bearer t.good")].

(** Remote verifiers: one that recovers after a 500, one that answers 200
    with a body that is not JSON, one that answers 204 with no body. *)
Definition remote_500_then_200 : PreFunction.remote :=
  fun _ attempt =>
    match attempt with
    | O => PreFunction.RaiseHTTPError 500 (PreFunction.Body "")
    | _ => PreFunction.Response 200 "ok"
    end.

(** A verifier whose first answer is a 500 whose body breaks off while it
    is read, and that would answer 200 afterwards. *)
Definition remote_broken_500_then_200 : PreFunction.remote :=
  fun _ attempt =>
    match attempt with
    | O => PreFunction.RaiseHTTPError 500
             (PreFunction.ReadRaises
                {| Exc.exn_class := Exc.OSError;
                   Exc.exn_str := "Connection reset by peer" |})
    | _ => PreFunction.Response 200 "ok"
    end.

Definition remote_garbage : PreFunction.remote :=
  fun _ _ => PreFunction.Response 200 "<html>".

Definition remote_204 : PreFunction.remote :=
  fun _ _ => PreFunction.Response 204 "".

(** Two later lookups for the same pair, for different kids, while the
    provider is down. *)
Definition later_lookups : list (JwtPlugin.lookup_call) :=
  [ {| JwtPlugin.lc_base_url := "https://idp.example";
       JwtPlugin.lc_realm := "kong"; JwtPlugin.lc_kid := "k1";
       JwtPlugin.lc_ssl_verify := false; JwtPlugin.lc_time := 10;
       JwtPlugin.lc_net := net_down |};
    {| JwtPlugin.lc_base_url := "https://idp.example";
       JwtPlugin.lc_realm := "kong"; JwtPlugin.lc_kid := "k9";
       JwtPlugin.lc_ssl_verify := false; JwtPlugin.lc_time := 3599;
       JwtPlugin.lc_net := net_down |} ].

End Sample.

(** ** Vocabulary for the retry loop

    How the outcome of one HTTP attempt is classified in the statements
    below.  [urllib] raises [HTTPError] for every 4xx and 5xx status. *)

Module Attempt.

(** HTTP 401 or 403, however it reaches the loop. *)
Definition is_denial (res : PreFunction.urlopen_result) : bool :=
  match res with
  | PreFunction.RaiseHTTPError code _
  | PreFunction.Response code _ => (code =? 401) || (code =? 403)
  | _ => false
  end.

(** Any other error status, or a failure below HTTP. *)
Definition is_transient (res : PreFunction.urlopen_result) : bool :=
  match res with
  | PreFunction.RaiseHTTPError code _ => negb ((code =? 401) || (code =? 403))
  | PreFunction.RaiseURLError _ | PreFunction.RaiseOther _ => true
  | PreFunction.Response _ _ => false
  end.

(** Whether the handler gets hold of the error body: false only for an
    [HTTPError] whose body cannot be read or decoded. *)
Definition readable (res : PreFunction.urlopen_result) : bool :=
  match res with
  | PreFunction.RaiseHTTPError _ (PreFunction.ReadRaises _) => false
  | _ => true
  end.

(** A transient failure that the loop gets to handle. *)
Definition is_retried (res : PreFunction.urlopen_result) : bool :=
  is_transient res && readable res.

(** The error dictionary the loop builds from a transient failure. *)
Definition report (res : PreFunction.urlopen_result) : jval :=
  match res with
  | PreFunction.RaiseHTTPError code fp =>
      PreFunction.err
        ("HTTP " ++ PreFunction.str_of_Z code ++ ": "
         ++ match PreFunction.read_error_body fp with
            | inr error_body => error_body
            | inl _ => ""
            end)
  | PreFunction.RaiseURLError msg =>
      PreFunction.err ("Connection error: " ++ msg)
  | PreFunction.RaiseOther msg => PreFunction.err ("Request error: " ++ msg)
  | PreFunction.Response _ _ => JNull
  end.

End Attempt.

(** * Properties *)

(** ** Authorization decision engine *)

Section AuthzFacts.

Lemma in_list_spec (x : string) (l : list string) :
  Py.in_list x l = true <-> x ∈ l.
Proof.
  unfold Py.in_list. rewrite existsb_exists. split.
  - intros (y & Hy & He). apply String.eqb_eq in He. subst y.
    now apply list_elem_of_In.
  - intros H. exists x. split; [now apply list_elem_of_In | apply String.eqb_refl].
Qed.

Lemma in_list_false (x : string) (l : list string) :
  Py.in_list x l = false <-> x ∉ l.
Proof.
  rewrite <- in_list_spec. destruct (Py.in_list x l); split; congruence.
Qed.

Lemma has_any_role (roles : list string) :
  (0 <? Z.of_nat (length roles)) = true <-> roles <> [].
Proof.
  destruct roles as [|r rs]; simpl.
  - split; [discriminate | congruence].
  - split; [discriminate | intros _; apply Z.ltb_lt; lia].
Qed.

(** Outside GET, POST, PUT and DELETE no rule block returns. *)
Lemma rule_decision_unhandled (roles : list string) (p m : string) :
  m ∉ ["GET"; "POST"; "PUT"; "DELETE"] ->
  Authz.rule_decision roles p m = None.
Proof.
  intros Hm.
  rewrite !not_elem_of_cons in Hm. destruct Hm as (Hg & Hpo & Hpu & Hd & _).
  assert (String.eqb m "GET" = false) as Hget by now apply String.eqb_neq.
  assert (String.eqb m "POST" = false) as Hpost by now apply String.eqb_neq.
  assert (Py.in_list m ["PUT"; "DELETE"] = false) as Hpd.
  { apply in_list_false. rewrite !not_elem_of_cons. repeat split; auto.
    apply not_elem_of_nil. }
  assert (Py.in_list m ["PUT"; "POST"; "DELETE"] = false) as Hppd.
  { apply in_list_false. rewrite !not_elem_of_cons. repeat split; auto.
    apply not_elem_of_nil. }
  unfold Authz.rule_decision.
  rewrite Hget, Hpost, Hpd, Hppd.
  destruct (Py.str_in "/orders" p), (Py.str_in "/inventory" p); reflexivity.
Qed.

End AuthzFacts.

(** C7, as stated, fails on the code: a path that contains both [/orders]
    and [/inventory] is decided by the orders rules, so a GET on a path
    matching [/inventory] is not always allowed. *)
Lemma c7_inventory_get_not_always_allowed :
  ~ (forall (c : payload) (p : string),
       Py.str_in "/inventory" p = true ->
       Authz.is_authorized c p "GET" = true).
Proof.
  intros H.
  specialize (H (Sample.with_roles []) "/orders/inventory" eq_refl).
  vm_compute in H. discriminate.
Qed.

(** C7 (amended): the decision table of [is_authorized], where a path
    matches a prefix when it contains it, and the orders rules take
    precedence over the inventory rules.  With role list R:
    on a path containing [/orders], GET is allowed iff offline_access is in
    R, POST iff uma_authorization is in R, PUT and DELETE iff
    default-roles-kong is in R; on a path containing [/inventory] but not
    [/orders], GET is always allowed and PUT, POST, DELETE are allowed iff
    uma_authorization is in R; on a path containing neither, every method is
    allowed iff R is non-empty. *)
Theorem c7_policy_table (c : payload) (p : string) :
  (Py.str_in "/orders" p = true ->
     (Authz.is_authorized c p "GET" = true <-> "offline_access" ∈ roles_of c) /\
     (Authz.is_authorized c p "POST" = true <-> "uma_authorization" ∈ roles_of c) /\
     (Authz.is_authorized c p "PUT" = true <-> "default-roles-kong" ∈ roles_of c) /\
     (Authz.is_authorized c p "DELETE" = true <-> "default-roles-kong" ∈ roles_of c)) /\
  (Py.str_in "/orders" p = false -> Py.str_in "/inventory" p = true ->
     Authz.is_authorized c p "GET" = true /\
     (forall m, m ∈ ["PUT"; "POST"; "DELETE"] ->
        (Authz.is_authorized c p m = true <-> "uma_authorization" ∈ roles_of c))) /\
  (Py.str_in "/orders" p = false -> Py.str_in "/inventory" p = false ->
     forall m, Authz.is_authorized c p m = true <-> roles_of c <> []).
Proof.
  unfold Authz.is_authorized, Authz.rule_decision.
  split; [| split].
  - intros ->. cbn. rewrite !in_list_spec. tauto.
  - intros -> ->. split; [reflexivity |].
    intros m Hm.
    rewrite !elem_of_cons in Hm.
    destruct Hm as [-> | [-> | [-> | Hm]]];
      [cbn; apply in_list_spec .. | now apply elem_of_nil in Hm].
  - intros -> -> m. apply has_any_role.
Qed.

Lemma c7_policy_table_witness :
  (Authz.is_authorized (Sample.with_roles ["offline_access"])
     "/api/custom/orders" "GET" = true
   <-> "offline_access" ∈ roles_of (Sample.with_roles ["offline_access"])) /\
  Authz.is_authorized (Sample.with_roles []) "/api/custom/inventory" "GET" = true /\
  (Authz.is_authorized (Sample.with_roles []) "/health" "GET" = true
   <-> roles_of (Sample.with_roles []) <> []).
Proof.
  split; [| split].
  - destruct (c7_policy_table (Sample.with_roles ["offline_access"])
                "/api/custom/orders") as (Ho & _ & _).
    exact (proj1 (Ho eq_refl)).
  - destruct (c7_policy_table (Sample.with_roles []) "/api/custom/inventory")
      as (_ & Hi & _).
    exact (proj1 (Hi eq_refl eq_refl)).
  - destruct (c7_policy_table (Sample.with_roles []) "/health") as (_ & _ & Hd).
    exact (Hd eq_refl eq_refl "GET").
Defined.

(** C10: for a method other than GET, POST, PUT and DELETE no rule block of
    [is_authorized] returns, on any path (in particular one containing
    [/orders] or [/inventory]), and the request is authorized iff the role
    list is non-empty. *)
Theorem c10_unhandled_method_default (c : payload) (p m : string) :
  m ∉ ["GET"; "POST"; "PUT"; "DELETE"] ->
  Authz.rule_decision (roles_of c) p m = None /\
  (Authz.is_authorized c p m = true <-> roles_of c <> []).
Proof.
  intros Hm. pose proof (rule_decision_unhandled (roles_of c) p m Hm) as Hd.
  split; [exact Hd |].
  unfold Authz.is_authorized. rewrite Hd. apply has_any_role.
Qed.

Lemma c10_unhandled_method_default_witness :
  Authz.rule_decision (roles_of (Sample.with_roles ["viewer"]))
    "/api/custom/orders" "PATCH" = None /\
  (Authz.is_authorized (Sample.with_roles ["viewer"]) "/api/custom/orders" "PATCH"
     = true <-> roles_of (Sample.with_roles ["viewer"]) <> []).
Proof.
  apply (c10_unhandled_method_default (Sample.with_roles ["viewer"])
           "/api/custom/orders" "PATCH").
  intros H. repeat (apply elem_of_cons in H as [H | H]; [discriminate H |]).
  inversion H.
Defined.

(** ** Token verification *)

Section TokenFacts.
Context `{L : Libs}.

Lemma sigcheck_count_app (a b : list event) :
  sigcheck_count (a ++ b) = (sigcheck_count a + sigcheck_count b)%nat.
Proof. unfold sigcheck_count. now rewrite List.filter_app, length_app. Qed.

Lemma fetch_count_app (a b : list event) :
  fetch_count (a ++ b) = (fetch_count a + fetch_count b)%nat.
Proof. unfold fetch_count. now rewrite List.filter_app, length_app. Qed.

(** A header algorithm outside the allowed list stops [decode] before the
    signature is looked at. *)
Lemma decode_rejects_algorithm (token : string) (j : jws) (alg : string)
    (key : pubkey) (audience issuer : option string) (o : PyJWT.options)
    (now : Z) :
  jws_load token = inr j ->
  h_alg (jws_header j) = Some alg ->
  alg <> "RS256" ->
  PyJWT.verify_signature o = true ->
  exists e, PyJWT.decode token key ["RS256"] audience issuer o now = (inl e, []).
Proof.
  intros Hload Halg Hne Hv. unfold PyJWT.decode. rewrite Hload, Hv.
  unfold PyJWT.verify_signature_step. rewrite Halg.
  assert (Py.in_list alg ["RS256"] = false) as ->.
  { cbn. apply String.eqb_neq in Hne. now rewrite Hne. }
  rewrite orb_true_r. cbn. eauto.
Qed.

(** The auth service never changes its trace except by appending the
    key-set fetch. *)
Lemma get_public_keys_sigchecks (realm : string) (now : Z) (net : network)
    (st : AuthService.state) :
  sigcheck_count (AuthService.trace (AuthService.get_public_keys realm now net st).2)
  = sigcheck_count (AuthService.trace st).
Proof.
  unfold AuthService.get_public_keys.
  destruct (AuthService.cache_lookup now st); [reflexivity |].
  unfold AuthService.refresh.
  destruct (AuthService.parse_keys _); cbn -[sigcheck_count];
    rewrite sigcheck_count_app; cbn; lia.
Qed.

Lemma obtain_jwks_sigchecks (base realm : string) (ssl : bool) (now : Z)
    (net : network) (st st1 : JwtPlugin.plugin) (jwks : jwks_doc) :
  JwtPlugin.obtain_jwks base realm ssl now net st = JwtPlugin.GotJwks jwks st1 ->
  sigcheck_count (JwtPlugin.trace st1) = sigcheck_count (JwtPlugin.trace st).
Proof.
  unfold JwtPlugin.obtain_jwks.
  destruct (JwtPlugin.cache_lookup base realm now st).
  - intros [= _ <-]. reflexivity.
  - unfold JwtPlugin.refresh. destruct (net _ _) as [e | doc].
    + destruct (Exc.dispatch _ e); discriminate.
    + intros [= _ <-]. cbn -[sigcheck_count].
      rewrite sigcheck_count_app. cbn. lia.
Qed.

Lemma find_key_absent (keys : list jwk) (kid : string) :
  (forall key, key ∈ keys -> jwk_kid key <> Some kid) ->
  JwtPlugin.find_key keys kid = None.
Proof.
  unfold JwtPlugin.find_key.
  induction keys as [|key rest IH]; intros H; [reflexivity |].
  cbn. rewrite bool_decide_eq_false_2 by (apply H; left).
  apply IH. intros key' Hin. apply H. now right.
Qed.

End TokenFacts.

Section TokenClaims.
Context `{L : Libs}.

(** When [decode] is given an issuer and returns a payload, the payload's
    [iss] is that issuer. *)
Lemma decode_checks_issuer (token : string) (key : pubkey)
    (algorithms : list string) (audience : option string) (issuer : string)
    (o : PyJWT.options) (now : Z) (p : payload) (evs : list event) :
  PyJWT.verify_iss o = true ->
  PyJWT.decode token key algorithms audience (Some issuer) o now = (inr p, evs) ->
  p_iss p = Some issuer.
Proof.
  intros Hv. unfold PyJWT.decode.
  destruct (jws_load token) as [e | j]; [discriminate |].
  destruct (if PyJWT.verify_signature o then _ else _) as [[e | []] evs'];
    [discriminate |].
  destruct (jws_payload j) as [p' |]; [| discriminate].
  destruct (PyJWT.validate_claims p' o audience (Some issuer) now) eqn:Hc;
    [discriminate |].
  intros [= <- _].
  unfold PyJWT.validate_claims, PyJWT.and_then in Hc.
  destruct (PyJWT.validate_required p' o); [discriminate |].
  destruct (PyJWT.validate_iat p' o now); [discriminate |].
  destruct (PyJWT.validate_nbf p' o now); [discriminate |].
  destruct (PyJWT.validate_exp p' o now); [discriminate |].
  destruct (PyJWT.validate_iss p' o (Some issuer)) eqn:Hi; [discriminate |].
  unfold PyJWT.validate_iss in Hi. rewrite Hv in Hi.
  destruct (p_iss p') as [iss |]; [| discriminate].
  destruct (String.eqb iss issuer) eqn:He; [| discriminate].
  apply String.eqb_eq in He. now subst.
Qed.

Lemma everything_is_an_exception (c : Exc.exc_class) :
  Exc.issubclass c Exc.Exception = true.
Proof. destruct c; reflexivity. Qed.

(** In [_validate_jwt] the clause for [InvalidTokenError] comes second, so
    the clauses for [InvalidIssuerError], [InvalidAudienceError] and
    [InvalidSignatureError] after it never run. *)
Lemma specific_clauses_unreachable (e : Exc.exn) (i : nat) :
  Exc.caught_by
    [Exc.ExpiredSignatureError; Exc.InvalidTokenError; Exc.InvalidIssuerError;
     Exc.InvalidAudienceError; Exc.InvalidSignatureError; Exc.Exception] e
  = Some i ->
  i = 0%nat \/ i = 1%nat \/ i = 5%nat.
Proof.
  destruct e as [c msg]. destruct c; vm_compute; intros [= <-]; auto.
Qed.

(** The gateway plugin does enforce the issuer: a token whose [iss] differs
    from the configured one is never reported valid. *)
Lemma plugin_rejects_foreign_issuer (token : string) (j : jws) (p : payload)
    (base realm iss aud : string) (ssl : bool) (now : Z) (net : network)
    (st : JwtPlugin.plugin) :
  jws_load token = inr j ->
  jws_payload j = Some p ->
  p_iss p <> Some iss ->
  (JwtPlugin._validate_jwt token base realm iss aud ssl now net st).1.1.1 = false.
Proof.
  intros Hload Hp Hiss. unfold JwtPlugin._validate_jwt, PyJWT.get_unverified_header.
  rewrite Hload.
  destruct (negb (String.eqb _ "RS256")); [reflexivity |].
  destruct (negb (Py.truthy_str _)); [reflexivity |].
  destruct (JwtPlugin._get_public_key_from_jwks _ _ _ _ _ _ _) as [[pk msg] st1].
  destruct pk as [pk |]; [| reflexivity].
  destruct (PyJWT.decode _ _ _ _ _ _ _) as [[e | p'] evs] eqn:Hd.
  - destruct (Exc.dispatch _ e); reflexivity.
  - exfalso. apply Hiss.
    pose proof (decode_checks_issuer token pk _ _ iss JwtPlugin.decode_options
                  now p' evs eq_refl Hd) as Hp'.
    unfold PyJWT.decode in Hd. rewrite Hload in Hd.
    destruct (if PyJWT.verify_signature _ then _ else _) as [[e | []] evs'];
      [discriminate |].
    rewrite Hp in Hd.
    destruct (PyJWT.validate_claims _ _ _ _ _); [discriminate |].
    injection Hd as <- _. exact Hp'.
Qed.

(** C2: a token whose header names an algorithm other than RS256 is refused
    by the gateway plugin with the message "Unsupported algorithm: <alg>",
    and the plugin state, key cache and effect trace included, is
    untouched: nothing is fetched and no signature is checked.  The auth
    service returns [None] for such a token and checks no signature either.
    The statement holds for every signature oracle [sig_verifies]. *)
Theorem c2_unsupported_algorithm
    (token : string) (j : jws) (alg : string)
    (base realm iss aud : string) (ssl : bool) (now : Z) (net : network)
    (st : JwtPlugin.plugin)
    (KEYCLOAK_REALM : string) (ast : AuthService.state) :
  jws_load token = inr j ->
  h_alg (jws_header j) = Some alg ->
  alg <> "RS256" ->
  JwtPlugin._validate_jwt token base realm iss aud ssl now net st
    = ((false, None, Some ("Unsupported algorithm: " ++ alg)), st)
  /\ (forall raw : string,
        AuthService.strip_bearer raw = token ->
        (AuthService.verify_jwt_token KEYCLOAK_REALM raw now net ast).1 = None
        /\ sigcheck_count
             (AuthService.trace
                (AuthService.verify_jwt_token KEYCLOAK_REALM raw now net ast).2)
           = sigcheck_count (AuthService.trace ast)).
Proof.
  intros Hload Halg Hne. split.
  - unfold JwtPlugin._validate_jwt, PyJWT.get_unverified_header.
    rewrite Hload, Halg. cbn [from_option id].
    apply String.eqb_neq in Hne. now rewrite Hne.
  - intros raw Hraw.
    unfold AuthService.verify_jwt_token, PyJWT.get_unverified_header.
    rewrite Hraw, Hload.
    destruct (negb (Py.truthy_str _)); [split; reflexivity |].
    pose proof (get_public_keys_sigchecks KEYCLOAK_REALM now net ast) as Hk.
    destruct (AuthService.get_public_keys KEYCLOAK_REALM now net ast)
      as [keys st1].
    cbn [snd] in Hk.
    destruct (keys !! _) as [key |]; [| split; [reflexivity | exact Hk]].
    destruct (decode_rejects_algorithm token j alg key (Some "account") None
                PyJWT.default_options now Hload Halg Hne eq_refl) as [e ->].
    split; [reflexivity |].
    cbn -[sigcheck_count]. rewrite sigcheck_count_app, Hk. cbn. lia.
Qed.

(** C3 (amended): a token whose [kid] names no key.  Gateway plugin: when
    the lookup has a key set in hand, the cached one while it is fresh or
    else the one just fetched, and no key of it carries the [kid], a token
    that passed the header checks is refused with "Key with kid '<kid>' not
    found in JWKS"; when the cached set has expired and the refresh fails,
    the plugin has no key set at all and the token is refused with the error
    of the fetch instead, never with the key-not-found message.  In both
    cases, whatever the earlier gates say, the token is not reported valid
    and no signature is checked.  The auth service, whose key map may be a
    stale one, returns [None] without checking a signature when the map has
    no entry for the [kid]. *)
Theorem c3_key_not_found
    (token : string) (j : jws) (kid : string)
    (base realm iss aud : string) (ssl : bool) (now : Z) (net : network)
    (st : JwtPlugin.plugin)
    (KEYCLOAK_REALM : string) (ast : AuthService.state) :
  jws_load token = inr j ->
  h_kid (jws_header j) = Some kid ->
  kid <> "" ->
  (forall (st1 : JwtPlugin.plugin) (jwks : jwks_doc) (keys : list jwk),
     JwtPlugin.obtain_jwks base realm ssl now net st = JwtPlugin.GotJwks jwks st1 ->
     doc_keys jwks = inr keys ->
     (forall key, key ∈ keys -> jwk_kid key <> Some kid) ->
     let plugin_result :=
       JwtPlugin._validate_jwt token base realm iss aud ssl now net st in
     (plugin_result.1.1.1 = false /\ plugin_result.1.1.2 = None /\
      sigcheck_count (JwtPlugin.trace plugin_result.2)
        = sigcheck_count (JwtPlugin.trace st)) /\
     (default "RS256" (h_alg (jws_header j)) = "RS256" ->
      plugin_result
        = ((false, None,
            Some ("Key with kid '" ++ kid ++ "' not found in JWKS")), st1)))
  /\
  (forall e : Exc.exn,
     JwtPlugin.cache_lookup base realm now st = None ->
     net (JwtPlugin.jwks_url base realm) ssl = inl e ->
     let plugin_result :=
       JwtPlugin._validate_jwt token base realm iss aud ssl now net st in
     (plugin_result.1.1.1 = false /\ plugin_result.1.1.2 = None /\
      sigcheck_count (JwtPlugin.trace plugin_result.2)
        = sigcheck_count (JwtPlugin.trace st)) /\
     plugin_result.1.2
       <> Some ("Key with kid '" ++ kid ++ "' not found in JWKS") /\
     (default "RS256" (h_alg (jws_header j)) = "RS256" ->
      Exc.issubclass (Exc.exn_class e) Exc.RequestException = true ->
      plugin_result.1
        = (false, None,
           Some ("Failed to fetch JWKS from " ++ JwtPlugin.jwks_url base realm
                 ++ ": " ++ Exc.exn_str e))))
  /\
  (forall raw : string,
     AuthService.strip_bearer raw = token ->
     (AuthService.get_public_keys KEYCLOAK_REALM now net ast).1 !! kid = None ->
     let service_result :=
       AuthService.verify_jwt_token KEYCLOAK_REALM raw now net ast in
     service_result
       = (None, (AuthService.get_public_keys KEYCLOAK_REALM now net ast).2) /\
     sigcheck_count (AuthService.trace service_result.2)
       = sigcheck_count (AuthService.trace ast)).
Proof.
  intros Hload Hkid Hne.
  assert (Py.truthy_str (Some kid) = true) as Htruthy.
  { cbn. apply String.eqb_neq in Hne. now rewrite Hne. }
  split; [| split].
  - intros st1 jwks keys Hjwks Hkeys Habsent plugin_result.
    assert (default "RS256" (h_alg (jws_header j)) = "RS256" ->
            plugin_result
            = ((false, None,
                Some ("Key with kid '" ++ kid ++ "' not found in JWKS")), st1))
      as Hgate.
    { intros Halg. subst plugin_result.
      unfold JwtPlugin._validate_jwt, PyJWT.get_unverified_header.
      rewrite Hload, Halg, Hkid, Htruthy.
      rewrite String.eqb_refl. cbn [negb from_option id].
      unfold JwtPlugin._get_public_key_from_jwks, JwtPlugin.select_key.
      rewrite Hjwks, Hkeys, (find_key_absent keys kid Habsent).
      reflexivity. }
    split; [| exact Hgate].
    destruct (String.eqb (default "RS256" (h_alg (jws_header j))) "RS256")
      eqn:Halg.
    + apply String.eqb_eq in Halg. rewrite (Hgate Halg). cbn [fst snd].
      repeat split. eapply obtain_jwks_sigchecks; eassumption.
    + subst plugin_result.
      unfold JwtPlugin._validate_jwt, PyJWT.get_unverified_header.
      rewrite Hload, Halg. cbn. repeat split.
  - intros e Hmiss Hnet plugin_result. subst plugin_result.
    unfold JwtPlugin._validate_jwt, PyJWT.get_unverified_header.
    rewrite Hload, Hkid, Htruthy.
    destruct (String.eqb (default "RS256" (h_alg (jws_header j))) "RS256")
      eqn:Halg; cbn [negb from_option id].
    2: { split; [repeat split |]. split; [intros H; discriminate H |].
         intros Hg. rewrite Hg in Halg. discriminate. }
    unfold JwtPlugin._get_public_key_from_jwks, JwtPlugin.obtain_jwks.
    rewrite Hmiss, Hnet. unfold JwtPlugin.refresh, JwtPlugin.outer_handler.
    cbn [Exc.dispatch].
    destruct (Exc.issubclass (Exc.exn_class e) Exc.RequestException).
    + split; [cbn -[sigcheck_count]; rewrite sigcheck_count_app; cbn;
              repeat split; lia |].
      split; [intros H; discriminate H | intros _ _; reflexivity].
    + destruct (Exc.issubclass (Exc.exn_class e) Exc.JSONDecodeError);
        (split; [cbn -[sigcheck_count]; rewrite sigcheck_count_app; cbn;
                 repeat split; lia |]);
        (split; [intros H; discriminate H | intros _ H; discriminate H]).
  - intros raw Hraw Hmiss service_result. subst service_result.
    unfold AuthService.verify_jwt_token, PyJWT.get_unverified_header.
    rewrite Hraw, Hload, Hkid, Htruthy. cbn [negb from_option id].
    pose proof (get_public_keys_sigchecks KEYCLOAK_REALM now net ast) as Hk.
    destruct (AuthService.get_public_keys KEYCLOAK_REALM now net ast)
      as [pks st2].
    cbn [fst snd] in *. rewrite Hmiss. split; [reflexivity | exact Hk].
Qed.

End TokenClaims.

Lemma c2_unsupported_algorithm_witness :
  jws_load (Libs := Sample.libs) "t.hs256"
    = inr {| jws_header := Sample.hdr "HS256" "k1";
             jws_payload := Some Sample.good_claims |} /\
  "HS256" <> "RS256" /\
  JwtPlugin._validate_jwt (L := Sample.libs) "t.hs256" "https://idp.example"
    "kong" "http://d1df8d9f5a76.ngrok-free.app/realms/kong" "account" false
    1000 Sample.net_up (JwtPlugin.init Sample.plugin_config)
    = ((false, None, Some "Unsupported algorithm: HS256"),
       JwtPlugin.init Sample.plugin_config) /\
  (AuthService.verify_jwt_token (L := Sample.libs) "kong" "Bearer t.hs256" 1000
     Sample.net_up AuthService.initial_state).1 = None.
Proof.
  split; [reflexivity |]. split; [discriminate |].
  destruct (c2_unsupported_algorithm (L := Sample.libs) "t.hs256"
              {| jws_header := Sample.hdr "HS256" "k1";
                 jws_payload := Some Sample.good_claims |}
              "HS256" "https://idp.example" "kong"
              "http://d1df8d9f5a76.ngrok-free.app/realms/kong" "account" false
              1000 Sample.net_up (JwtPlugin.init Sample.plugin_config)
              "kong" AuthService.initial_state
              eq_refl eq_refl ltac:(discriminate)) as [Hplugin Hservice].
  split; [exact Hplugin |].
  exact (proj1 (Hservice "Bearer t.hs256" eq_refl)).
Defined.

Lemma c3_key_not_found_witness :
  JwtPlugin._validate_jwt (L := Sample.libs) "t.unknown-kid"
    "https://idp.example" "kong"
    "http://d1df8d9f5a76.ngrok-free.app/realms/kong" "account" false
    1000 Sample.net_up (JwtPlugin.init Sample.plugin_config)
  = ((false, None, Some "Key with kid 'k9' not found in JWKS"),
     (JwtPlugin._validate_jwt (L := Sample.libs) "t.unknown-kid"
        "https://idp.example" "kong"
        "http://d1df8d9f5a76.ngrok-free.app/realms/kong" "account" false
        1000 Sample.net_up (JwtPlugin.init Sample.plugin_config)).2) /\
  (JwtPlugin._validate_jwt (L := Sample.libs) "t.unknown-kid"
     "https://idp.example" "kong"
     "http://d1df8d9f5a76.ngrok-free.app/realms/kong" "account" false
     1000 Sample.net_down (JwtPlugin.init Sample.plugin_config)).1
  = (false, None,
     Some ("Failed to fetch JWKS from "
           ++ JwtPlugin.jwks_url "https://idp.example" "kong"
           ++ ": connection refused")) /\
  (AuthService.verify_jwt_token (L := Sample.libs) "kong" "t.unknown-kid" 1000
     Sample.net_up AuthService.initial_state).1 = None.
Proof.
  destruct (c3_key_not_found (L := Sample.libs) "t.unknown-kid"
              {| jws_header := Sample.hdr "RS256" "k9";
                 jws_payload := Some Sample.good_claims |}
              "k9" "https://idp.example" "kong"
              "http://d1df8d9f5a76.ngrok-free.app/realms/kong" "account" false
              1000 Sample.net_up (JwtPlugin.init Sample.plugin_config)
              "kong" AuthService.initial_state
              eq_refl eq_refl ltac:(discriminate)) as (Hplugin & _ & Hservice).
  destruct (c3_key_not_found (L := Sample.libs) "t.unknown-kid"
              {| jws_header := Sample.hdr "RS256" "k9";
                 jws_payload := Some Sample.good_claims |}
              "k9" "https://idp.example" "kong"
              "http://d1df8d9f5a76.ngrok-free.app/realms/kong" "account" false
              1000 Sample.net_down (JwtPlugin.init Sample.plugin_config)
              "kong" AuthService.initial_state
              eq_refl eq_refl ltac:(discriminate)) as (_ & Hdown & _).
  split; [| split].
  - edestruct Hplugin as [_ Hmsg].
    + reflexivity.
    + reflexivity.
    + intros key Hin. apply elem_of_cons in Hin as [-> | Hin];
        [discriminate | now apply elem_of_nil in Hin].
    + rewrite (Hmsg eq_refl). reflexivity.
  - destruct (Hdown {| Exc.exn_class := Exc.RequestException;
                       Exc.exn_str := "connection refused" |}
                eq_refl eq_refl) as (_ & _ & Hmsg).
    exact (Hmsg eq_refl eq_refl).
  - destruct (Hservice "t.unknown-kid" eq_refl) as [Hres _].
    + vm_compute. reflexivity.
    + rewrite Hres. reflexivity.
Defined.

(** C3, as stated, fails on the gateway plugin: with the pair's key set in
    the cache but past its expiry and the identity provider unreachable, a
    token whose kid is not in that stale set is refused with the error of
    the failed fetch, not with the key-not-found outcome. *)
Lemma c3_expired_cache_reports_fetch_error :
  JwtPlugin.jwks_cache Sample.warm_plugin
    !! JwtPlugin.cache_key "https://idp.example" "kong" = Some Sample.jwks /\
  JwtPlugin.find_key [Sample.key1] "k9" = None /\
  (JwtPlugin._validate_jwt (L := Sample.libs) "t.unknown-kid"
     "https://idp.example" "kong"
     "http://d1df8d9f5a76.ngrok-free.app/realms/kong" "account" false
     4000 Sample.net_down Sample.warm_plugin).1
  = (false, None,
     Some ("Failed to fetch JWKS from "
           ++ "https://idp.example/realms/kong/protocol/openid-connect/certs"
           ++ ": connection refused")) /\
  "Failed to fetch JWKS from "
    ++ "https://idp.example/realms/kong/protocol/openid-connect/certs"
    ++ ": connection refused"
  <> "Key with kid 'k9' not found in JWKS".
Proof. vm_compute. repeat split. discriminate. Qed.

(** C1 fails on the auth service: [verify_jwt_token] passes no issuer to
    [decode] (the argument is commented out), so a correctly signed,
    unexpired token for audience "account" issued by another issuer is
    accepted and its claims are returned. *)
Theorem c1_auth_service_accepts_foreign_issuer :
  (AuthService.verify_jwt_token (L := Sample.libs) "kong"
     "Bearer t.evil-issuer" 1000 Sample.net_up AuthService.initial_state).1
    = Some Sample.evil_issuer_claims /\
  p_iss Sample.evil_issuer_claims <> Some AuthService.expected_issuer.
Proof. split; [vm_compute; reflexivity | discriminate]. Qed.

(** The gateway plugin refuses the same token; the clause for
    [InvalidTokenError] precedes the one for [InvalidIssuerError], so the
    message is the generic one. *)
Example plugin_refuses_evil_issuer :
  (JwtPlugin._validate_jwt (L := Sample.libs) "t.evil-issuer"
     "https://idp.example" "kong" AuthService.expected_issuer "account" false
     1000 Sample.net_up (JwtPlugin.init Sample.plugin_config)).1
  = (false, None, Some "Invalid token: Invalid issuer").
Proof. vm_compute. reflexivity. Qed.

Example plugin_accepts_good_token :
  (JwtPlugin._validate_jwt (L := Sample.libs) "t.good"
     "https://idp.example" "kong" AuthService.expected_issuer "account" false
     1000 Sample.net_up (JwtPlugin.init Sample.plugin_config)).1
  = (true, Some Sample.good_claims, None).
Proof. vm_compute. reflexivity. Qed.

(** The [require_exp] and [require_iat] entries of the plugin's options are
    not read by the library: a correctly signed token that carries neither
    [exp] nor [iat] is valid, at any clock reading.  The auth service,
    which passes no options, accepts it as well. *)
Example undated_token_is_accepted :
  (JwtPlugin._validate_jwt (L := Sample.libs) "t.undated"
     "https://idp.example" "kong" AuthService.expected_issuer "account" false
     1000000000000 Sample.net_up (JwtPlugin.init Sample.plugin_config)).1
  = (true, Some Sample.undated_claims, None) /\
  (AuthService.verify_jwt_token (L := Sample.libs) "kong" "Bearer t.undated"
     1000000000000 Sample.net_up AuthService.initial_state).1
  = Some Sample.undated_claims.
Proof. split; vm_compute; reflexivity. Qed.

(** ** Key-set cache *)

Section CacheFacts.
Context `{L : Libs}.

Lemma dict_truthy_empty {A : Type} : AuthService.dict_truthy (∅ : gmap string A) = false.
Proof. unfold AuthService.dict_truthy. now rewrite map_size_empty. Qed.

(** With an empty key map the auth service verifies no token. *)
Lemma empty_keys_verify_nothing (KEYCLOAK_REALM raw : string) (now : Z)
    (net : network) (ast : AuthService.state) :
  (AuthService.get_public_keys KEYCLOAK_REALM now net ast).1 = ∅ ->
  (AuthService.verify_jwt_token KEYCLOAK_REALM raw now net ast).1 = None.
Proof.
  intros Hempty. unfold AuthService.verify_jwt_token.
  destruct (PyJWT.get_unverified_header _); [reflexivity |].
  destruct (negb _); [reflexivity |].
  destruct (AuthService.get_public_keys KEYCLOAK_REALM now net ast) as [keys st1].
  cbn [fst] in Hempty. subst keys. now rewrite lookup_empty.
Qed.

(** A failed request never reaches the plugin's cache. *)
Lemma plugin_refresh_failure (base realm : string) (now : Z) (e : Exc.exn)
    (st : JwtPlugin.plugin) :
  exists r, (JwtPlugin.refresh base realm now (inl e) st = JwtPlugin.Returned r st
             /\ r.1 = None /\ is_Some r.2)
            \/ JwtPlugin.refresh base realm now (inl e) st = JwtPlugin.Raised e st.
Proof.
  unfold JwtPlugin.refresh. cbn [Exc.dispatch].
  destruct (Exc.issubclass (Exc.exn_class e) Exc.RequestException).
  - eexists. left. split; [reflexivity |]. cbn. eauto.
  - destruct (Exc.issubclass (Exc.exn_class e) Exc.JSONDecodeError).
    + eexists. left. split; [reflexivity |]. cbn. eauto.
    + exists (None, None). now right.
Qed.

(** C4 (amended): what a failed refresh yields.  In the auth service the
    cached key map is returned as it is, and cache and expiry stay
    unchanged: the stale keys when some were cached, the empty map
    otherwise, and with the empty map [verify_jwt_token] returns [None] for
    every token.  The gateway plugin has no stale-serve: when the request
    raises, [_get_public_key_from_jwks] returns no key and an error message,
    and leaves its cache unchanged, whether or not a key set is cached for
    the pair. *)
Theorem c4_refresh_failure
    (KEYCLOAK_REALM : string) (now : Z) (net : network)
    (ast : AuthService.state)
    (base realm kid : string) (ssl : bool) (st : JwtPlugin.plugin) :
  (AuthService.cache_lookup now ast = None ->
   (exists e, AuthService.parse_keys (net (AuthService.JWKS_URL KEYCLOAK_REALM) true)
              = inl e) ->
   AuthService.get_public_keys KEYCLOAK_REALM now net ast
     = (AuthService.public_keys_cache ast,
        AuthService.log [EvFetch (AuthService.JWKS_URL KEYCLOAK_REALM)] ast)
   /\ (AuthService.public_keys_cache ast = ∅ ->
       forall raw,
         (AuthService.verify_jwt_token KEYCLOAK_REALM raw now net ast).1 = None))
  /\
  (JwtPlugin.cache_lookup base realm now st = None ->
   (exists e, net (JwtPlugin.jwks_url base realm) ssl = inl e) ->
   exists msg,
     JwtPlugin._get_public_key_from_jwks base realm kid ssl now net st
     = ((None, Some msg),
        JwtPlugin.log [EvFetch (JwtPlugin.jwks_url base realm)] st)).
Proof.
  split.
  - intros Hmiss [e He].
    assert (AuthService.get_public_keys KEYCLOAK_REALM now net ast
            = (AuthService.public_keys_cache ast,
               AuthService.log [EvFetch (AuthService.JWKS_URL KEYCLOAK_REALM)] ast))
      as Hget.
    { unfold AuthService.get_public_keys, AuthService.refresh.
      rewrite Hmiss, He. reflexivity. }
    split; [exact Hget |].
    intros Hempty raw. apply empty_keys_verify_nothing.
    rewrite Hget. exact Hempty.
  - intros Hmiss [e He].
    unfold JwtPlugin._get_public_key_from_jwks, JwtPlugin.obtain_jwks.
    rewrite Hmiss, He.
    destruct (plugin_refresh_failure base realm now e
                (JwtPlugin.log [EvFetch (JwtPlugin.jwks_url base realm)] st))
      as [[pk msg] [(-> & Hpk & [m Hm]) | ->]].
    + cbn in Hpk, Hm. subst. eauto.
    + unfold JwtPlugin.outer_handler. eauto.
Qed.

(** C5 (amended): a cache hit answers without a network call, and two
    consecutive lookups within the TTL window fetch once.  Gateway plugin:
    when the pair's cache key is in [jwks_cache] and the clock is before
    [cache_expiry], the cached key set is returned and the plugin state
    (trace included) is unchanged; after a lookup at [t1] that missed the
    cache and fetched successfully, a lookup at [t2 < t1 + cache_ttl] returns
    the same key set and the two lookups together add exactly one fetch to
    the trace.  Auth service: the same, with the fixed TTL of 3600 seconds,
    provided the fetched key map is non-empty (an empty map is falsy in the
    guard and counts as no cache, so it is fetched again) and the clock
    reads a time after the epoch. *)
Theorem c5_cache_hit_no_fetch
    (base realm : string) (ssl : bool) (st : JwtPlugin.plugin)
    (KEYCLOAK_REALM : string) (ast : AuthService.state) :
  (forall (now : Z) (net : network) (jwks : jwks_doc),
     JwtPlugin.jwks_cache st !! JwtPlugin.cache_key base realm = Some jwks ->
     now < JwtPlugin.cache_expiry st ->
     JwtPlugin.obtain_jwks base realm ssl now net st = JwtPlugin.GotJwks jwks st)
  /\
  (forall (t1 t2 : Z) (net1 net2 : network) (jwks : jwks_doc),
     JwtPlugin.cache_lookup base realm t1 st = None ->
     net1 (JwtPlugin.jwks_url base realm) ssl = inr jwks ->
     t2 < t1 + JwtPlugin.cache_ttl st ->
     exists st1,
       JwtPlugin.obtain_jwks base realm ssl t1 net1 st = JwtPlugin.GotJwks jwks st1
       /\ JwtPlugin.obtain_jwks base realm ssl t2 net2 st1
          = JwtPlugin.GotJwks jwks st1
       /\ fetch_count (JwtPlugin.trace st1)
          = S (fetch_count (JwtPlugin.trace st)))
  /\
  (forall (now : Z) (net : network) (keys : gmap string pubkey),
     AuthService.cache_lookup now ast = Some keys ->
     AuthService.get_public_keys KEYCLOAK_REALM now net ast = (keys, ast))
  /\
  (forall (t1 t2 : Z) (net1 net2 : network) (keys : gmap string pubkey),
     AuthService.cache_lookup t1 ast = None ->
     AuthService.parse_keys (net1 (AuthService.JWKS_URL KEYCLOAK_REALM) true)
       = inr keys ->
     keys <> ∅ ->
     0 <= t1 ->
     t2 < t1 + 3600 ->
     exists ast1,
       AuthService.get_public_keys KEYCLOAK_REALM t1 net1 ast = (keys, ast1)
       /\ AuthService.get_public_keys KEYCLOAK_REALM t2 net2 ast1 = (keys, ast1)
       /\ fetch_count (AuthService.trace ast1)
          = S (fetch_count (AuthService.trace ast))).
Proof.
  split; [| split; [| split]].
  - intros now net jwks Hin Hlt.
    unfold JwtPlugin.obtain_jwks, JwtPlugin.cache_lookup. rewrite Hin.
    apply Z.ltb_lt in Hlt. now rewrite Hlt.
  - intros t1 t2 net1 net2 jwks Hmiss Hnet Hlt.
    eexists. split; [| split].
    + unfold JwtPlugin.obtain_jwks. rewrite Hmiss, Hnet.
      unfold JwtPlugin.refresh. reflexivity.
    + unfold JwtPlugin.obtain_jwks, JwtPlugin.cache_lookup.
      cbn [JwtPlugin.jwks_cache JwtPlugin.cache_expiry JwtPlugin.log
           JwtPlugin.cache_ttl].
      rewrite lookup_insert_eq.
      apply Z.ltb_lt in Hlt. now rewrite Hlt.
    + cbn [JwtPlugin.trace JwtPlugin.log]. rewrite fetch_count_app. cbn. lia.
  - intros now net keys Hhit. unfold AuthService.get_public_keys.
    now rewrite Hhit.
  - intros t1 t2 net1 net2 keys Hmiss Hparse Hne Ht1 Hlt.
    eexists. split; [| split].
    + unfold AuthService.get_public_keys, AuthService.refresh.
      rewrite Hmiss, Hparse. reflexivity.
    + unfold AuthService.get_public_keys, AuthService.cache_lookup.
      cbn [AuthService.cache_expiry AuthService.public_keys_cache
           AuthService.expiry_truthy from_option id].
      assert ((t1 + 3600 =? 0) = false) as -> by (apply Z.eqb_neq; lia).
      assert ((t2 <? t1 + 3600) = true) as -> by (apply Z.ltb_lt; lia).
      assert (AuthService.dict_truthy keys = true) as ->.
      { unfold AuthService.dict_truthy. apply negb_true_iff, Nat.eqb_neq.
        intros Hz. apply Hne. now apply map_size_empty_iff. }
      reflexivity.
    + cbn [AuthService.trace AuthService.log]. rewrite fetch_count_app.
      cbn. lia.
Qed.

(** The plugin keeps one [cache_expiry] for all pairs.  A later refresh of
    any pair only moves it forward, so an entry fetched at [t1] is still
    served at [t2 < t1 + cache_ttl] whatever lookups, for whatever pairs,
    happened in between on a clock that does not run backwards. *)
Lemma lookup_keeps_entry (c : JwtPlugin.lookup_call) (st : JwtPlugin.plugin)
    (key : string) (t1 : Z) :
  is_Some (JwtPlugin.jwks_cache st !! key) ->
  t1 + JwtPlugin.cache_ttl st <= JwtPlugin.cache_expiry st ->
  t1 <= JwtPlugin.lc_time c ->
  let st' :=
    (JwtPlugin._get_public_key_from_jwks (JwtPlugin.lc_base_url c)
       (JwtPlugin.lc_realm c) (JwtPlugin.lc_kid c) (JwtPlugin.lc_ssl_verify c)
       (JwtPlugin.lc_time c) (JwtPlugin.lc_net c) st).2 in
  is_Some (JwtPlugin.jwks_cache st' !! key) /\
  t1 + JwtPlugin.cache_ttl st' <= JwtPlugin.cache_expiry st' /\
  JwtPlugin.cache_ttl st' = JwtPlugin.cache_ttl st.
Proof.
  intros Hin Hexp Ht.
  unfold JwtPlugin._get_public_key_from_jwks, JwtPlugin.obtain_jwks.
  destruct (JwtPlugin.cache_lookup _ _ _ st) as [jwks |].
  - destruct (JwtPlugin.select_key jwks _); cbn; auto.
  - unfold JwtPlugin.refresh.
    destruct (JwtPlugin.lc_net c _ _) as [e | doc].
    + destruct (Exc.dispatch _ e); cbn; auto.
    + assert (is_Some (<[JwtPlugin.cache_key (JwtPlugin.lc_base_url c)
                          (JwtPlugin.lc_realm c) := doc]>
                         (JwtPlugin.jwks_cache st) !! key)) as Hin'.
      { rewrite lookup_insert. case_decide; [eauto | exact Hin]. }
      destruct (JwtPlugin.select_key doc _); cbn; (split; [exact Hin' |]);
        split; (lia || reflexivity).
Qed.

Lemma plugin_entry_fresh_across_pairs (base realm : string) (ssl : bool)
    (t1 t2 : Z) (net1 net2 : network) (jwks : jwks_doc) (st : JwtPlugin.plugin)
    (calls : list JwtPlugin.lookup_call) :
  JwtPlugin.cache_lookup base realm t1 st = None ->
  net1 (JwtPlugin.jwks_url base realm) ssl = inr jwks ->
  Forall (fun c => t1 <= JwtPlugin.lc_time c) calls ->
  t2 < t1 + JwtPlugin.cache_ttl st ->
  let st1 :=
    JwtPluginWorkers.step_state
      (JwtPlugin.obtain_jwks base realm ssl t1 net1 st) in
  let st2 := JwtPlugin.run_lookups calls st1 in
  exists jwks',
    JwtPlugin.obtain_jwks base realm ssl t2 net2 st2
    = JwtPlugin.GotJwks jwks' st2.
Proof.
  intros Hmiss Hnet Hcalls Hlt st1 st2.
  assert (is_Some (JwtPlugin.jwks_cache st1 !! JwtPlugin.cache_key base realm)
          /\ t1 + JwtPlugin.cache_ttl st1 <= JwtPlugin.cache_expiry st1
          /\ JwtPlugin.cache_ttl st1 = JwtPlugin.cache_ttl st) as Hinv.
  { subst st1. unfold JwtPlugin.obtain_jwks. rewrite Hmiss, Hnet.
    cbn. rewrite lookup_insert_eq. split; [eauto |]. split; [lia | reflexivity]. }
  assert (is_Some (JwtPlugin.jwks_cache st2 !! JwtPlugin.cache_key base realm)
          /\ t1 + JwtPlugin.cache_ttl st2 <= JwtPlugin.cache_expiry st2
          /\ JwtPlugin.cache_ttl st2 = JwtPlugin.cache_ttl st) as Hinv2.
  { subst st2. clearbody st1. clear Hmiss Hnet.
    revert st1 Hinv. induction Hcalls as [|c calls Hc _ IH]; intros s Hs;
      [exact Hs |].
    cbn [JwtPlugin.run_lookups fold_left]. apply IH.
    destruct Hs as (Hin & Hexp & Httl).
    destruct (lookup_keeps_entry c s _ t1 Hin Hexp Hc) as (H1 & H2 & H3).
    split; [exact H1 |]. split; [exact H2 | congruence]. }
  destruct Hinv2 as ([jwks' Hin] & Hexp & Httl).
  exists jwks'. unfold JwtPlugin.obtain_jwks, JwtPlugin.cache_lookup.
  rewrite Hin. assert ((t2 <? JwtPlugin.cache_expiry st2) = true) as ->
    by (apply Z.ltb_lt; lia).
  reflexivity.
Qed.

End CacheFacts.

(** C4, as stated, fails on the gateway plugin: with the pair's key set in
    the cache, past its expiry, and the identity provider unreachable, the
    lookup of a key that is in the cached set returns no key and an error
    message instead of serving the stale set. *)
Lemma c4_plugin_serves_no_stale_keys :
  JwtPlugin.jwks_cache Sample.warm_plugin
    !! JwtPlugin.cache_key "https://idp.example" "kong" = Some Sample.jwks /\
  JwtPlugin.find_key [Sample.key1] "k1" = Some Sample.key1 /\
  (JwtPlugin._get_public_key_from_jwks (L := Sample.libs)
     "https://idp.example" "kong" "k1" false 4000 Sample.net_down
     Sample.warm_plugin).1
  = (None,
     Some ("Failed to fetch JWKS from "
           ++ "https://idp.example/realms/kong/protocol/openid-connect/certs"
           ++ ": connection refused")).
Proof. vm_compute. repeat split. Qed.

Lemma c4_refresh_failure_witness :
  AuthService.get_public_keys (L := Sample.libs) "kong" 4000 Sample.net_down
    Sample.warm_service
  = (AuthService.public_keys_cache Sample.warm_service,
     AuthService.log [EvFetch (AuthService.JWKS_URL "kong")] Sample.warm_service)
  /\
  (exists msg,
     JwtPlugin._get_public_key_from_jwks (L := Sample.libs)
       "https://idp.example" "kong" "k1" false 4000 Sample.net_down
       Sample.warm_plugin
     = ((None, Some msg),
        JwtPlugin.log
          [EvFetch (JwtPlugin.jwks_url "https://idp.example" "kong")]
          Sample.warm_plugin)).
Proof.
  destruct (c4_refresh_failure (L := Sample.libs) "kong" 4000 Sample.net_down
              Sample.warm_service "https://idp.example" "kong" "k1" false
              Sample.warm_plugin) as [Hservice Hplugin].
  split.
  - apply Hservice; [reflexivity |]. eexists. reflexivity.
  - apply Hplugin; [reflexivity |]. eexists. reflexivity.
Defined.

(** C5, as stated, fails on the auth service: a key set that was fetched
    successfully but holds no key is stored with its expiry, yet the guard
    of the fast path treats the empty map as no cache, and a second call ten
    seconds later fetches again. *)
Lemma c5_empty_key_set_is_refetched :
  let first :=
    AuthService.get_public_keys (L := Sample.libs) "kong" 0 Sample.net_no_keys
      AuthService.initial_state in
  let second :=
    AuthService.get_public_keys (L := Sample.libs) "kong" 10 Sample.net_no_keys
      first.2 in
  AuthService.cache_expiry first.2 = Some 3600 /\
  fetch_count (AuthService.trace first.2) = 1%nat /\
  fetch_count (AuthService.trace second.2) = 2%nat.
Proof. vm_compute. repeat split. Qed.

Lemma c5_cache_hit_no_fetch_witness :
  JwtPlugin.obtain_jwks (L := Sample.libs) "https://idp.example" "kong" false
    1000 Sample.net_down Sample.warm_plugin
  = JwtPlugin.GotJwks Sample.jwks Sample.warm_plugin /\
  (exists st1,
     JwtPlugin.obtain_jwks (L := Sample.libs) "https://idp.example" "kong"
       false 0 Sample.net_up (JwtPlugin.init Sample.plugin_config)
     = JwtPlugin.GotJwks Sample.jwks st1 /\
     JwtPlugin.obtain_jwks (L := Sample.libs) "https://idp.example" "kong"
       false 3599 Sample.net_down st1 = JwtPlugin.GotJwks Sample.jwks st1 /\
     fetch_count (JwtPlugin.trace st1) = 1%nat) /\
  (exists ast1,
     AuthService.get_public_keys (L := Sample.libs) "kong" 0 Sample.net_up
       AuthService.initial_state = ({["k1" := "key-1"]}, ast1) /\
     AuthService.get_public_keys (L := Sample.libs) "kong" 3599 Sample.net_down
       ast1 = ({["k1" := "key-1"]}, ast1) /\
     fetch_count (AuthService.trace ast1) = 1%nat).
Proof.
  destruct (c5_cache_hit_no_fetch (L := Sample.libs) "https://idp.example"
              "kong" false Sample.warm_plugin "kong" AuthService.initial_state)
    as (Hhit & _ & _ & _).
  destruct (c5_cache_hit_no_fetch (L := Sample.libs) "https://idp.example"
              "kong" false (JwtPlugin.init Sample.plugin_config) "kong"
              AuthService.initial_state)
    as (_ & Htwice & _ & Hservice).
  split; [| split].
  - apply Hhit; [reflexivity | reflexivity].
  - apply (Htwice 0 3599 Sample.net_up Sample.net_down Sample.jwks);
      [reflexivity | reflexivity | reflexivity].
  - apply (Hservice 0 3599 Sample.net_up Sample.net_down
             ({["k1" := "key-1"]} : gmap string (pubkey (Libs := Sample.libs))));
      [reflexivity | reflexivity | | lia | lia].
    intros Hempty.
    apply (f_equal (fun m : gmap string string => m !! "k1")) in Hempty.
    rewrite lookup_singleton_eq, lookup_empty in Hempty. discriminate.
Defined.

(** ** Remote verifier: the retry loop *)

Section RetryFacts.
Variable json_loads : string -> Exc.exn + jval.

Lemma retried_continues (rc a : Z) (res : PreFunction.urlopen_result) :
  Attempt.is_retried res = true -> a < rc ->
  PreFunction.attempt_once json_loads rc a res = None.
Proof.
  unfold Attempt.is_retried. intros Ht Hlt.
  apply andb_true_iff in Ht as [Ht Hr]. apply Z.ltb_lt in Hlt.
  destruct res as [code body | code [| body | e] | msg | msg]; cbn in Ht, Hr |- *;
    try discriminate; unfold PreFunction.retry_or; try now rewrite Hlt.
  all: apply negb_true_iff in Ht; now rewrite Ht, Hlt.
Qed.

Lemma retried_exhausts (rc a : Z) (res : PreFunction.urlopen_result) :
  Attempt.is_retried res = true -> rc <= a ->
  PreFunction.attempt_once json_loads rc a res
  = Some (inr (false, Attempt.report res)).
Proof.
  unfold Attempt.is_retried. intros Ht Hge.
  apply andb_true_iff in Ht as [Ht Hr].
  assert ((a <? rc) = false) as Hlt by (apply Z.ltb_ge; lia).
  destruct res as [code body | code [| body | e] | msg | msg]; cbn in Ht, Hr |- *;
    try discriminate; unfold PreFunction.retry_or; try now rewrite Hlt.
  all: apply negb_true_iff in Ht; now rewrite Ht, Hlt.
Qed.

Lemma denial_returns (rc a : Z) (res : PreFunction.urlopen_result) :
  Attempt.is_denial res = true -> Attempt.readable res = true ->
  exists body,
    PreFunction.attempt_once json_loads rc a res = Some (inr (false, body)).
Proof.
  intros Hd Hr.
  destruct res as [code body | code [| body | e] | msg | msg];
    cbn in Hd, Hr |- *; try discriminate.
  - apply orb_true_iff in Hd as [H | H]; apply Z.eqb_eq in H; subst code;
      cbn; eauto.
  - rewrite Hd. eauto.
  - rewrite Hd. destruct (PreFunction.loads_or_empty _ _); eauto.
Qed.

(** The loop continues only while budget remains. *)
Lemma continue_needs_budget (rc a : Z) (res : PreFunction.urlopen_result) :
  PreFunction.attempt_once json_loads rc a res = None -> a < rc.
Proof.
  assert (forall final, PreFunction.retry_or rc a final = None -> a < rc) as Hr.
  { intros final. unfold PreFunction.retry_or.
    destruct (a <? rc) eqn:E; [intros _; now apply Z.ltb_lt | discriminate]. }
  destruct res as [code body | code fp | msg | msg]; cbn; eauto.
  - destruct (code =? 200).
    { destruct (json_loads body); [apply Hr | discriminate]. }
    destruct (code =? 401); [discriminate |].
    destruct (code =? 403); [discriminate |].
    destruct (PreFunction.loads_or_empty _ _); [apply Hr | discriminate].
  - destruct (PreFunction.read_error_body fp); [discriminate |].
    destruct ((code =? 401) || (code =? 403)); [| apply Hr].
    destruct (PreFunction.loads_or_empty _ _); discriminate.
Qed.

(** Only a 200 response whose body parses makes an attempt succeed. *)
Lemma success_only_from_200 (rc a : Z) (res : PreFunction.urlopen_result)
    (j : jval) :
  PreFunction.attempt_once json_loads rc a res = Some (inr (true, j)) ->
  exists body, res = PreFunction.Response 200 body /\ json_loads body = inr j.
Proof.
  assert (forall final r,
            PreFunction.retry_or rc a final = Some (inr (true, r)) -> False)
    as Hr.
  { intros final r. unfold PreFunction.retry_or.
    destruct (a <? rc); discriminate. }
  destruct res as [code body | code fp | msg | msg]; cbn.
  - destruct (code =? 200) eqn:E.
    + apply Z.eqb_eq in E. subst code.
      destruct (json_loads body) as [e | j'] eqn:Hj.
      * intros H. now apply Hr in H.
      * intros [= <-]. eauto.
    + destruct (code =? 401); [discriminate |].
      destruct (code =? 403); [discriminate |].
      destruct (PreFunction.loads_or_empty _ _); [| discriminate].
      intros H. now apply Hr in H.
  - destruct (PreFunction.read_error_body fp); [discriminate |].
    destruct (_ || _).
    + destruct (PreFunction.loads_or_empty _ _); discriminate.
    + intros H. now apply Hr in H.
  - intros H. now apply Hr in H.
  - intros H. now apply Hr in H.
Qed.

(** Skipping a run of attempts that all [continue]. *)
Lemma loop_skip (rc : Z) (http : nat -> PreFunction.urlopen_result) :
  forall (k len s made : nat),
    (k <= len)%nat ->
    (forall i, (s <= i < s + k)%nat ->
       PreFunction.attempt_once json_loads rc (Z.of_nat i) (http i) = None) ->
    PreFunction.attempts_loop json_loads rc http (seq s len) made
    = PreFunction.attempts_loop json_loads rc http (seq (s + k) (len - k))
        (made + k).
Proof.
  induction k as [|k IH]; intros len s made Hle Hall.
  - now rewrite Nat.add_0_r, Nat.sub_0_r, Nat.add_0_r.
  - destruct len as [|len]; [lia |]. cbn [seq PreFunction.attempts_loop].
    rewrite (Hall s) by lia.
    rewrite (IH len (S s) (S made)) by (try lia; intros i Hi; apply Hall; lia).
    replace (s + S k)%nat with (S s + k)%nat by lia.
    replace (made + S k)%nat with (S made + k)%nat by lia.
    now rewrite Nat.sub_succ.
Qed.

(** The call after [k] attempts that were all retried: attempt [k] decides
    unless it continues too. *)
Lemma loop_after_retries (url : string) (rc : Z) (net : PreFunction.remote)
    (k : nat) (r : Exc.exn + (bool * jval)) :
  Z.of_nat k <= rc ->
  (forall i, (i < k)%nat -> Attempt.is_retried (net url i) = true) ->
  PreFunction.attempt_once json_loads rc (Z.of_nat k) (net url k) = Some r ->
  PreFunction._make_http_request json_loads url rc net = (r, S k).
Proof.
  intros Hk Htrans Hr. unfold PreFunction._make_http_request.
  replace (Z.to_nat (rc + 1)) with (S (Z.to_nat rc)) by lia.
  rewrite (loop_skip rc (net url) k (S (Z.to_nat rc)) 0 0)
    by first [lia | intros i Hi; apply retried_continues;
                    [apply Htrans; lia | lia]].
  destruct (S (Z.to_nat rc) - k)%nat as [|m] eqn:Hm; [lia |].
  cbn [seq PreFunction.attempts_loop Nat.add]. now rewrite Hr.
Qed.

(** With a non-negative budget the outcome comes from inside an attempt. *)
Lemma loop_returns_inside (rc : Z) (http : nat -> PreFunction.urlopen_result) :
  forall (len s made : nat),
    (0 < len)%nat ->
    Z.of_nat (s + len) = rc + 1 ->
    exists k,
      (s <= k < s + len)%nat /\
      PreFunction.attempt_once json_loads rc (Z.of_nat k) (http k)
      = Some (PreFunction.attempts_loop json_loads rc http (seq s len) made).1
      /\ (PreFunction.attempts_loop json_loads rc http (seq s len) made).2
         = (made + (k - s) + 1)%nat.
Proof.
  induction len as [|len IH]; intros s made Hpos Hend; [lia |].
  cbn [seq PreFunction.attempts_loop].
  destruct (PreFunction.attempt_once json_loads rc (Z.of_nat s) (http s))
    as [r |] eqn:Hs.
  - exists s. cbn [fst snd]. repeat split; try lia. exact Hs.
  - apply continue_needs_budget in Hs.
    destruct (IH (S s) (S made)) as (k & Hk & Hres & Hmade); try lia.
    exists k. repeat split; try lia. exact Hres.
Qed.

Lemma request_outcome_inside (url : string) (rc : Z) (net : PreFunction.remote) :
  0 <= rc ->
  exists k : nat,
    Z.of_nat k <= rc /\
    PreFunction.attempt_once json_loads rc (Z.of_nat k) (net url k)
    = Some (PreFunction._make_http_request json_loads url rc net).1 /\
    (PreFunction._make_http_request json_loads url rc net).2 = S k.
Proof.
  intros Hrc. unfold PreFunction._make_http_request.
  replace (Z.to_nat (rc + 1)) with (S (Z.to_nat rc)) by lia.
  destruct (loop_returns_inside rc (net url) (S (Z.to_nat rc)) 0 0)
    as (k & Hk & Hres & Hmade); try lia.
  exists k. repeat split; try lia. exact Hres.
Qed.

(** A successful call saw a 200 response with a JSON body within the
    budget. *)
Lemma request_success_from_200 (url : string) (rc : Z) (net : PreFunction.remote)
    (j : jval) :
  (PreFunction._make_http_request json_loads url rc net).1 = inr (true, j) ->
  exists (k : nat) body,
    Z.of_nat k <= rc /\
    net url k = PreFunction.Response 200 body /\ json_loads body = inr j.
Proof.
  intros Hreq.
  destruct (Z.le_gt_cases 0 rc) as [Hrc | Hneg].
  - destruct (request_outcome_inside url rc net Hrc) as (k & Hk & Hres & _).
    rewrite Hreq in Hres.
    apply success_only_from_200 in Hres as (body & Hbody & Hj). eauto.
  - unfold PreFunction._make_http_request in Hreq.
    replace (Z.to_nat (rc + 1)) with 0%nat in Hreq by lia.
    cbn in Hreq. discriminate.
Qed.

(** When every attempt of a non-negative budget fails transiently and is
    retried, all [retry_count + 1] attempts are made and the last failure is
    reported. *)
Lemma retried_exhaustion (url : string) (rc : Z) (net : PreFunction.remote) :
  0 <= rc ->
  (forall i : nat, Z.of_nat i <= rc -> Attempt.is_retried (net url i) = true) ->
  PreFunction._make_http_request json_loads url rc net
  = (inr (false, Attempt.report (net url (Z.to_nat rc))), S (Z.to_nat rc)).
Proof.
  intros Hrc Hall.
  apply loop_after_retries; [lia | intros i Hi; apply Hall; lia |].
  rewrite Z2Nat.id by lia.
  apply retried_exhausts; [apply Hall; lia | lia].
Qed.

End RetryFacts.

Section RetryClaims.
Variable json_loads : string -> Exc.exn + jval.

(** C6 (amended): the loop of [_make_http_request].  With a non-negative
    [retry_count]: an attempt answered by HTTP 401 or 403 whose error body
    can be read, after failures that were all retried, ends the call at once
    with a failure, whatever budget is left; an attempt answered by an HTTP
    error whose body cannot be read or decoded, whatever its status, ends
    the call at once too: the exception raised while reading leaves the
    function, nothing is retried and nothing is returned; when every attempt
    fails transiently and is handled (another error status with a readable
    body, a connection error, any other exception) the call makes exactly
    [retry_count + 1] attempts and returns the failure built from the last
    attempt ("HTTP <code>: <body>", "Connection error: ...", "Request
    error: ..."); in every case the outcome comes from inside an attempt.
    The fall-through result "Max retry attempts exceeded" is what a negative
    [retry_count] gives, with no attempt made. *)
Theorem c6_retry_loop (url : string) (rc : Z) (net : PreFunction.remote) :
  let http := net url in
  let result := PreFunction._make_http_request json_loads url rc net in
  (0 <= rc ->
     (forall k : nat,
        Z.of_nat k <= rc ->
        (forall i, (i < k)%nat -> Attempt.is_retried (http i) = true) ->
        (Attempt.is_denial (http k) = true ->
         Attempt.readable (http k) = true ->
         exists body, result = (inr (false, body), S k))
        /\
        (forall code e,
           http k = PreFunction.RaiseHTTPError code (PreFunction.ReadRaises e) ->
           result = (inl e, S k)))
     /\
     ((forall i : nat, Z.of_nat i <= rc -> Attempt.is_retried (http i) = true) ->
      result
      = (inr (false, Attempt.report (http (Z.to_nat rc))), S (Z.to_nat rc)))
     /\
     (exists k : nat,
        Z.of_nat k <= rc /\
        PreFunction.attempt_once json_loads rc (Z.of_nat k) (http k)
        = Some result.1 /\
        result.2 = S k))
  /\
  (rc < 0 ->
   result = (inr (false, PreFunction.err "Max retry attempts exceeded"), 0%nat)).
Proof.
  intros http result. subst http result. split.
  - intros Hrc. split; [| split].
    + intros k Hk Htrans. split.
      * intros Hden Hread.
        destruct (denial_returns json_loads rc (Z.of_nat k) (net url k)
                    Hden Hread) as [body Hbody].
        exists body. now apply loop_after_retries.
      * intros code e Hres. apply loop_after_retries; [exact Hk | exact Htrans |].
        rewrite Hres. reflexivity.
    + apply retried_exhaustion. exact Hrc.
    + apply request_outcome_inside. exact Hrc.
  - intros Hneg. unfold PreFunction._make_http_request.
    replace (Z.to_nat (rc + 1)) with 0%nat by lia. reflexivity.
Qed.

(** Every failure of the remote call becomes a 403 at the client. *)
Lemma access_denies_every_failure (c : PreFunction.config)
    (req : PreFunction.request) (net : PreFunction.remote) :
  Py.truthy_str (PreFunction.auth_service_url c) = true ->
  Py.truthy_str (PreFunction.req_authorization req) = true ->
  (PreFunction._call_auth_service json_loads c
     (default "" (PreFunction.auth_service_url c)) net).1.1 = false ->
  PreFunction.access json_loads c req net
  = PreFunction.Exit 403 (PreFunction.err "Access denied").
Proof.
  intros Hurl Hauth Hcall. unfold PreFunction.access.
  rewrite Hurl, Hauth. cbn [negb].
  destruct (PreFunction._call_auth_service _ _ _ _) as [[ok resp] made].
  cbn in Hcall. subst ok. reflexivity.
Qed.

(** [_call_auth_service] reports a failure unless the request succeeded; an
    exception that left [_make_http_request] is a failure as well. *)
Lemma call_fails_without_success (c : PreFunction.config) (url0 : string)
    (net : PreFunction.remote) :
  (forall j,
     (PreFunction._make_http_request json_loads (PreFunction.full_auth_url url0)
        (default 0 (PreFunction.retry_count c)) net).1 <> inr (true, j)) ->
  (PreFunction._call_auth_service json_loads c url0 net).1.1 = false.
Proof.
  intros Hno. unfold PreFunction._call_auth_service.
  destruct (PreFunction._make_http_request _ _ _ _) as [[e | [ok resp]] made];
    [reflexivity |].
  destruct ok; cbn [negb].
  - now destruct (Hno resp).
  - destruct (PreFunction.dict_get resp "error"); reflexivity.
Qed.

(** C8 (amended): when every attempt of the retry budget fails for transport
    reasons (a connection error, an exception such as a timeout, a non-auth
    HTTP error), [access] answers the client with 403 and the body
    [{"error": "Access denied"}], the same outcome as an authorization
    denial. *)
Theorem c8_transport_failure_is_403 (c : PreFunction.config)
    (req : PreFunction.request) (net : PreFunction.remote) :
  let url := PreFunction.full_auth_url (default "" (PreFunction.auth_service_url c)) in
  let rc := default 0 (PreFunction.retry_count c) in
  Py.truthy_str (PreFunction.auth_service_url c) = true ->
  Py.truthy_str (PreFunction.req_authorization req) = true ->
  0 <= rc ->
  (forall i : nat, Z.of_nat i <= rc -> Attempt.is_transient (net url i) = true) ->
  PreFunction.access json_loads c req net
  = PreFunction.Exit 403 (PreFunction.err "Access denied").
Proof.
  intros url rc Hurl Hauth Hrc Hall.
  apply access_denies_every_failure; [exact Hurl | exact Hauth |].
  apply call_fails_without_success. fold url rc. intros j Hreq.
  apply request_success_from_200 in Hreq as (k & body & Hk & Hres & _).
  specialize (Hall k Hk). rewrite Hres in Hall. discriminate.
Qed.

End RetryClaims.

(** C6, as stated, fails on the code: with one retry and a verifier that
    answers 500 twice, two attempts are made and the result carries the last
    HTTP error, not the max-retries error. *)
Lemma c6_exhausted_budget_reports_last_error :
  PreFunction._make_http_request Sample.loads "http://auth-service:8003/auth/verify"
    1 Sample.remote_500
  = (inr (false, PreFunction.err "HTTP 500: "), 2%nat) /\
  PreFunction.err "HTTP 500: " <> PreFunction.err "Max retry attempts exceeded".
Proof. split; [vm_compute; reflexivity | discriminate]. Qed.

Lemma c6_retry_loop_witness :
  (exists body,
     PreFunction._make_http_request Sample.loads
       "http://auth-service:8003/auth/verify" 5 Sample.remote_403_then_200
     = (inr (false, body), 1%nat)) /\
  PreFunction._make_http_request Sample.loads
    "http://auth-service:8003/auth/verify" 5 Sample.remote_broken_500_then_200
  = (inl {| Exc.exn_class := Exc.OSError;
            Exc.exn_str := "Connection reset by peer" |}, 1%nat) /\
  PreFunction._make_http_request Sample.loads
    "http://auth-service:8003/auth/verify" 2 Sample.remote_500
  = (inr (false, PreFunction.err "HTTP 500: "), 3%nat) /\
  PreFunction._make_http_request Sample.loads
    "http://auth-service:8003/auth/verify" (-1) Sample.remote_500
  = (inr (false, PreFunction.err "Max retry attempts exceeded"), 0%nat).
Proof.
  split; [| split; [| split]].
  - destruct (c6_retry_loop Sample.loads "http://auth-service:8003/auth/verify"
                5 Sample.remote_403_then_200) as [Hnonneg _].
    destruct (Hnonneg ltac:(lia)) as (Hstop & _ & _).
    destruct (Hstop 0%nat ltac:(lia) ltac:(intros i Hi; lia)) as [Hdeny _].
    apply Hdeny; reflexivity.
  - destruct (c6_retry_loop Sample.loads "http://auth-service:8003/auth/verify"
                5 Sample.remote_broken_500_then_200) as [Hnonneg _].
    destruct (Hnonneg ltac:(lia)) as (Hstop & _ & _).
    destruct (Hstop 0%nat ltac:(lia) ltac:(intros i Hi; lia)) as [_ Hescape].
    apply (Hescape 500). reflexivity.
  - destruct (c6_retry_loop Sample.loads "http://auth-service:8003/auth/verify"
                2 Sample.remote_500) as [Hnonneg _].
    destruct (Hnonneg ltac:(lia)) as (_ & Hexhaust & _).
    apply Hexhaust. intros i _. reflexivity.
  - destruct (c6_retry_loop Sample.loads "http://auth-service:8003/auth/verify"
                (-1) Sample.remote_500) as [_ Hneg].
    apply Hneg. lia.
Defined.

(** C8, as stated, fails on the code: with the verifier unreachable and no
    retries configured, the client receives 403 "Access denied". *)
Lemma c8_unreachable_verifier_yields_403 :
  PreFunction.access Sample.loads (Sample.prefunction_config 0)
    Sample.get_orders Sample.remote_unreachable
  = PreFunction.Exit 403 (PreFunction.err "Access denied") /\
  PreFunction._make_http_request Sample.loads
    "http://auth-service:8003/auth/verify" 0 Sample.remote_unreachable
  = (inr (false, PreFunction.err "Connection error: connection refused"), 1%nat).
Proof. split; vm_compute; reflexivity. Qed.

Lemma c8_transport_failure_is_403_witness :
  PreFunction.access Sample.loads (Sample.prefunction_config 2)
    Sample.get_orders Sample.remote_500
  = PreFunction.Exit 403 (PreFunction.err "Access denied").
Proof.
  apply (c8_transport_failure_is_403 Sample.loads (Sample.prefunction_config 2)
           Sample.get_orders Sample.remote_500);
    [reflexivity | reflexivity | cbn; lia | intros i _; reflexivity].
Defined.

(** ** Concurrent lookups *)

Section InterleaveFacts.
Variables St Out Resp : Type.
Variable hit : Z -> St -> option Out.
Variable begin_fetch : St -> St.
Variable complete : Z -> Resp -> St -> Out * St.
Variable resp_of : nat -> Resp.

(** The number of requests issued so far, read off the shared state. *)
Variable fetches : St -> nat.
Hypothesis begin_counts : forall s, fetches (begin_fetch s) = S (fetches s).
Hypothesis complete_keeps :
  forall t r s, fetches (complete t r s).2 = fetches s.
(** Issuing a request does not make anybody's cache check succeed. *)
Hypothesis begin_keeps_miss :
  forall t s, hit t s = None -> hit t (begin_fetch s) = None.

Abbreviation step := (Interleave.step hit begin_fetch complete resp_of).
Abbreviation run := (Interleave.run hit begin_fetch complete resp_of).

Lemma run_app (a b : list nat) (sys : Interleave.system St Out) :
  run (a ++ b) sys = run b (run a sys).
Proof. unfold Interleave.run. apply fold_left_app. Qed.

Lemma count_insert {A : Type} (f : A -> bool) (ws : list A) (i : nat) (w w' : A) :
  ws !! i = Some w ->
  (length (List.filter f (<[i := w']> ws)) + (if f w then 1 else 0)
   = length (List.filter f ws) + (if f w' then 1 else 0))%nat.
Proof.
  revert i. induction ws as [|x ws IH]; intros i Hi; [discriminate |].
  destruct i as [|i]; cbn in Hi |- *.
  - injection Hi as ->. destruct (f w), (f w'); cbn; lia.
  - specialize (IH i Hi). destruct (f x); cbn; [f_equal |]; exact IH.
Qed.

(** Each worker issues at most one request: requests issued plus workers
    still waiting to check never grows. *)
Lemma step_budget (i : nat) (sys : Interleave.system St Out) :
  (fetches (Interleave.shared (step i sys)) + Interleave.ready (step i sys)
   <= fetches (Interleave.shared sys) + Interleave.ready sys)%nat.
Proof.
  unfold Interleave.step, Interleave.ready.
  destruct (Interleave.workers sys !! i) as [[t | t | out] |] eqn:Hw;
    [| | lia | lia].
  - destruct (hit t (Interleave.shared sys)); cbn [Interleave.shared Interleave.workers].
    + pose proof (count_insert Interleave.is_ready _ i _ (Interleave.Finished o) Hw).
      cbn in *. lia.
    + pose proof (count_insert Interleave.is_ready _ i _ (Interleave.InFlight t) Hw).
      rewrite begin_counts. cbn in *. lia.
  - pose proof (complete_keeps t (resp_of i) (Interleave.shared sys)) as Hc.
    destruct (complete t (resp_of i) (Interleave.shared sys)) as [out s'].
    cbn [Interleave.shared Interleave.workers snd] in *.
    pose proof (count_insert Interleave.is_ready _ i _ (Interleave.Finished out) Hw).
    cbn in *. lia.
Qed.

Lemma run_budget (schedule : list nat) (sys : Interleave.system St Out) :
  (fetches (Interleave.shared (run schedule sys))
   <= fetches (Interleave.shared sys) + Interleave.ready sys)%nat.
Proof.
  assert (forall sched s,
            (fetches (Interleave.shared (run sched s)) + Interleave.ready (run sched s)
             <= fetches (Interleave.shared s) + Interleave.ready s)%nat) as H.
  { induction sched as [|i sched IH]; intros s; [cbn; lia |].
    cbn [Interleave.run fold_left]. fold (run sched (step i s)).
    specialize (IH (step i s)). pose proof (step_budget i s). lia. }
  specialize (H schedule sys). lia.
Qed.

Lemma ready_start (times : list Z) (s0 : St) :
  Interleave.ready (Interleave.start (Out := Out) times s0) = length times.
Proof.
  unfold Interleave.ready, Interleave.start. cbn.
  induction times as [|t ts IH]; cbn; [reflexivity | now rewrite IH].
Qed.

(** When every cache check misses, checking in turn puts every worker in
    flight. *)
Lemma all_check_first :
  forall (ts : list Z) (pre : list (Interleave.worker Out)) (s : St),
    (forall t, t ∈ ts -> hit t s = None) ->
    run (seq (length pre) (length ts))
      (Interleave.Build_system s (pre ++ map Interleave.Ready ts))
    = Interleave.Build_system (Nat.iter (length ts) begin_fetch s)
        (pre ++ map Interleave.InFlight ts).
Proof.
  induction ts as [|t ts IH]; intros pre s Hmiss; [reflexivity |].
  cbn [length seq Interleave.run fold_left map].
  unfold Interleave.step at 2. cbn [Interleave.workers Interleave.shared].
  rewrite list_lookup_middle by reflexivity.
  rewrite (Hmiss t) by (now left).
  rewrite insert_app_r_alt, Nat.sub_diag by lia. cbn [insert list_insert].
  specialize (IH (pre ++ [Interleave.InFlight t])%list (begin_fetch s)).
  rewrite length_app, Nat.add_1_r, <- !app_assoc in IH. cbn [length app] in IH.
  unfold Interleave.run in IH. rewrite IH.
  - now rewrite Nat.iter_succ_r.
  - intros t' Ht'. apply begin_keeps_miss, Hmiss. now right.
Qed.

Lemma fetches_iter (n : nat) (s : St) :
  fetches (Nat.iter n begin_fetch s) = (fetches s + n)%nat.
Proof.
  induction n as [|n IH]; [cbn; lia |].
  change (Nat.iter (S n) begin_fetch s)
    with (begin_fetch (Nat.iter n begin_fetch s)).
  rewrite begin_counts, IH. lia.
Qed.

Lemma in_flight_all (ts : list Z) (s : St) :
  Interleave.in_flight
    (Interleave.Build_system s (map (Interleave.InFlight (Out := Out)) ts))
  = length ts.
Proof.
  unfold Interleave.in_flight. cbn.
  induction ts as [|t ts IH]; cbn; [reflexivity | now rewrite IH].
Qed.

Lemma ready_none (ts : list Z) (s : St) :
  Interleave.ready
    (Interleave.Build_system s (map (Interleave.InFlight (Out := Out)) ts))
  = 0%nat.
Proof.
  unfold Interleave.ready. cbn.
  induction ts as [|t ts IH]; cbn; [reflexivity | exact IH].
Qed.

(** The stampede: [n] workers that all miss the cache put [n] requests in
    flight at once, and [n] requests are issued in total; under any
    schedule at most [n] are. *)
Lemma stampede_fetches (times : list Z) (s0 : St) :
  (forall t, t ∈ times -> hit t s0 = None) ->
  let n := length times in
  let sys0 := Interleave.start times s0 in
  Interleave.in_flight (run (seq 0 n) sys0) = n /\
  fetches (Interleave.shared (run (Interleave.stampede n) sys0))
    = (fetches s0 + n)%nat /\
  (forall schedule,
     (fetches (Interleave.shared (run schedule sys0)) <= fetches s0 + n)%nat).
Proof.
  intros Hmiss n sys0.
  pose proof (all_check_first times [] s0 Hmiss) as Hfirst.
  cbn [length app] in Hfirst. fold n in Hfirst.
  change (Interleave.Build_system s0 (map Interleave.Ready times))
    with sys0 in Hfirst.
  split; [| split].
  - rewrite Hfirst. apply in_flight_all.
  - unfold Interleave.stampede. rewrite run_app, Hfirst.
    apply Nat.le_antisymm.
    + etransitivity; [apply run_budget |].
      cbn [Interleave.shared]. rewrite ready_none, fetches_iter. fold n. lia.
    + assert (forall sched s,
                (fetches (Interleave.shared s)
                 <= fetches (Interleave.shared (run sched s)))%nat) as Hmono.
      { induction sched as [|i sched IH]; intros s; [cbn; lia |].
        cbn [Interleave.run fold_left]. fold (run sched (step i s)).
        etransitivity; [| apply IH].
        unfold Interleave.step.
        destruct (Interleave.workers s !! i) as [[t | t | out] |]; try lia.
        - destruct (hit t (Interleave.shared s)); cbn; [lia |].
          rewrite begin_counts. lia.
        - pose proof (complete_keeps t (resp_of i) (Interleave.shared s)).
          destruct (complete t (resp_of i) (Interleave.shared s)). cbn in *. lia. }
      etransitivity; [| apply Hmono].
      cbn [Interleave.shared]. rewrite fetches_iter. fold n. lia.
  - intros schedule. etransitivity; [apply run_budget |].
    subst sys0. rewrite ready_start. cbn. fold n. lia.
Qed.

End InterleaveFacts.

Section ConcurrencyClaims.
Context `{L : Libs}.

(** One worker running alone is the sequential function. *)
Lemma single_worker_is_get_public_keys (KEYCLOAK_REALM : string) (t : Z)
    (net : network) (ast : AuthService.state) :
  AuthServiceWorkers.run KEYCLOAK_REALM
    (fun _ => net (AuthService.JWKS_URL KEYCLOAK_REALM) true)
    [0%nat; 0%nat] (Interleave.start [t] ast)
  = Interleave.Build_system
      (AuthService.get_public_keys KEYCLOAK_REALM t net ast).2
      [Interleave.Finished (AuthService.get_public_keys KEYCLOAK_REALM t net ast).1].
Proof.
  unfold AuthServiceWorkers.run, Interleave.run, Interleave.start,
    AuthService.get_public_keys.
  cbn [fold_left map]. unfold Interleave.step at 2.
  cbn [Interleave.workers Interleave.shared lookup list_lookup].
  destruct (AuthService.cache_lookup t ast) as [keys |]; [reflexivity |].
  unfold Interleave.step.
  cbn [Interleave.workers Interleave.shared lookup list_lookup insert list_insert].
  destruct (AuthService.refresh t _ _) as [keys st1]. reflexivity.
Qed.

Lemma single_worker_is_obtain_jwks (base realm : string) (ssl : bool) (t : Z)
    (net : network) (st : JwtPlugin.plugin) :
  Interleave.workers
    (JwtPluginWorkers.run base realm
       (fun _ => net (JwtPlugin.jwks_url base realm) ssl)
       [0%nat; 0%nat] (Interleave.start [t] st))
  = [Interleave.Finished (JwtPlugin.obtain_jwks base realm ssl t net st)].
Proof.
  unfold JwtPluginWorkers.run, Interleave.run, Interleave.start,
    JwtPlugin.obtain_jwks, JwtPluginWorkers.hit.
  cbn [fold_left map]. unfold Interleave.step at 2.
  cbn [Interleave.workers Interleave.shared lookup list_lookup].
  destruct (JwtPlugin.cache_lookup base realm t st) as [jwks |]; [reflexivity |].
  unfold Interleave.step.
  cbn [Interleave.workers Interleave.shared lookup list_lookup insert list_insert].
  reflexivity.
Qed.

(** C9 (amended): neither cache serializes refreshes.  For [n] concurrent
    lookups that all find the cache cold or expired: when every worker
    checks the cache before any refresh completes, [n] requests are in
    flight at the same time and [n] fetches are performed in total; under
    every schedule each worker fetches at most once, so at most [n] fetches
    are performed.  This holds for [get_public_keys] of the auth service and
    for the key-set lookup of the gateway plugin. *)
Theorem c9_no_refresh_serialization
    (KEYCLOAK_REALM : string) (ast : AuthService.state)
    (base realm : string) (st : JwtPlugin.plugin)
    (times : list Z) (resp_of : nat -> Exc.exn + jwks_doc) :
  let n := length times in
  ((forall t, t ∈ times -> AuthService.cache_lookup t ast = None) ->
   let sys0 := Interleave.start times ast in
   Interleave.in_flight
     (AuthServiceWorkers.run KEYCLOAK_REALM resp_of (seq 0 n) sys0) = n /\
   AuthServiceWorkers.fetches
     (AuthServiceWorkers.run KEYCLOAK_REALM resp_of (Interleave.stampede n) sys0)
     = (fetch_count (AuthService.trace ast) + n)%nat /\
   (forall schedule,
      (AuthServiceWorkers.fetches
         (AuthServiceWorkers.run KEYCLOAK_REALM resp_of schedule sys0)
       <= fetch_count (AuthService.trace ast) + n)%nat))
  /\
  ((forall t, t ∈ times -> JwtPlugin.cache_lookup base realm t st = None) ->
   let sys0 := Interleave.start times st in
   Interleave.in_flight
     (JwtPluginWorkers.run base realm resp_of (seq 0 n) sys0) = n /\
   JwtPluginWorkers.fetches
     (JwtPluginWorkers.run base realm resp_of (Interleave.stampede n) sys0)
     = (fetch_count (JwtPlugin.trace st) + n)%nat /\
   (forall schedule,
      (JwtPluginWorkers.fetches
         (JwtPluginWorkers.run base realm resp_of schedule sys0)
       <= fetch_count (JwtPlugin.trace st) + n)%nat)).
Proof.
  intros n. split.
  - intros Hmiss.
    apply (stampede_fetches _ _ _ AuthService.cache_lookup
             (AuthService.log [EvFetch (AuthService.JWKS_URL KEYCLOAK_REALM)])
             AuthService.refresh resp_of
             (fun s => fetch_count (AuthService.trace s))).
    + intros s. cbn [AuthService.log AuthService.trace].
      rewrite fetch_count_app. cbn. lia.
    + intros t r s. unfold AuthService.refresh.
      destruct (AuthService.parse_keys r); reflexivity.
    + intros t s Hs. exact Hs.
    + exact Hmiss.
  - intros Hmiss.
    apply (stampede_fetches _ _ _ (JwtPluginWorkers.hit base realm)
             (JwtPlugin.log [EvFetch (JwtPlugin.jwks_url base realm)])
             (JwtPluginWorkers.complete base realm) resp_of
             (fun s => fetch_count (JwtPlugin.trace s))).
    + intros s. cbn [JwtPlugin.log JwtPlugin.trace].
      rewrite fetch_count_app. cbn. lia.
    + intros t r s. unfold JwtPluginWorkers.complete, JwtPlugin.refresh.
      cbn [snd]. destruct r as [e | doc]; [| reflexivity].
      destruct (Exc.dispatch _ e); reflexivity.
    + intros t s Hs. unfold JwtPluginWorkers.hit in *.
      change (JwtPlugin.cache_lookup base realm t
                (JwtPlugin.log [EvFetch (JwtPlugin.jwks_url base realm)] s))
        with (JwtPlugin.cache_lookup base realm t s).
      destruct (JwtPlugin.cache_lookup base realm t s); [discriminate | reflexivity].
    + intros t Ht. unfold JwtPluginWorkers.hit. now rewrite (Hmiss t Ht).
Qed.

End ConcurrencyClaims.

(** C9, as stated, fails on the code: two concurrent [get_public_keys]
    calls on a cold cache have two requests in flight at once and perform
    two fetches. *)
Lemma c9_two_workers_two_fetches :
  Interleave.in_flight
    (AuthServiceWorkers.run (L := Sample.libs) "kong" (fun _ => inr Sample.jwks)
       [0%nat; 1%nat]
       (Interleave.start [0; 0] AuthService.initial_state)) = 2%nat /\
  AuthServiceWorkers.fetches
    (AuthServiceWorkers.run (L := Sample.libs) "kong" (fun _ => inr Sample.jwks)
       [0%nat; 1%nat; 0%nat; 1%nat]
       (Interleave.start [0; 0] AuthService.initial_state)) = 2%nat.
Proof. split; vm_compute; reflexivity. Qed.

Lemma c9_no_refresh_serialization_witness :
  Interleave.in_flight
    (JwtPluginWorkers.run (L := Sample.libs) "https://idp.example" "kong"
       (fun _ => inr Sample.jwks) (seq 0 3)
       (Interleave.start [5; 6; 7] (JwtPlugin.init Sample.plugin_config)))
  = 3%nat /\
  AuthServiceWorkers.fetches
    (AuthServiceWorkers.run (L := Sample.libs) "kong" (fun _ => inr Sample.jwks)
       (Interleave.stampede 3)
       (Interleave.start [5; 6; 7] AuthService.initial_state)) = 3%nat.
Proof.
  destruct (c9_no_refresh_serialization (L := Sample.libs) "kong"
              AuthService.initial_state "https://idp.example" "kong"
              (JwtPlugin.init Sample.plugin_config) [5; 6; 7]
              (fun _ => inr Sample.jwks)) as [Hservice Hplugin].
  split.
  - apply Hplugin. intros t _. reflexivity.
  - apply Hservice. intros t _. reflexivity.
Defined.

(** * Further properties of the sources *)

(** ** Authorization decisions *)

Section AuthzMore.

(** Roles only ever add access: a caller holding every role of another is
    authorized wherever the other is. *)
Theorem is_authorized_monotone (c c' : payload) (p m : string) :
  (forall r, r ∈ roles_of c -> r ∈ roles_of c') ->
  Authz.is_authorized c p m = true ->
  Authz.is_authorized c' p m = true.
Proof.
  intros Hsub. unfold Authz.is_authorized.
  assert (forall x, Py.in_list x (roles_of c) = true ->
                    Py.in_list x (roles_of c') = true) as Hin.
  { intros x Hx. apply in_list_spec. apply Hsub. now apply in_list_spec. }
  assert ((0 <? Z.of_nat (length (roles_of c))) = true ->
          (0 <? Z.of_nat (length (roles_of c'))) = true) as Hany.
  { rewrite !has_any_role. intros Hne He.
    destruct (roles_of c) as [|r rs]; [congruence |].
    specialize (Hsub r ltac:(left)). rewrite He in Hsub.
    now apply elem_of_nil in Hsub. }
  unfold Authz.rule_decision.
  destruct (Py.str_in "/orders" p).
  - destruct (String.eqb m "GET"); [apply Hin |].
    destruct (String.eqb m "POST"); [apply Hin |].
    destruct (Py.in_list m ["PUT"; "DELETE"]); [apply Hin | apply Hany].
  - destruct (Py.str_in "/inventory" p); [| apply Hany].
    destruct (String.eqb m "GET"); [reflexivity |].
    destruct (Py.in_list m ["PUT"; "POST"; "DELETE"]); [apply Hin | apply Hany].
Qed.

(** A caller without any role is authorized for exactly one kind of
    request: GET on a path that contains /inventory and not /orders. *)
Theorem roleless_access (c : payload) (p m : string) :
  roles_of c = [] ->
  (Authz.is_authorized c p m = true <->
   Py.str_in "/orders" p = false /\ Py.str_in "/inventory" p = true /\ m = "GET").
Proof.
  intros Hr. unfold Authz.is_authorized, Authz.rule_decision. rewrite Hr.
  destruct (Py.str_in "/orders" p).
  - destruct (String.eqb m "GET"); [cbn; intuition discriminate |].
    destruct (String.eqb m "POST"); [cbn; intuition discriminate |].
    destruct (Py.in_list m ["PUT"; "DELETE"]); cbn; intuition discriminate.
  - destruct (Py.str_in "/inventory" p).
    + destruct (String.eqb m "GET") eqn:Hg.
      * apply String.eqb_eq in Hg. intuition.
      * apply String.eqb_neq in Hg.
        destruct (Py.in_list m ["PUT"; "POST"; "DELETE"]); cbn;
          intuition (discriminate || congruence).
    + cbn. intuition discriminate.
Qed.

End AuthzMore.

Lemma is_authorized_monotone_witness :
  Authz.is_authorized (Sample.with_roles ["offline_access"; "uma_authorization"])
    "/api/custom/orders" "GET" = true.
Proof.
  apply (is_authorized_monotone (Sample.with_roles ["offline_access"])
           (Sample.with_roles ["offline_access"; "uma_authorization"])
           "/api/custom/orders" "GET").
  - intros r Hr. cbn in Hr |- *. apply elem_of_cons in Hr as [-> | Hr];
      [left | now apply elem_of_nil in Hr].
  - reflexivity.
Defined.

Lemma roleless_access_witness :
  Authz.is_authorized (Sample.with_roles []) "/api/custom/inventory" "GET" = true
  <-> Py.str_in "/orders" "/api/custom/inventory" = false /\
      Py.str_in "/inventory" "/api/custom/inventory" = true /\ "GET" = "GET".
Proof.
  apply (roleless_access (Sample.with_roles []) "/api/custom/inventory" "GET").
  reflexivity.
Defined.

(** ** What a successful [decode] guarantees *)

Section DecodeFacts.
Context `{L : Libs}.

Lemma and_then_ok (a b : Exc.exn + unit) :
  PyJWT.and_then a b = inr tt -> a = inr tt /\ b = inr tt.
Proof.
  destruct a as [e | []]; cbn; [discriminate |].
  destruct b as [e | []]; [discriminate | auto].
Qed.

Lemma decode_events (token : string) (key : pubkey) (algorithms : list string)
    (audience issuer : option string) (o : PyJWT.options) (now : Z) :
  (PyJWT.decode token key algorithms audience issuer o now).2 = []
  \/ (PyJWT.decode token key algorithms audience issuer o now).2
     = [EvVerifySig token].
Proof.
  unfold PyJWT.decode, PyJWT.verify_signature_step.
  destruct (jws_load token) as [e | j]; [now left |].
  destruct (PyJWT.verify_signature o);
    [destruct (h_alg (jws_header j));
       [destruct (_ || _); [| destruct (sig_verifies token key)] |] |];
    cbn;
    repeat match goal with
           | |- context [match ?x with _ => _ end] => destruct x; cbn
           end;
    auto.
Qed.

(** A payload comes out of [decode] only for a token that parses, names an
    allowed algorithm, carries a signature that verifies under the key
    given, and whose claims pass validation. *)
Lemma decode_sound (token : string) (key : pubkey) (algorithms : list string)
    (audience issuer : option string) (o : PyJWT.options) (now : Z)
    (p : payload) (evs : list event) :
  PyJWT.verify_signature o = true ->
  PyJWT.decode token key algorithms audience issuer o now = (inr p, evs) ->
  exists j alg,
    jws_load token = inr j /\
    h_alg (jws_header j) = Some alg /\
    Py.in_list alg algorithms = true /\
    sig_verifies token key = true /\
    jws_payload j = Some p /\
    PyJWT.validate_claims p o audience issuer now = inr tt /\
    evs = [EvVerifySig token].
Proof.
  intros Hv. unfold PyJWT.decode.
  destruct (jws_load token) as [e | j] eqn:Hload; [discriminate |].
  rewrite Hv. unfold PyJWT.verify_signature_step.
  destruct (h_alg (jws_header j)) as [alg |] eqn:Halg; [| discriminate].
  destruct (String.eqb alg "" || negb (Py.in_list alg algorithms)) eqn:Ha;
    [discriminate |].
  destruct (sig_verifies token key) eqn:Hs; [| discriminate].
  destruct (jws_payload j) as [p' |] eqn:Hp; [| discriminate].
  destruct (PyJWT.validate_claims p' o audience issuer now) as [e | []] eqn:Hc;
    [discriminate |].
  intros [= <- <-]. exists j, alg.
  apply orb_false_iff in Ha as [_ Ha]. apply negb_false_iff in Ha.
  split; [reflexivity |]. split; [exact Halg |]. split; [exact Ha |].
  split; [reflexivity |]. split; [exact Hp |]. split; [exact Hc | reflexivity].
Qed.

(** What passing claim validation means for expiry and audience. *)
Lemma validated_not_expired (p : payload) (o : PyJWT.options)
    (audience issuer : option string) (now exp : Z) :
  PyJWT.verify_exp o = true ->
  PyJWT.validate_claims p o audience issuer now = inr tt ->
  p_exp p = Some exp -> now < exp.
Proof.
  intros Hv Hc Hexp. unfold PyJWT.validate_claims in Hc.
  apply and_then_ok in Hc as [_ Hc]. apply and_then_ok in Hc as [_ Hc].
  apply and_then_ok in Hc as [_ Hc]. apply and_then_ok in Hc as [Hc _].
  unfold PyJWT.validate_exp in Hc. rewrite Hexp, Hv in Hc. cbn in Hc.
  destruct (exp <=? now) eqn:E; [discriminate |].
  apply Z.leb_gt in E. lia.
Qed.

Lemma validated_audience (p : payload) (o : PyJWT.options)
    (audience : string) (issuer : option string) (now : Z) :
  PyJWT.verify_aud o = true ->
  PyJWT.validate_claims p o (Some audience) issuer now = inr tt ->
  exists a, p_aud p = Some a /\ audience ∈ PyJWT.aud_list a.
Proof.
  intros Hv Hc. unfold PyJWT.validate_claims in Hc.
  apply and_then_ok in Hc as [_ Hc]. apply and_then_ok in Hc as [_ Hc].
  apply and_then_ok in Hc as [_ Hc]. apply and_then_ok in Hc as [_ Hc].
  apply and_then_ok in Hc as [_ Hc].
  unfold PyJWT.validate_aud in Hc. rewrite Hv in Hc.
  destruct (p_aud p) as [a |]; [| discriminate].
  destruct (PyJWT.aud_falsy (Some a)); [discriminate |].
  cbn [from_option] in Hc.
  destruct (Py.in_list audience (PyJWT.aud_list a)) eqn:Hin; [| discriminate].
  exists a. split; [reflexivity | now apply in_list_spec].
Qed.

Lemma validated_not_immature (p : payload) (o : PyJWT.options)
    (audience issuer : option string) (now : Z) :
  PyJWT.verify_iat o = true -> PyJWT.verify_nbf o = true ->
  PyJWT.validate_claims p o audience issuer now = inr tt ->
  (forall iat, p_iat p = Some iat -> iat <= now) /\
  (forall nbf, p_nbf p = Some nbf -> nbf <= now).
Proof.
  intros Hi Hn Hc. unfold PyJWT.validate_claims in Hc.
  apply and_then_ok in Hc as [_ Hc]. apply and_then_ok in Hc as [Hiat Hc].
  apply and_then_ok in Hc as [Hnbf _].
  unfold PyJWT.validate_iat in Hiat. unfold PyJWT.validate_nbf in Hnbf.
  rewrite Hi in Hiat. rewrite Hn in Hnbf. split.
  - intros iat E. rewrite E in Hiat. cbn in Hiat.
    destruct (now <? iat) eqn:C; [discriminate | apply Z.ltb_ge in C; lia].
  - intros nbf E. rewrite E in Hnbf. cbn in Hnbf.
    destruct (now <? nbf) eqn:C; [discriminate | apply Z.ltb_ge in C; lia].
Qed.

End DecodeFacts.

(** ** The auth service's key map *)

Section KeyMapFacts.
Context `{L : Libs}.

(** Entries for other kids leave a kid's slot alone. *)
Lemma build_keys_untouched (ks : list jwk) (kid : string) :
  forall (acc m : gmap string pubkey),
    AuthService.build_keys ks acc = inr m ->
    (forall key, key ∈ ks -> jwk_kid key <> Some kid) ->
    m !! kid = acc !! kid.
Proof.
  induction ks as [|key ks IH]; intros acc m Hb Hno; cbn in Hb.
  - now injection Hb as <-.
  - assert (jwk_kid key <> Some kid) as Hk by (apply Hno; left).
    assert (forall key', key' ∈ ks -> jwk_kid key' <> Some kid) as Hrest
      by (intros key' Hin; apply Hno; now right).
    destruct (jwk_kid key) as [k |]; cbn in Hb; [| now apply IH].
    destruct (negb (String.eqb k "")); [| now apply IH].
    destruct (from_jwk key) as [e | pk]; [discriminate |].
    rewrite (IH _ _ Hb Hrest). apply lookup_insert_ne. congruence.
Qed.

Lemma build_keys_dom (ks : list jwk) (kid : string) :
  forall (acc m : gmap string pubkey),
    AuthService.build_keys ks acc = inr m ->
    (is_Some (m !! kid) <->
     is_Some (acc !! kid)
     \/ (kid <> "" /\ exists key, key ∈ ks /\ jwk_kid key = Some kid)).
Proof.
  induction ks as [|key ks IH]; intros acc m Hb; cbn in Hb.
  - injection Hb as <-. split; [auto |].
    intros [H | (_ & key & Hin & _)]; [exact H | now apply elem_of_nil in Hin].
  - destruct (Py.truthy_str (jwk_kid key)) eqn:Ht.
    + destruct (from_jwk key) as [e | pk]; [discriminate |].
      rewrite (IH _ _ Hb). destruct (jwk_kid key) as [k |] eqn:Hk;
        [| discriminate]. cbn in Ht |- *.
      apply negb_true_iff, String.eqb_neq in Ht.
      rewrite lookup_insert. case_decide as Hd.
      * subst k. split; intros _; [| eauto].
        right. split; [exact Ht |]. exists key. split; [left | exact Hk].
      * split.
        -- intros [H | (Hne & key' & Hin & Hk')]; [now left |].
           right. split; [exact Hne |]. exists key'. split; [now right | exact Hk'].
        -- intros [H | (Hne & key' & Hin & Hk')]; [now left |].
           apply elem_of_cons in Hin as [-> | Hin]; [congruence |].
           right. split; [exact Hne |]. eauto.
    + rewrite (IH _ _ Hb). split.
      * intros [H | (Hne & key' & Hin & Hk')]; [now left |].
        right. split; [exact Hne |]. exists key'. split; [now right | exact Hk'].
      * intros [H | (Hne & key' & Hin & Hk')]; [now left |].
        apply elem_of_cons in Hin as [-> | Hin].
        -- rewrite Hk' in Ht. cbn in Ht.
           apply negb_false_iff, String.eqb_eq in Ht. congruence.
        -- right. split; [exact Hne |]. eauto.
Qed.

(** The last entry of a kid is the one kept. *)
Lemma build_keys_last (ks1 ks2 : list jwk) (key : jwk) (kid : string) :
  forall (acc m : gmap string pubkey),
    AuthService.build_keys (ks1 ++ key :: ks2) acc = inr m ->
    jwk_kid key = Some kid -> kid <> "" ->
    (forall key', key' ∈ ks2 -> jwk_kid key' <> Some kid) ->
    exists pk, from_jwk key = inr pk /\ m !! kid = Some pk.
Proof.
  induction ks1 as [|k ks1 IH]; intros acc m Hb Hk Hne Hno.
  - cbn in Hb. rewrite Hk in Hb. cbn in Hb.
    apply String.eqb_neq in Hne. rewrite Hne in Hb. cbn in Hb.
    destruct (from_jwk key) as [e | pk]; [discriminate |].
    exists pk. split; [reflexivity |].
    rewrite (build_keys_untouched _ _ _ _ Hb Hno). apply lookup_insert_eq.
  - cbn in Hb. destruct (Py.truthy_str (jwk_kid k)); [| now apply (IH acc)].
    destruct (from_jwk k) as [e | pk']; [discriminate |].
    now apply (IH _ _ Hb).
Qed.

(** One entry that [from_jwk] rejects makes the whole loop raise. *)
Lemma build_keys_bad_key (ks : list jwk) (key : jwk) (e : Exc.exn) :
  forall acc : gmap string pubkey,
    key ∈ ks -> Py.truthy_str (jwk_kid key) = true -> from_jwk key = inl e ->
    exists e', AuthService.build_keys ks acc = inl e'.
Proof.
  induction ks as [|k ks IH]; intros acc Hin Ht He;
    [now apply elem_of_nil in Hin |].
  cbn. apply elem_of_cons in Hin as [<- | Hin].
  - rewrite Ht, He. eauto.
  - destruct (Py.truthy_str (jwk_kid k)); [| now apply IH].
    destruct (from_jwk k) as [e0 | pk]; [eauto | now apply IH].
Qed.

(** A successful refresh replaces the key map wholesale: afterwards a kid
    resolves exactly when the fetched document has an entry with that
    non-empty kid, whatever was cached before, and the expiry is one hour
    after the clock reading of the call. *)
Theorem refresh_replaces_key_map (KEYCLOAK_REALM : string) (now : Z)
    (net : network) (ast : AuthService.state) (keys : option (list jwk))
    (m : gmap string pubkey) :
  AuthService.cache_lookup now ast = None ->
  net (AuthService.JWKS_URL KEYCLOAK_REALM) true = inr (JwksObject keys) ->
  AuthService.build_keys (default [] keys) ∅ = inr m ->
  let r := AuthService.get_public_keys KEYCLOAK_REALM now net ast in
  r.1 = m /\
  AuthService.public_keys_cache r.2 = m /\
  AuthService.cache_expiry r.2 = Some (now + 3600) /\
  (forall kid,
     is_Some (m !! kid) <->
     kid <> "" /\ exists key, key ∈ default [] keys /\ jwk_kid key = Some kid).
Proof.
  intros Hmiss Hnet Hb r. subst r.
  unfold AuthService.get_public_keys, AuthService.refresh,
    AuthService.parse_keys.
  rewrite Hmiss, Hnet. cbn [doc_keys]. rewrite Hb. cbn.
  split; [reflexivity |]. split; [reflexivity |]. split; [reflexivity |].
  intros kid. rewrite (build_keys_dom _ kid _ _ Hb), lookup_empty.
  split; [| intros H; now right].
  intros [[x Hx] | H]; [discriminate | exact H].
Qed.

(** A single key that cannot be converted fails the whole refresh: the call
    returns the previously cached map and leaves cache and expiry as they
    were, even though the other keys of the document were fine. *)
Theorem one_bad_key_fails_refresh (KEYCLOAK_REALM : string) (now : Z)
    (net : network) (ast : AuthService.state) (keys : list jwk)
    (key : jwk) (e : Exc.exn) :
  AuthService.cache_lookup now ast = None ->
  net (AuthService.JWKS_URL KEYCLOAK_REALM) true = inr (JwksObject (Some keys)) ->
  key ∈ keys ->
  Py.truthy_str (jwk_kid key) = true ->
  from_jwk key = inl e ->
  let r := AuthService.get_public_keys KEYCLOAK_REALM now net ast in
  r.1 = AuthService.public_keys_cache ast /\
  AuthService.public_keys_cache r.2 = AuthService.public_keys_cache ast /\
  AuthService.cache_expiry r.2 = AuthService.cache_expiry ast.
Proof.
  intros Hmiss Hnet Hin Ht He r. subst r.
  unfold AuthService.get_public_keys, AuthService.refresh,
    AuthService.parse_keys.
  rewrite Hmiss, Hnet. cbn [doc_keys from_option id].
  destruct (build_keys_bad_key keys key e ∅ Hin Ht He) as [e' ->].
  cbn. auto.
Qed.

(** When a document lists a kid twice, the two components pick different
    entries: the plugin's search stops at the first entry with the kid, the
    auth service's map keeps the last one. *)
Theorem duplicate_kid_resolution (ks : list jwk) (kid : string) :
  (forall key, JwtPlugin.find_key ks kid = Some key ->
     exists ks1 ks2,
       ks = (ks1 ++ key :: ks2)%list /\ jwk_kid key = Some kid /\
       forall key', key' ∈ ks1 -> jwk_kid key' <> Some kid)
  /\
  (forall ks1 ks2 key (m : gmap string pubkey),
     ks = (ks1 ++ key :: ks2)%list ->
     jwk_kid key = Some kid -> kid <> "" ->
     (forall key', key' ∈ ks2 -> jwk_kid key' <> Some kid) ->
     AuthService.build_keys ks ∅ = inr m ->
     exists pk, from_jwk key = inr pk /\ m !! kid = Some pk).
Proof.
  split.
  - induction ks as [|k ks IH]; intros key Hf; [discriminate |].
    unfold JwtPlugin.find_key in Hf. cbn in Hf.
    destruct (bool_decide (jwk_kid k = Some kid)) eqn:Hd.
    + injection Hf as <-. apply bool_decide_eq_true in Hd.
      exists [], ks. split; [reflexivity |]. split; [exact Hd |].
      intros key' Hin. now apply elem_of_nil in Hin.
    + apply bool_decide_eq_false in Hd.
      destruct (IH key Hf) as (ks1 & ks2 & -> & Hk & Hno).
      exists (k :: ks1), ks2. split; [reflexivity |]. split; [exact Hk |].
      intros key' Hin. apply elem_of_cons in Hin as [-> | Hin]; auto.
  - intros ks1 ks2 key m -> Hk Hne Hno Hb.
    exact (build_keys_last ks1 ks2 key kid ∅ m Hb Hk Hne Hno).
Qed.

End KeyMapFacts.

Lemma refresh_replaces_key_map_witness :
  (AuthService.get_public_keys (L := Sample.libs) "kong" 0 Sample.net_up
     AuthService.initial_state).1 = {["k1" := "key-1"]} /\
  (is_Some (({["k1" := "key-1"]} : gmap string string) !! "k9") <->
   "k9" <> "" /\ exists key, key ∈ [Sample.key1] /\ jwk_kid key = Some "k9").
Proof.
  destruct (refresh_replaces_key_map (L := Sample.libs) "kong" 0 Sample.net_up
              AuthService.initial_state (Some [Sample.key1])
              {["k1" := "key-1"]} eq_refl eq_refl eq_refl)
    as (Hret & _ & _ & Hdom).
  split; [exact Hret | exact (Hdom "k9")].
Defined.

Lemma one_bad_key_fails_refresh_witness :
  (AuthService.get_public_keys (L := Sample.strict_libs) "kong" 4000
     Sample.net_mixed Sample.warm_strict_service).1
  = AuthService.public_keys_cache Sample.warm_strict_service.
Proof.
  refine (proj1 (one_bad_key_fails_refresh (L := Sample.strict_libs) "kong" 4000
                   Sample.net_mixed Sample.warm_strict_service
                   [Sample.key1; Sample.ec_key] Sample.ec_key
                   {| Exc.exn_class := Exc.InvalidKeyError;
                      Exc.exn_str := "Not an RSA key" |}
                   eq_refl eq_refl _ eq_refl eq_refl)).
  right. left.
Defined.

Lemma duplicate_kid_resolution_witness :
  (exists ks1 ks2,
     [Sample.key1; Sample.key1_rotated] = (ks1 ++ Sample.key1 :: ks2)%list /\
     jwk_kid Sample.key1 = Some "k1" /\
     forall key', key' ∈ ks1 -> jwk_kid key' <> Some "k1") /\
  (exists pk,
     from_jwk (Libs := Sample.strict_libs) Sample.key1_rotated = inr pk /\
     ({["k1" := "BBBB"]} : gmap string string) !! "k1" = Some pk).
Proof.
  destruct (duplicate_kid_resolution (L := Sample.strict_libs)
              [Sample.key1; Sample.key1_rotated] "k1") as [Hfirst Hlast].
  split.
  - apply Hfirst. reflexivity.
  - apply (Hlast [Sample.key1] [] Sample.key1_rotated);
      [reflexivity | reflexivity | discriminate | | reflexivity].
    intros key' Hin. now apply elem_of_nil in Hin.
Defined.

(** ** The auth service's [verify_jwt_token] *)

Section ServiceVerify.
Context `{L : Libs}.

Lemma verified_claims_sound (KEYCLOAK_REALM token : string) (now : Z)
    (net : network) (ast : AuthService.state) (p : payload) :
  (AuthService.verify_jwt_token KEYCLOAK_REALM token now net ast).1 = Some p ->
  exists (j : jws) (kid : string) (key : pubkey),
    jws_load (AuthService.strip_bearer token) = inr j /\
    h_alg (jws_header j) = Some "RS256" /\
    h_kid (jws_header j) = Some kid /\ kid <> "" /\
    (AuthService.get_public_keys KEYCLOAK_REALM now net ast).1 !! kid = Some key /\
    sig_verifies (AuthService.strip_bearer token) key = true /\
    jws_payload j = Some p /\
    (exists a, p_aud p = Some a /\ "account" ∈ PyJWT.aud_list a) /\
    (forall exp, p_exp p = Some exp -> now < exp) /\
    (forall iat, p_iat p = Some iat -> iat <= now) /\
    (forall nbf, p_nbf p = Some nbf -> nbf <= now) /\
    AuthService.log_dates p = inr tt.
Proof.
  unfold AuthService.verify_jwt_token, PyJWT.get_unverified_header.
  destruct (jws_load (AuthService.strip_bearer token)) as [e | j] eqn:Hload;
    [discriminate |].
  destruct (h_kid (jws_header j)) as [kid |] eqn:Hkid; [| discriminate].
  cbn [Py.truthy_str from_option id].
  destruct (String.eqb kid "") eqn:Hne; [discriminate |]. cbn [negb].
  destruct (AuthService.get_public_keys KEYCLOAK_REALM now net ast)
    as [keys st1].
  cbn [fst]. destruct (keys !! kid) as [key |] eqn:Hkey; [| discriminate].
  destruct (PyJWT.decode _ key _ _ _ _ _) as [[e | p'] evs] eqn:Hd;
    [discriminate |].
  destruct (AuthService.log_dates p') as [e | []] eqn:Hdates; [discriminate |].
  intros [= <-].
  destruct (decode_sound _ _ _ _ _ PyJWT.default_options _ _ _ eq_refl Hd)
    as (j' & alg & Hload' & Halg & Hin & Hsig & Hp & Hc & _).
  rewrite Hload in Hload'. injection Hload' as <-.
  exists j, kid, key.
  assert (alg = "RS256") as ->.
  { cbn in Hin. rewrite orb_false_r in Hin. now apply String.eqb_eq in Hin. }
  apply String.eqb_neq in Hne.
  pose proof (validated_not_immature _ PyJWT.default_options _ _ _
                eq_refl eq_refl Hc) as [Hiat Hnbf].
  repeat (split; [assumption || reflexivity |]).
  split; [exact (validated_audience _ PyJWT.default_options _ _ _ eq_refl Hc) |].
  split; [intros exp; exact (validated_not_expired _ PyJWT.default_options
                                _ _ _ exp eq_refl Hc) |].
  repeat split; assumption.
Qed.

(** Claims are returned only for a token that, after the Bearer prefix is
    removed, parses with algorithm RS256 and a non-empty kid that the key
    map resolves, whose signature verifies under that key, whose audience
    contains "account", whose [exp], if it has one, lies in the future,
    whose [iat] and [nbf], if it has them, do not, and whose [exp] and
    [iat] (0 when absent) can be rendered as dates; the claims returned are
    the token's own payload.  No [exp] is required: a token without one
    never expires. *)
Theorem verify_jwt_token_sound (KEYCLOAK_REALM token : string) (now : Z)
    (net : network) (ast : AuthService.state) (p : payload) :
  (AuthService.verify_jwt_token KEYCLOAK_REALM token now net ast).1 = Some p ->
  exists (j : jws) (kid : string) (key : pubkey),
    jws_load (AuthService.strip_bearer token) = inr j /\
    h_alg (jws_header j) = Some "RS256" /\
    h_kid (jws_header j) = Some kid /\ kid <> "" /\
    (AuthService.get_public_keys KEYCLOAK_REALM now net ast).1 !! kid = Some key /\
    sig_verifies (AuthService.strip_bearer token) key = true /\
    jws_payload j = Some p /\
    (exists a, p_aud p = Some a /\ "account" ∈ PyJWT.aud_list a) /\
    (forall exp, p_exp p = Some exp -> now < exp) /\
    (forall iat, p_iat p = Some iat -> iat <= now) /\
    (forall nbf, p_nbf p = Some nbf -> nbf <= now) /\
    AuthService.log_dates p = inr tt.
Proof. apply verified_claims_sound. Qed.

(** One call fetches the key set at most once and checks at most one
    signature, and claims are returned only after a signature check. *)
Theorem verify_jwt_token_effects (KEYCLOAK_REALM token : string) (now : Z)
    (net : network) (ast : AuthService.state) :
  let r := AuthService.verify_jwt_token KEYCLOAK_REALM token now net ast in
  exists evs,
    AuthService.trace r.2 = (AuthService.trace ast ++ evs)%list /\
    (fetch_count evs <= 1)%nat /\
    (sigcheck_count evs <= 1)%nat /\
    (is_Some r.1 -> sigcheck_count evs = 1%nat).
Proof.
  intros r. subst r.
  unfold AuthService.verify_jwt_token, PyJWT.get_unverified_header.
  assert (forall A (x : A), is_Some (@None A) -> False) as Hnone
    by (intros A x [y Hy]; discriminate).
  destruct (jws_load (AuthService.strip_bearer token)) as [e | j].
  { exists []. rewrite app_nil_r. cbn. repeat split; try lia.
    intros [y Hy]; discriminate. }
  destruct (negb (Py.truthy_str (h_kid (jws_header j)))).
  { exists []. rewrite app_nil_r. cbn. repeat split; try lia.
    intros [y Hy]; discriminate. }
  assert (exists evs0,
            AuthService.trace
              (AuthService.get_public_keys KEYCLOAK_REALM now net ast).2
            = (AuthService.trace ast ++ evs0)%list
            /\ (fetch_count evs0 <= 1)%nat /\ sigcheck_count evs0 = 0%nat)
    as (evs0 & Htr & Hf & Hs).
  { unfold AuthService.get_public_keys.
    destruct (AuthService.cache_lookup now ast).
    - exists []. rewrite app_nil_r. cbn. repeat split; lia.
    - exists [EvFetch (AuthService.JWKS_URL KEYCLOAK_REALM)].
      unfold AuthService.refresh.
      destruct (AuthService.parse_keys _); cbn; repeat split; lia. }
  destruct (AuthService.get_public_keys KEYCLOAK_REALM now net ast)
    as [keys st1].
  cbn [snd] in Htr.
  destruct (keys !! _) as [key |].
  - pose proof (decode_events (AuthService.strip_bearer token) key ["RS256"]
                  (Some "account") None PyJWT.default_options now) as Hev.
    destruct (PyJWT.decode _ key _ _ _ _ _) as [[e | p] evs] eqn:Hd.
    + exists (evs0 ++ evs)%list. cbn [fst snd AuthService.log AuthService.trace].
      rewrite Htr, <- app_assoc, fetch_count_app, sigcheck_count_app.
      cbn [snd] in Hev.
      destruct Hev as [-> | ->]; cbn; repeat split; try lia.
      all: intros [y Hy]; discriminate.
    + destruct (decode_sound _ _ _ _ _ PyJWT.default_options _ _ _ eq_refl Hd)
        as (_ & _ & _ & _ & _ & _ & _ & _ & ->).
      exists (evs0 ++ [EvVerifySig (AuthService.strip_bearer token)])%list.
      destruct (AuthService.log_dates p);
        cbn [fst snd AuthService.log AuthService.trace];
        rewrite Htr, <- app_assoc, fetch_count_app, sigcheck_count_app;
        cbn; repeat split; lia.
  - exists evs0. cbn. repeat split; try lia; [exact Htr |].
    intros [y Hy]; discriminate.
Qed.

End ServiceVerify.

Lemma verify_jwt_token_sound_witness :
  exists (j : jws) (kid : string) (key : pubkey (Libs := Sample.libs)),
    jws_load (Libs := Sample.libs) (AuthService.strip_bearer "Bearer t.good")
      = inr j /\
    h_alg (jws_header j) = Some "RS256" /\
    h_kid (jws_header j) = Some kid /\ kid <> "" /\
    (AuthService.get_public_keys (L := Sample.libs) "kong" 1000 Sample.net_up
       AuthService.initial_state).1 !! kid = Some key /\
    sig_verifies (Libs := Sample.libs)
      (AuthService.strip_bearer "Bearer t.good") key = true /\
    jws_payload j = Some Sample.good_claims /\
    (exists a, p_aud Sample.good_claims = Some a /\
               "account" ∈ PyJWT.aud_list a) /\
    (forall exp, p_exp Sample.good_claims = Some exp -> 1000 < exp) /\
    (forall iat, p_iat Sample.good_claims = Some iat -> iat <= 1000) /\
    (forall nbf, p_nbf Sample.good_claims = Some nbf -> nbf <= 1000) /\
    AuthService.log_dates (L := Sample.libs) Sample.good_claims = inr tt.
Proof.
  apply (verify_jwt_token_sound (L := Sample.libs) "kong" "Bearer t.good" 1000
           Sample.net_up AuthService.initial_state Sample.good_claims).
  vm_compute. reflexivity.
Defined.

(** ** The auth service's handlers *)

Section HandlerFacts.
Context `{L : Libs}.
Variable KEYCLOAK_REALM : string.

(** Verified claims are never an empty dictionary, so the handlers' test
    [if not decoded_token] only ever catches a failed verification. *)
Lemma verified_payload_truthy (token : string) (now : Z) (net : network)
    (ast : AuthService.state) (p : payload) :
  (AuthService.verify_jwt_token KEYCLOAK_REALM token now net ast).1 = Some p ->
  AuthServiceApi.payload_truthy p = true.
Proof.
  intros Hv. apply verified_claims_sound in Hv
    as (j & kid & key & _ & _ & _ & _ & _ & _ & _ & (a & Ha & _) & _).
  unfold AuthServiceApi.payload_truthy. rewrite Ha.
  rewrite (bool_decide_eq_true_2 (is_Some (Some a))) by eauto.
  now rewrite !orb_true_r.
Qed.

(** A body whose token is not a string is answered 400, 401 or 500. *)
Ltac not_a_token :=
  repeat match goal with
         | |- context [if ?c then _ else _] => destruct c
         end;
  cbn; discriminate.

(** On a string path and a string method the handler's call is the
    decision function of the authorization policy. *)
Lemma is_authorized_on_strings (p : payload) (path method : string) :
  AuthServiceApi.is_authorized p (JStr path) (JStr method)
  = inr (Authz.is_authorized p path method).
Proof.
  unfold AuthServiceApi.is_authorized, Authz.is_authorized, Authz.rule_decision,
    AuthServiceApi.in_strs, Py.in_list.
  cbn [AuthServiceApi.contains AuthServiceApi.eq_str existsb].
  destruct (Py.str_in "/orders" path).
  - destruct (String.eqb method "GET"); [reflexivity |].
    destruct (String.eqb method "POST"); [reflexivity |].
    destruct (String.eqb method "PUT" || (String.eqb method "DELETE" || false));
      reflexivity.
  - destruct (Py.str_in "/inventory" path); [| reflexivity].
    destruct (String.eqb method "GET"); [reflexivity |].
    destruct (String.eqb method "PUT"
              || (String.eqb method "POST" || (String.eqb method "DELETE" || false)));
      reflexivity.
Qed.

(** POST /auth/verify answers 200 exactly when the body is an object with a
    truthy path and method and a non-empty string token, the token verifies
    and the policy allows the request; the body then carries the subject,
    the enterprise and client identifiers and the username of the verified
    claims. *)
Theorem verify_auth_200_iff (body : Exc.exn + jval)
    (now : Z) (timestamp : string) (net : network) (ast : AuthService.state) :
  (AuthServiceApi.verify_auth KEYCLOAK_REALM body now timestamp net ast).1.1 = 200
  <->
  exists d token p,
    body = inr (JDict d) /\
    PreFunction.truthy (AuthServiceApi.get d "path") = true /\
    PreFunction.truthy (AuthServiceApi.get d "method") = true /\
    AuthServiceApi.get d "token" = JStr token /\ token <> "" /\
    (AuthService.verify_jwt_token KEYCLOAK_REALM token now net ast).1 = Some p /\
    AuthServiceApi.is_authorized p (AuthServiceApi.get d "path")
      (AuthServiceApi.get d "method") = inr true /\
    (AuthServiceApi.verify_auth KEYCLOAK_REALM body now timestamp net ast).1.2
    = AuthServiceApi.BAuthorized (p_sub p)
        (Authz.determine_enterprise_id p (AuthServiceApi.get d "path")
           (AuthServiceApi.get d "method"))
        (default "unknown" (p_client_id p))
        (default "unknown" (p_preferred_username p)) timestamp.
Proof.
  unfold AuthServiceApi.verify_auth, AuthServiceApi.internal_error. split.
  - destruct body as [e | data]; [discriminate |].
    destruct (negb (PreFunction.truthy data)); [discriminate |].
    destruct data as [| | | | | d]; try discriminate.
    destruct (AuthServiceApi.get d "token") as [| b | z | token | l | d']
      eqn:Htok.
    1-3, 5-6: cbn [AuthServiceApi.verify_token]; not_a_token.
    cbn [PreFunction.truthy AuthServiceApi.has_len negb
         AuthServiceApi.verify_token].
    rewrite andb_false_r.
    destruct (PreFunction.truthy (AuthServiceApi.get d "path")) eqn:Hp;
      [| cbn [negb andb]; discriminate].
    destruct (PreFunction.truthy (AuthServiceApi.get d "method")) eqn:Hm;
      [| cbn [negb andb]; discriminate].
    destruct (String.eqb token "") eqn:Ht; [cbn [negb andb]; discriminate |].
    cbn [negb andb].
    destruct (AuthService.verify_jwt_token KEYCLOAK_REALM token now net ast)
      as [[p |] st1] eqn:Hv; [| discriminate].
    destruct (negb (AuthServiceApi.payload_truthy p)); [discriminate |].
    destruct (AuthServiceApi.is_authorized p _ _) as [e | []] eqn:Ha;
      [discriminate | | discriminate].
    intros _. exists d, token, p. apply String.eqb_neq in Ht. cbn [fst snd].
    split; [reflexivity |]. split; [exact Hp |]. split; [exact Hm |].
    split; [exact Htok |]. split; [exact Ht |]. split; [now rewrite Hv |].
    split; [exact Ha | reflexivity].
  - intros (d & token & p & -> & Hp & Hm & Htok & Ht & Hv & Ha & _).
    assert (PreFunction.truthy (JDict d) = true) as ->
      by (destruct d; [discriminate Htok | reflexivity]).
    rewrite Htok, Hp, Hm. apply String.eqb_neq in Ht.
    cbn [PreFunction.truthy AuthServiceApi.has_len negb andb
         AuthServiceApi.verify_token].
    rewrite Ht. cbn [negb andb].
    pose proof (verified_payload_truthy token now net ast p Hv) as Htr.
    destruct (AuthService.verify_jwt_token KEYCLOAK_REALM token now net ast)
      as [r st1].
    cbn in Hv. subst r. rewrite Htr, Ha. reflexivity.
Qed.

(** A request that is answered 400 costs nothing: the key cache is not
    consulted, nothing is fetched and no signature is checked.  The same
    holds for a request answered 500, with one exception: when the path of
    the body is a non-zero number or [true], the token is verified first and
    the 500 comes from the policy check, which cannot search such a path. *)
Theorem verify_auth_bad_request_no_io (body : Exc.exn + jval)
    (now : Z) (timestamp : string) (net : network) (ast : AuthService.state) :
  let r := AuthServiceApi.verify_auth KEYCLOAK_REALM body now timestamp net ast in
  (r.1.1 = 400 -> r.2 = ast) /\
  (r.1.1 = 500 ->
   r.2 = ast \/
   exists d token p e,
     body = inr (JDict d) /\
     ((exists z, AuthServiceApi.get d "path" = JNum z /\ z <> 0)
      \/ AuthServiceApi.get d "path" = JBool true) /\
     AuthServiceApi.get d "token" = JStr token /\
     AuthService.verify_jwt_token KEYCLOAK_REALM token now net ast
       = (Some p, r.2) /\
     AuthServiceApi.is_authorized p (AuthServiceApi.get d "path")
       (AuthServiceApi.get d "method") = inl e).
Proof.
  intros r. subst r.
  unfold AuthServiceApi.verify_auth, AuthServiceApi.internal_error.
  destruct body as [e | data]; [split; [reflexivity | now left] |].
  destruct (negb (PreFunction.truthy data)); [split; [reflexivity | now left] |].
  destruct data as [| | | | | d]; try (split; [reflexivity | now left]).
  destruct (_ && negb _); [split; [reflexivity | now left] |].
  destruct (PreFunction.truthy (AuthServiceApi.get d "path")) eqn:Hp;
    [| split; [reflexivity | now left]].
  destruct (negb _); [split; [reflexivity | now left] |].
  destruct (AuthServiceApi.get d "token") as [| | | token | |] eqn:Htok;
    cbn [AuthServiceApi.verify_token]; try (split; discriminate).
  destruct (AuthService.verify_jwt_token KEYCLOAK_REALM token now net ast)
    as [[p |] st1] eqn:Hv; [| split; discriminate].
  destruct (negb (AuthServiceApi.payload_truthy p)); [split; discriminate |].
  destruct (AuthServiceApi.is_authorized p _ _) as [e | b] eqn:Ha.
  - split; [discriminate |]. intros _. right. exists d, token, p, e.
    cbn [fst snd]. split; [reflexivity |].
    split; [| split; [exact Htok | split; [exact Hv | exact Ha]]].
    unfold AuthServiceApi.is_authorized in Ha.
    destruct (AuthServiceApi.get d "path") as [| [|] | z | s | l | d'];
      try discriminate Hp; cbn in Ha.
    + now right.
    + left. exists z. split; [reflexivity |]. cbn in Hp.
      apply negb_true_iff, Z.eqb_neq in Hp. exact Hp.
    + destruct (Py.str_in "/orders" s);
        [| destruct (Py.str_in "/inventory" s)];
        repeat match type of Ha with
               | context [if ?c then _ else _] => destruct c
               end; discriminate Ha.
    + destruct (existsb _ l);
        [| destruct (existsb _ l)];
        repeat match type of Ha with
               | context [if ?c then _ else _] => destruct c
               end; discriminate Ha.
    + destruct (bool_decide _);
        [| destruct (bool_decide _)];
        repeat match type of Ha with
               | context [if ?c then _ else _] => destruct c
               end; discriminate Ha.
  - destruct (negb b); split; discriminate.
Qed.

(** POST /auth/token/verify applies no policy: whenever POST /auth/verify
    turns a request down with 403, the same body is answered 200 there, with
    the subject, client and expiry of the same verified claims. *)
Theorem token_only_skips_policy (body : Exc.exn + jval)
    (now : Z) (timestamp : string) (net : network) (ast : AuthService.state) :
  (AuthServiceApi.verify_auth KEYCLOAK_REALM body now timestamp net ast).1.1 = 403 ->
  exists d token p,
    body = inr (JDict d) /\ AuthServiceApi.get d "token" = JStr token /\
    (AuthService.verify_jwt_token KEYCLOAK_REALM token now net ast).1 = Some p /\
    (AuthServiceApi.verify_token_only KEYCLOAK_REALM body now timestamp net ast).1
    = (200, AuthServiceApi.BValid (p_sub p) (p_client_id p) (p_exp p) timestamp).
Proof.
  unfold AuthServiceApi.verify_auth, AuthServiceApi.verify_token_only,
    AuthServiceApi.internal_error.
  destruct body as [e | data]; [discriminate |].
  destruct (negb (PreFunction.truthy data)); [discriminate |].
  destruct data as [| | | | | d]; try discriminate.
  destruct (AuthServiceApi.get d "token") as [| b | z | token | l | d']
    eqn:Htok.
  1-3, 5-6: cbn [AuthServiceApi.verify_token]; not_a_token.
  cbn [PreFunction.truthy AuthServiceApi.has_len negb
       AuthServiceApi.verify_token].
  rewrite !andb_false_r.
  destruct (PreFunction.truthy (AuthServiceApi.get d "path"));
    [| cbn [negb andb]; discriminate].
  destruct (PreFunction.truthy (AuthServiceApi.get d "method"));
    [| cbn [negb andb]; discriminate].
  destruct (String.eqb token ""); [cbn [negb andb]; discriminate |].
  cbn [negb andb].
  destruct (AuthService.verify_jwt_token KEYCLOAK_REALM token now net ast)
    as [[p |] st1] eqn:Hv; [| discriminate].
  destruct (negb (AuthServiceApi.payload_truthy p)); [discriminate |].
  intros _. exists d, token, p.
  split; [reflexivity |]. split; [exact Htok |]. split; [now rewrite Hv |].
  reflexivity.
Qed.

End HandlerFacts.

(** ** The gateway plugin's key lookup and token validation *)

Section PluginFacts.
Context `{L : Libs}.

Lemma construct_key_shape (target_key : jwk) :
  (exists key, JwtPlugin.construct_key target_key = (Some key, None)) \/
  (exists msg, JwtPlugin.construct_key target_key = (None, Some msg)).
Proof.
  unfold JwtPlugin.construct_key.
  destruct (_ || _); [right; eauto |].
  destruct (JwtPlugin._base64url_decode _) as [ex | nb]; [right; eauto |].
  destruct (JwtPlugin._base64url_decode _) as [ex | eb]; [right; eauto |].
  destruct (rsa_public_key _ _); [right | left]; eauto.
Qed.

Lemma select_key_shape (jwks : jwks_doc) (kid : string)
    (r : option pubkey * option string) :
  JwtPlugin.select_key jwks kid = inr r ->
  (exists key, r = (Some key, None)) \/ (exists msg, r = (None, Some msg)).
Proof.
  unfold JwtPlugin.select_key.
  destruct (doc_keys jwks) as [e | keys]; [discriminate |].
  destruct (JwtPlugin.find_key keys kid) as [target |];
    [| intros [= <-]; right; eauto].
  destruct (negb (bool_decide (jwk_kty target = Some "RSA")));
    [intros [= <-]; right; eauto |].
  destruct (negb _); [intros [= <-]; right; eauto |].
  intros [= <-]. apply construct_key_shape.
Qed.

(** [_get_public_key_from_jwks] returns a key or an error message, never
    both and never neither. *)
Lemma key_lookup_shape (base realm kid : string) (ssl : bool) (now : Z)
    (net : network) (st : JwtPlugin.plugin) :
  let r := (JwtPlugin._get_public_key_from_jwks base realm kid ssl now net st).1 in
  (exists key, r = (Some key, None)) \/ (exists msg, r = (None, Some msg)).
Proof.
  cbn zeta. unfold JwtPlugin._get_public_key_from_jwks, JwtPlugin.obtain_jwks.
  assert (forall (jwks : jwks_doc) (st1 : JwtPlugin.plugin),
            let r := (match JwtPlugin.select_key jwks kid with
                      | inl e => (JwtPlugin.outer_handler e, st1)
                      | inr r => (r, st1)
                      end).1 in
            (exists key, r = (Some key, None)) \/
            (exists msg, r = (None, Some msg))) as Hsel.
  { intros jwks st1. cbn zeta.
    destruct (JwtPlugin.select_key jwks kid) as [e | r] eqn:Hs.
    - right. unfold JwtPlugin.outer_handler. cbn. eauto.
    - cbn. eapply select_key_shape; eassumption. }
  destruct (JwtPlugin.cache_lookup base realm now st) as [jwks |];
    [apply Hsel |].
  unfold JwtPlugin.refresh. destruct (net _ _) as [e | doc]; [| apply Hsel].
  cbn [Exc.dispatch].
  destruct (Exc.issubclass (Exc.exn_class e) Exc.RequestException);
    [right; cbn; eauto |].
  destruct (Exc.issubclass (Exc.exn_class e) Exc.JSONDecodeError);
    right; cbn; unfold JwtPlugin.outer_handler; eauto.
Qed.

(** A key comes back only when the key set in hand, cached and fresh or just
    fetched, has an entry with the requested kid whose first such entry is
    an RSA key for signatures (use "sig" or no use at all) with non-empty
    modulus and exponent; the key is built from the big-endian integers of
    their base64url-decoded bytes. *)
Theorem public_key_sound (base realm kid : string) (ssl : bool) (now : Z)
    (net : network) (st : JwtPlugin.plugin) (key : pubkey) :
  (JwtPlugin._get_public_key_from_jwks base realm kid ssl now net st).1.1
    = Some key ->
  exists jwks keys target n e n_bytes e_bytes,
    (JwtPlugin.cache_lookup base realm now st = Some jwks \/
     (JwtPlugin.cache_lookup base realm now st = None /\
      net (JwtPlugin.jwks_url base realm) ssl = inr jwks)) /\
    doc_keys jwks = inr keys /\
    JwtPlugin.find_key keys kid = Some target /\
    jwk_kty target = Some "RSA" /\
    (jwk_use target = Some "sig" \/ jwk_use target = None) /\
    jwk_n target = Some n /\ n <> "" /\
    jwk_e target = Some e /\ e <> "" /\
    JwtPlugin._base64url_decode n = inr n_bytes /\
    JwtPlugin._base64url_decode e = inr e_bytes /\
    rsa_public_key (JwtPlugin.int_from_bytes_big e_bytes)
      (JwtPlugin.int_from_bytes_big n_bytes) = inr key.
Proof.
  unfold JwtPlugin._get_public_key_from_jwks, JwtPlugin.obtain_jwks.
  assert (forall (jwks : jwks_doc) (st1 : JwtPlugin.plugin),
            (match JwtPlugin.select_key jwks kid with
             | inl e => (JwtPlugin.outer_handler e, st1)
             | inr r => (r, st1)
             end).1.1 = Some key ->
            exists keys target n e n_bytes e_bytes,
              doc_keys jwks = inr keys /\
              JwtPlugin.find_key keys kid = Some target /\
              jwk_kty target = Some "RSA" /\
              (jwk_use target = Some "sig" \/ jwk_use target = None) /\
              jwk_n target = Some n /\ n <> "" /\
              jwk_e target = Some e /\ e <> "" /\
              JwtPlugin._base64url_decode n = inr n_bytes /\
              JwtPlugin._base64url_decode e = inr e_bytes /\
              rsa_public_key (JwtPlugin.int_from_bytes_big e_bytes)
                (JwtPlugin.int_from_bytes_big n_bytes) = inr key) as Hsel.
  { intros jwks st1. unfold JwtPlugin.select_key.
    destruct (doc_keys jwks) as [ex | keys]; [discriminate |].
    destruct (JwtPlugin.find_key keys kid) as [target |] eqn:Hf;
      [| discriminate].
    destruct (bool_decide (jwk_kty target = Some "RSA")) eqn:Hkty;
      [| discriminate]. cbn [negb].
    apply bool_decide_eq_true in Hkty.
    destruct (bool_decide (jwk_use target = Some "sig")
              || bool_decide (jwk_use target = None)) eqn:Huse;
      [| discriminate]. cbn [negb].
    apply orb_true_iff in Huse.
    unfold JwtPlugin.construct_key.
    destruct (jwk_n target) as [n |] eqn:Hn; [| discriminate].
    destruct (jwk_e target) as [e |] eqn:He;
      [| cbn; rewrite orb_true_r; discriminate].
    cbn [Py.truthy_str from_option id].
    destruct (String.eqb n "") eqn:Hn0; [discriminate |].
    destruct (String.eqb e "") eqn:He0; [discriminate |].
    cbn [negb orb].
    destruct (JwtPlugin._base64url_decode n) as [ex | nb] eqn:Hnb;
      [discriminate |].
    destruct (JwtPlugin._base64url_decode e) as [ex | eb] eqn:Heb;
      [discriminate |].
    destruct (rsa_public_key _ _) as [ex | pk] eqn:Hpk; [discriminate |].
    cbn. intros [= ->].
    apply String.eqb_neq in Hn0, He0.
    exists keys, target, n, e, nb, eb.
    split; [reflexivity |]. split; [exact Hf |]. split; [exact Hkty |].
    split; [destruct Huse as [H | H]; apply bool_decide_eq_true in H; auto |].
    split; [exact Hn |]. split; [exact Hn0 |]. split; [exact He |].
    split; [exact He0 |]. split; [exact Hnb |]. split; [exact Heb |].
    exact Hpk. }
  destruct (JwtPlugin.cache_lookup base realm now st) as [jwks |] eqn:Hc.
  - intros H. destruct (Hsel _ _ H) as (keys & target & n & e & nb & eb & Hrest).
    exists jwks, keys, target, n, e, nb, eb. split; [now left | exact Hrest].
  - unfold JwtPlugin.refresh.
    destruct (net (JwtPlugin.jwks_url base realm) ssl) as [ex | doc] eqn:Hnet.
    + cbn [Exc.dispatch].
      destruct (Exc.issubclass (Exc.exn_class ex) Exc.RequestException);
        [discriminate |].
      destruct (Exc.issubclass (Exc.exn_class ex) Exc.JSONDecodeError);
        discriminate.
    + intros H. destruct (Hsel _ _ H) as (keys & target & n & e & nb & eb & Hrest).
      exists doc, keys, target, n, e, nb, eb. split; [now right | exact Hrest].
Qed.

(** What one key lookup does to the plugin: it appends at most one fetch
    and nothing else to the trace, never drops a cache entry and leaves the
    configuration and the TTL alone. *)
Lemma key_lookup_effects (base realm kid : string) (ssl : bool) (now : Z)
    (net : network) (st : JwtPlugin.plugin) :
  let st1 := (JwtPlugin._get_public_key_from_jwks base realm kid ssl now net st).2 in
  (exists evs,
     JwtPlugin.trace st1 = (JwtPlugin.trace st ++ evs)%list /\
     (fetch_count evs <= 1)%nat /\ sigcheck_count evs = 0%nat) /\
  (forall k, is_Some (JwtPlugin.jwks_cache st !! k) ->
             is_Some (JwtPlugin.jwks_cache st1 !! k)) /\
  JwtPlugin.cfg st1 = JwtPlugin.cfg st /\
  JwtPlugin.cache_ttl st1 = JwtPlugin.cache_ttl st.
Proof.
  cbn zeta. unfold JwtPlugin._get_public_key_from_jwks, JwtPlugin.obtain_jwks.
  destruct (JwtPlugin.cache_lookup base realm now st) as [jwks |].
  - destruct (JwtPlugin.select_key jwks kid); cbn;
      (split; [exists []; rewrite app_nil_r; cbn; repeat split; lia | auto]).
  - unfold JwtPlugin.refresh.
    destruct (net _ _) as [e | doc].
    + destruct (Exc.dispatch _ e); cbn;
        (split; [eexists; split; [reflexivity | cbn; split; lia] | auto]).
    + assert (forall k, is_Some (JwtPlugin.jwks_cache st !! k) ->
                is_Some (<[JwtPlugin.cache_key base realm := doc]>
                           (JwtPlugin.jwks_cache st) !! k)) as Hmono.
      { intros k Hk. rewrite lookup_insert. case_decide; [eauto | exact Hk]. }
      destruct (JwtPlugin.select_key doc kid); cbn;
        (split; [eexists; split; [reflexivity | cbn; split; lia] | auto]).
Qed.

Lemma validated_result_shape (token base realm iss aud : string) (ssl : bool)
    (now : Z) (net : network) (st : JwtPlugin.plugin) :
  let r := (JwtPlugin._validate_jwt token base realm iss aud ssl now net st).1 in
  (exists p, r = (true, Some p, None)) \/
  (exists msg, r = (false, None, Some msg)).
Proof.
  cbn zeta. unfold JwtPlugin._validate_jwt.
  destruct (PyJWT.get_unverified_header token); [right; cbn; eauto |].
  destruct (negb (String.eqb _ "RS256")); [right; cbn; eauto |].
  destruct (negb (Py.truthy_str _)); [right; cbn; eauto |].
  destruct (JwtPlugin._get_public_key_from_jwks _ _ _ _ _ _ _) as [[pk msg] st1].
  destruct pk as [pk |]; [| right; cbn; eauto].
  destruct (PyJWT.decode _ _ _ _ _ _ _) as [[e | p] evs]; [| left; cbn; eauto].
  destruct (Exc.dispatch _ e); right; cbn; eauto.
Qed.

(** The result triple of [_validate_jwt] is either (True, claims, None) or
    (False, None, message): no claims come with an error and no failure is
    silent. *)
Theorem validate_jwt_shape (token base realm iss aud : string) (ssl : bool)
    (now : Z) (net : network) (st : JwtPlugin.plugin) :
  let r := (JwtPlugin._validate_jwt token base realm iss aud ssl now net st).1 in
  (exists p, r = (true, Some p, None)) \/
  (exists msg, r = (false, None, Some msg)).
Proof. apply validated_result_shape. Qed.

Lemma validated_token_sound (token base realm iss aud : string) (ssl : bool)
    (now : Z) (net : network) (st : JwtPlugin.plugin) :
  (JwtPlugin._validate_jwt token base realm iss aud ssl now net st).1.1.1 = true ->
  exists (j : jws) (kid : string) (key : pubkey) (p : payload),
    (JwtPlugin._validate_jwt token base realm iss aud ssl now net st).1
      = (true, Some p, None) /\
    jws_load token = inr j /\
    h_alg (jws_header j) = Some "RS256" /\
    h_kid (jws_header j) = Some kid /\ kid <> "" /\
    (JwtPlugin._get_public_key_from_jwks base realm kid ssl now net st).1.1
      = Some key /\
    sig_verifies token key = true /\
    jws_payload j = Some p /\
    p_iss p = Some iss /\
    (exists a, p_aud p = Some a /\ aud ∈ PyJWT.aud_list a) /\
    (forall exp, p_exp p = Some exp -> now < exp) /\
    (forall iat, p_iat p = Some iat -> iat <= now) /\
    (forall nbf, p_nbf p = Some nbf -> nbf <= now).
Proof.
  unfold JwtPlugin._validate_jwt, PyJWT.get_unverified_header.
  destruct (jws_load token) as [e | j] eqn:Hload; [discriminate |].
  destruct (negb (String.eqb _ "RS256")); [discriminate |].
  destruct (h_kid (jws_header j)) as [kid |] eqn:Hkid; [| discriminate].
  cbn [Py.truthy_str from_option id].
  destruct (String.eqb kid "") eqn:Hne; [discriminate |]. cbn [negb].
  destruct (JwtPlugin._get_public_key_from_jwks base realm kid ssl now net st)
    as [[pk msg] st1] eqn:Hlk.
  destruct pk as [key |]; [| discriminate].
  destruct (PyJWT.decode token key _ _ _ _ _) as [[e | p] evs] eqn:Hd.
  { destruct (Exc.dispatch _ e); discriminate. }
  intros _.
  destruct (decode_sound _ _ _ _ _ JwtPlugin.decode_options _ _ _ eq_refl Hd)
    as (j' & alg & Hload' & Halg & Hin & Hsig & Hp & Hc & _).
  rewrite Hload in Hload'. injection Hload' as <-.
  assert (alg = "RS256") as ->.
  { cbn in Hin. rewrite orb_false_r in Hin. now apply String.eqb_eq in Hin. }
  pose proof (validated_not_immature _ JwtPlugin.decode_options _ _ _
                eq_refl eq_refl Hc) as [Hiat Hnbf].
  apply String.eqb_neq in Hne.
  exists j, kid, key, p.
  split; [reflexivity |]. split; [reflexivity |]. split; [exact Halg |].
  split; [exact Hkid |]. split; [exact Hne |]. split; [now rewrite Hlk |].
  split; [exact Hsig |]. split; [exact Hp |].
  split; [exact (decode_checks_issuer _ _ _ _ _ JwtPlugin.decode_options _ _ _
                   eq_refl Hd) |].
  split; [exact (validated_audience _ JwtPlugin.decode_options _ _ _ eq_refl Hc) |].
  split; [intros exp; exact (validated_not_expired _ JwtPlugin.decode_options
                               _ _ _ exp eq_refl Hc) |].
  split; assumption.
Qed.

(** A token is reported valid only if its header names RS256 and a non-empty
    kid, the key lookup for that kid succeeded, the signature verifies under
    the key found, the issuer equals the expected issuer, the audience
    contains the expected audience, its [exp], if it has one, lies in the
    future, and its [iat] and [nbf], if it has them, do not; the claims
    returned are the token's payload.  Neither [exp] nor [iat] has to be
    present, although the options ask for them. *)
Theorem validate_jwt_sound (token base realm iss aud : string) (ssl : bool)
    (now : Z) (net : network) (st : JwtPlugin.plugin) :
  (JwtPlugin._validate_jwt token base realm iss aud ssl now net st).1.1.1 = true ->
  exists (j : jws) (kid : string) (key : pubkey) (p : payload),
    (JwtPlugin._validate_jwt token base realm iss aud ssl now net st).1
      = (true, Some p, None) /\
    jws_load token = inr j /\
    h_alg (jws_header j) = Some "RS256" /\
    h_kid (jws_header j) = Some kid /\ kid <> "" /\
    (JwtPlugin._get_public_key_from_jwks base realm kid ssl now net st).1.1
      = Some key /\
    sig_verifies token key = true /\
    jws_payload j = Some p /\
    p_iss p = Some iss /\
    (exists a, p_aud p = Some a /\ aud ∈ PyJWT.aud_list a) /\
    (forall exp, p_exp p = Some exp -> now < exp) /\
    (forall iat, p_iat p = Some iat -> iat <= now) /\
    (forall nbf, p_nbf p = Some nbf -> nbf <= now).
Proof. apply validated_token_sound. Qed.

(** One validation fetches the key set at most once and checks at most one
    signature, reports a token valid only after checking its signature,
    never drops a cached key set and never touches the configuration. *)
Theorem validate_jwt_effects (token base realm iss aud : string) (ssl : bool)
    (now : Z) (net : network) (st : JwtPlugin.plugin) :
  let r := JwtPlugin._validate_jwt token base realm iss aud ssl now net st in
  (exists evs,
     JwtPlugin.trace r.2 = (JwtPlugin.trace st ++ evs)%list /\
     (fetch_count evs <= 1)%nat /\
     (sigcheck_count evs <= 1)%nat /\
     (r.1.1.1 = true -> sigcheck_count evs = 1%nat)) /\
  (forall k, is_Some (JwtPlugin.jwks_cache st !! k) ->
             is_Some (JwtPlugin.jwks_cache r.2 !! k)) /\
  JwtPlugin.cfg r.2 = JwtPlugin.cfg st /\
  JwtPlugin.cache_ttl r.2 = JwtPlugin.cache_ttl st.
Proof.
  cbn zeta. unfold JwtPlugin._validate_jwt.
  assert (forall r0 : bool * option payload * option string,
            r0.1.1 = false ->
            (exists evs,
               JwtPlugin.trace st = (JwtPlugin.trace st ++ evs)%list /\
               (fetch_count evs <= 1)%nat /\ (sigcheck_count evs <= 1)%nat /\
               (r0.1.1 = true -> sigcheck_count evs = 1%nat)) /\
            (forall k, is_Some (JwtPlugin.jwks_cache st !! k) ->
                       is_Some (JwtPlugin.jwks_cache st !! k)) /\
            JwtPlugin.cfg st = JwtPlugin.cfg st /\
            JwtPlugin.cache_ttl st = JwtPlugin.cache_ttl st) as Hearly.
  { intros r0 Hr0. split; [| auto].
    exists []. rewrite app_nil_r, Hr0. cbn.
    repeat split; try lia; try discriminate. }
  destruct (PyJWT.get_unverified_header token); [now apply Hearly |].
  destruct (negb (String.eqb _ "RS256")); [now apply Hearly |].
  destruct (negb (Py.truthy_str _)); [now apply Hearly |].
  pose proof (key_lookup_effects base realm (default "" (h_kid h)) ssl now net st)
    as ((evs0 & Htr & Hf & Hs) & Hmono & Hcfg & Httl).
  destruct (JwtPlugin._get_public_key_from_jwks _ _ _ _ _ _ _) as [[pk msg] st1].
  cbn [snd] in Htr, Hmono, Hcfg, Httl.
  destruct pk as [key |].
  - pose proof (decode_events token key ["RS256"] (Some aud) (Some iss)
                  JwtPlugin.decode_options now) as Hev.
    destruct (PyJWT.decode token key _ _ _ _ _) as [[e | p] evs] eqn:Hd.
    + cbn [snd] in Hev.
      destruct (Exc.dispatch _ e); cbn [fst snd JwtPlugin.log JwtPlugin.trace
        JwtPlugin.jwks_cache JwtPlugin.cfg JwtPlugin.cache_ttl];
        (split; [| auto]); exists (evs0 ++ evs)%list;
        rewrite Htr, <- app_assoc, fetch_count_app, sigcheck_count_app;
        destruct Hev as [-> | ->]; cbn; repeat split; try lia; discriminate.
    + destruct (decode_sound _ _ _ _ _ JwtPlugin.decode_options _ _ _ eq_refl Hd)
        as (_ & _ & _ & _ & _ & _ & _ & _ & ->).
      cbn [fst snd JwtPlugin.log JwtPlugin.trace
        JwtPlugin.jwks_cache JwtPlugin.cfg JwtPlugin.cache_ttl].
      split; [| auto]. exists (evs0 ++ [EvVerifySig token])%list.
      rewrite Htr, <- app_assoc, fetch_count_app, sigcheck_count_app.
      cbn. repeat split; lia.
  - cbn [fst snd]. split; [| auto]. exists evs0. rewrite Hs.
    repeat split; try lia; try exact Htr; try discriminate.
Qed.

End PluginFacts.

(** ** Strings *)

Section StringFacts.

Lemma append_empty_r (a : string) : a ++ "" = a.
Proof.
  induction a as [|c a IH]; [reflexivity |].
  change (String c (a ++ "") = String c a). now rewrite IH.
Qed.

Lemma list_ascii_append (a b : string) :
  list_ascii_of_string (a ++ b)
  = (list_ascii_of_string a ++ list_ascii_of_string b)%list.
Proof.
  induction a as [|c a IH]; [reflexivity |].
  change (c :: list_ascii_of_string (a ++ b)
          = c :: (list_ascii_of_string a ++ list_ascii_of_string b)%list).
  now rewrite IH.
Qed.

Lemma string_of_list_app (l1 l2 : list ascii) :
  string_of_list_ascii (l1 ++ l2)
  = string_of_list_ascii l1 ++ string_of_list_ascii l2.
Proof.
  induction l1 as [|c l1 IH]; [reflexivity |].
  change (String c (string_of_list_ascii (l1 ++ l2))
          = String c (string_of_list_ascii l1 ++ string_of_list_ascii l2)).
  now rewrite IH.
Qed.

Lemma rev_string_append (a b : string) :
  PreFunction.rev_string (a ++ b)
  = PreFunction.rev_string b ++ PreFunction.rev_string a.
Proof.
  unfold PreFunction.rev_string.
  now rewrite list_ascii_append, rev_app_distr, string_of_list_app.
Qed.

Lemma prefix_append (a b : string) : String.prefix a (a ++ b) = true.
Proof.
  induction a as [|c a IH]; [now destruct b |].
  change (String.prefix (String c a) (String c (a ++ b)) = true).
  simpl. destruct (ascii_dec c c) as [_ | Hne]; [exact IH | congruence].
Qed.

Lemma endswith_append (a b : string) : PreFunction.endswith (a ++ b) b = true.
Proof.
  unfold PreFunction.endswith. rewrite rev_string_append. apply prefix_append.
Qed.

End StringFacts.

(** ** The plugin's base64 padding, access phase and repeated lookups *)

Section PluginMore.
Context `{L : Libs}.

Lemma len_append (a b : string) :
  Py.len (a ++ b) = (Py.len a + Py.len b)%nat.
Proof.
  induction a as [|c a IH]; [reflexivity |].
  change (Py.len (String c (a ++ b)) = (Py.len (String c a) + Py.len b)%nat).
  cbn [Py.len]. destruct (Py.is_continuation c); rewrite IH; reflexivity.
Qed.

Lemma len_equals_signs (k : nat) :
  Py.len (string_of_list_ascii (repeat "="%char k)) = k.
Proof.
  induction k as [|k IH]; [reflexivity |].
  cbn [repeat string_of_list_ascii Py.len].
  change (Py.is_continuation "="%char) with false. cbn iota. now rewrite IH.
Qed.

(** [_base64url_decode] hands the decoder its input followed by zero to
    three "=" signs, as many as bring the length [len] reports to a
    multiple of four, and returns whatever the decoder returns. *)
Theorem base64url_padding (data : string) :
  JwtPlugin._base64url_decode data
    = urlsafe_b64decode (JwtPluginApi.pad_base64url data) /\
  exists k : nat,
    (k <= 3)%nat /\
    JwtPluginApi.pad_base64url data
      = data ++ string_of_list_ascii (repeat "="%char k) /\
    Z.of_nat (Py.len (JwtPluginApi.pad_base64url data)) mod 4 = 0.
Proof.
  split; [reflexivity |].
  unfold JwtPluginApi.pad_base64url.
  set (len := Z.of_nat (Py.len data)).
  pose proof (Z.mod_pos_bound len 4 ltac:(lia)) as Hb.
  pose proof (Z.div_mod len 4 ltac:(lia)) as Hdm.
  destruct (4 - len mod 4 =? 4) eqn:E; cbn [negb].
  - apply Z.eqb_eq in E. exists 0%nat. cbn [repeat string_of_list_ascii].
    split; [lia |]. split.
    + symmetry. apply append_empty_r.
    + fold len. replace (len mod 4) with 0 by lia. reflexivity.
  - apply Z.eqb_neq in E. exists (Z.to_nat (4 - len mod 4)).
    split; [lia |]. split; [reflexivity |].
    rewrite len_append, len_equals_signs.
    rewrite Nat2Z.inj_add, Z2Nat.id by lia. fold len.
    replace (len + (4 - len mod 4)) with ((len / 4 + 1) * 4) by lia.
    apply Z_mod_mult.
Qed.

(** [access] lets a request through only when the plugin is fully
    configured, the Authorization header starts with "Bearer ", and the rest
    of the header is a token that [_validate_jwt] reports valid; the
    upstream headers are then the subject, username, e-mail and comma-joined
    roles of the verified claims. *)
Theorem plugin_access_forwards_only_valid (auth_header : option string)
    (now : Z) (net : network) (st : JwtPlugin.plugin)
    (headers : list (string * string)) :
  (JwtPluginApi.access auth_header now net st).1 = JwtPluginApi.Forward headers ->
  exists base realm iss aud s p,
    JwtPlugin.keycloak_base_url (JwtPlugin.cfg st) = Some base /\ base <> "" /\
    JwtPlugin.keycloak_realm (JwtPlugin.cfg st) = Some realm /\ realm <> "" /\
    JwtPlugin.expected_issuer (JwtPlugin.cfg st) = Some iss /\ iss <> "" /\
    JwtPlugin.expected_audience (JwtPlugin.cfg st) = Some aud /\ aud <> "" /\
    auth_header = Some s /\ Py.startswith s "Bearer " = true /\
    (JwtPlugin._validate_jwt (Py.drop_chars 7 s) base realm iss aud
       (default false (JwtPlugin.cfg_ssl_verify (JwtPlugin.cfg st)))
       now net st).1 = (true, Some p, None) /\
    headers = JwtPluginApi.identity_headers p.
Proof.
  unfold JwtPluginApi.access.
  destruct (JwtPlugin.keycloak_base_url (JwtPlugin.cfg st)) as [base |] eqn:Hb;
    [| discriminate].
  destruct (JwtPlugin.keycloak_realm (JwtPlugin.cfg st)) as [realm |] eqn:Hr;
    [| cbn; rewrite andb_false_r; discriminate].
  destruct (JwtPlugin.expected_issuer (JwtPlugin.cfg st)) as [iss |] eqn:Hi;
    [| cbn; rewrite andb_false_r; discriminate].
  destruct (JwtPlugin.expected_audience (JwtPlugin.cfg st)) as [aud |] eqn:Ha;
    [| cbn; rewrite andb_false_r; discriminate].
  cbn [Py.truthy_str from_option id].
  destruct (String.eqb base "") eqn:Hb0; [discriminate |].
  destruct (String.eqb realm "") eqn:Hr0; [discriminate |].
  destruct (String.eqb iss "") eqn:Hi0; [discriminate |].
  destruct (String.eqb aud "") eqn:Ha0; [discriminate |].
  cbn [negb andb].
  destruct auth_header as [s |]; [| discriminate].
  cbn [Py.truthy_str from_option id].
  destruct (negb (negb (String.eqb s ""))); [discriminate |].
  destruct (Py.startswith s "Bearer ") eqn:Hs; [| discriminate]. cbn [negb].
  pose proof (validated_result_shape (Py.drop_chars 7 s) base realm iss aud
                (default false (JwtPlugin.cfg_ssl_verify (JwtPlugin.cfg st)))
                now net st) as Hshape.
  pose proof (validated_token_sound (Py.drop_chars 7 s) base realm iss aud
                (default false (JwtPlugin.cfg_ssl_verify (JwtPlugin.cfg st)))
                now net st) as Hsound.
  destruct (JwtPlugin._validate_jwt _ _ _ _ _ _ _ _ _) as [[[ok pl] msg] st1]
    eqn:Hv.
  cbn [fst snd] in Hshape, Hsound |- *.
  destruct Hshape as [[p [= -> -> ->]] | [m [= -> -> ->]]]; [| discriminate].
  cbn [negb].
  destruct (Hsound eq_refl)
    as (j & kid & key & p' & [= <-] & _ & _ & _ & _ & _ & _ & _ & _
        & (a & Haud & _) & _).
  assert (AuthServiceApi.payload_truthy p = true) as ->.
  { unfold AuthServiceApi.payload_truthy. rewrite Haud.
    rewrite (bool_decide_eq_true_2 (is_Some (Some a))) by eauto.
    now rewrite !orb_true_r. }
  intros [= <-]. apply String.eqb_neq in Hb0, Hr0, Hi0, Ha0.
  exists base, realm, iss, aud, s, p.
  split; [reflexivity |]. split; [exact Hb0 |].
  split; [reflexivity |]. split; [exact Hr0 |].
  split; [reflexivity |]. split; [exact Hi0 |].
  split; [reflexivity |]. split; [exact Ha0 |].
  split; [reflexivity |]. split; [exact Hs |].
  split; [now rewrite Hv | reflexivity].
Qed.

(** A request that [access] turns down gets 500 when a required setting is
    missing, and then nothing else happens, and 401 otherwise. *)
Theorem plugin_access_exit_codes (auth_header : option string)
    (now : Z) (net : network) (st : JwtPlugin.plugin)
    (status : Z) (body : list (string * string)) :
  (JwtPluginApi.access auth_header now net st).1 = JwtPluginApi.Exit status body ->
  let configured :=
    Py.truthy_str (JwtPlugin.keycloak_base_url (JwtPlugin.cfg st))
    && Py.truthy_str (JwtPlugin.keycloak_realm (JwtPlugin.cfg st))
    && Py.truthy_str (JwtPlugin.expected_issuer (JwtPlugin.cfg st))
    && Py.truthy_str (JwtPlugin.expected_audience (JwtPlugin.cfg st)) in
  (configured = false /\ status = 500 /\
   (JwtPluginApi.access auth_header now net st).2 = st)
  \/ (configured = true /\ status = 401).
Proof.
  unfold JwtPluginApi.access. cbn zeta.
  destruct (_ && _ && _ && _); cbn [negb].
  - destruct (negb (Py.truthy_str auth_header)); [intros [= <- _]; now right |].
    destruct (negb (Py.startswith _ _)); [intros [= <- _]; now right |].
    destruct (JwtPlugin._validate_jwt _ _ _ _ _ _ _ _ _) as [[[ok pl] msg] st1].
    destruct (negb ok); [intros [= <- _]; now right |].
    destruct pl as [p |]; [| discriminate].
    destruct (AuthServiceApi.payload_truthy p); discriminate.
  - intros [= <- _]. left. auto.
Qed.

Lemma hit_keeps_state (c : JwtPlugin.lookup_call) (jwks : jwks_doc)
    (s : JwtPlugin.plugin) :
  JwtPlugin.cache_lookup (JwtPlugin.lc_base_url c) (JwtPlugin.lc_realm c)
    (JwtPlugin.lc_time c) s = Some jwks ->
  (JwtPlugin._get_public_key_from_jwks (JwtPlugin.lc_base_url c)
     (JwtPlugin.lc_realm c) (JwtPlugin.lc_kid c) (JwtPlugin.lc_ssl_verify c)
     (JwtPlugin.lc_time c) (JwtPlugin.lc_net c) s).2 = s.
Proof.
  intros Hhit. unfold JwtPlugin._get_public_key_from_jwks, JwtPlugin.obtain_jwks.
  rewrite Hhit. destruct (JwtPlugin.select_key jwks _); reflexivity.
Qed.

(** After a lookup that fetched the pair's key set at [t1], any number of
    further lookups for that pair before [t1 + cache_ttl], for whatever
    kids and whatever the network would answer, leave the plugin as it is:
    the whole run costs exactly one fetch. *)
Theorem sequential_lookups_fetch_once (base realm : string) (ssl : bool)
    (t1 : Z) (net1 : network) (jwks : jwks_doc) (st : JwtPlugin.plugin)
    (calls : list JwtPlugin.lookup_call) :
  JwtPlugin.cache_lookup base realm t1 st = None ->
  net1 (JwtPlugin.jwks_url base realm) ssl = inr jwks ->
  Forall (fun c => JwtPlugin.lc_base_url c = base /\
                   JwtPlugin.lc_realm c = realm /\
                   JwtPlugin.lc_time c < t1 + JwtPlugin.cache_ttl st) calls ->
  let st1 :=
    JwtPluginWorkers.step_state
      (JwtPlugin.obtain_jwks base realm ssl t1 net1 st) in
  JwtPlugin.run_lookups calls st1 = st1 /\
  fetch_count (JwtPlugin.trace (JwtPlugin.run_lookups calls st1))
    = S (fetch_count (JwtPlugin.trace st)).
Proof.
  intros Hmiss Hnet Hcalls st1.
  assert (JwtPlugin.run_lookups calls st1 = st1) as Hrun.
  { induction Hcalls as [|c calls (Hb & Hr & Ht) _ IH]; [reflexivity |].
    cbn [JwtPlugin.run_lookups fold_left].
    rewrite (hit_keeps_state c jwks st1); [exact IH |].
    rewrite Hb, Hr. subst st1. unfold JwtPlugin.obtain_jwks.
    rewrite Hmiss, Hnet. unfold JwtPlugin.cache_lookup. cbn.
    rewrite lookup_insert_eq.
    assert ((JwtPlugin.lc_time c <? t1 + JwtPlugin.cache_ttl st) = true) as ->
      by (apply Z.ltb_lt; lia).
    reflexivity. }
  split; [exact Hrun |]. rewrite Hrun. subst st1.
  unfold JwtPlugin.obtain_jwks. rewrite Hmiss, Hnet. cbn -[fetch_count].
  rewrite fetch_count_app. cbn. lia.
Qed.

End PluginMore.

(** ** The pre-function plugin *)

Section PreFunctionMore.
Variable json_loads : string -> Exc.exn + jval.

(** A 200 response with a JSON body ends the call with success on the
    attempt that receives it, after any number of transient failures within
    the budget that the loop got to handle (for an HTTP error this means
    that its body could be read). *)
Theorem success_after_retries (url : string) (rc : Z) (net : PreFunction.remote)
    (k : nat) (body : string) (j : jval) :
  Z.of_nat k <= rc ->
  (forall i, (i < k)%nat -> Attempt.is_retried (net url i) = true) ->
  net url k = PreFunction.Response 200 body ->
  json_loads body = inr j ->
  PreFunction._make_http_request json_loads url rc net = (inr (true, j), S k).
Proof.
  intros Hk Htrans Hres Hj.
  apply loop_after_retries; [exact Hk | exact Htrans |].
  rewrite Hres. cbn. now rewrite Hj.
Qed.

(** An HTTP error whose body cannot be read stops everything: later
    attempts are not made, even if the verifier would answer 200 then, and
    [_call_auth_service] reports the failure "Authentication service
    error". *)
Lemma unreadable_error_ends_call (c : PreFunction.config) (url0 : string)
    (net : PreFunction.remote) (k : nat) (code : Z) (e : Exc.exn) :
  let url := PreFunction.full_auth_url url0 in
  let rc := default 0 (PreFunction.retry_count c) in
  Z.of_nat k <= rc ->
  (forall i, (i < k)%nat -> Attempt.is_retried (net url i) = true) ->
  net url k = PreFunction.RaiseHTTPError code (PreFunction.ReadRaises e) ->
  PreFunction._make_http_request json_loads url rc net = (inl e, S k) /\
  PreFunction._call_auth_service json_loads c url0 net
  = ((false, PreFunction.err "Authentication service error"), S k).
Proof.
  intros url rc Hk Htrans Hres.
  assert (PreFunction._make_http_request json_loads url rc net = (inl e, S k))
    as Hreq.
  { apply loop_after_retries; [exact Hk | exact Htrans |].
    rewrite Hres. reflexivity. }
  split; [exact Hreq |].
  unfold PreFunction._call_auth_service. fold url rc. now rewrite Hreq.
Qed.

(** A 200 response whose body is not JSON is treated like a transport
    failure: it is retried while budget remains, and when every attempt is
    such a response the call fails with "Request error: <parser message>"
    after [retry_count + 1] attempts. *)
Theorem unparsable_200_is_retried (url : string) (rc : Z)
    (net : PreFunction.remote) :
  0 <= rc ->
  (forall i : nat, Z.of_nat i <= rc ->
     exists body e,
       net url i = PreFunction.Response 200 body /\ json_loads body = inl e) ->
  exists body e,
    net url (Z.to_nat rc) = PreFunction.Response 200 body /\
    json_loads body = inl e /\
    PreFunction._make_http_request json_loads url rc net
    = (inr (false, PreFunction.err ("Request error: " ++ Exc.exn_str e)),
       S (Z.to_nat rc)).
Proof.
  intros Hrc Hall. unfold PreFunction._make_http_request.
  replace (Z.to_nat (rc + 1)) with (S (Z.to_nat rc)) by lia.
  assert (forall i : nat, Z.of_nat i < rc ->
            PreFunction.attempt_once json_loads rc (Z.of_nat i) (net url i) = None)
    as Hcont.
  { intros i Hi. destruct (Hall i ltac:(lia)) as (b & e & -> & He).
    cbn. rewrite He. unfold PreFunction.retry_or.
    apply Z.ltb_lt in Hi. now rewrite Hi. }
  rewrite (loop_skip json_loads rc (net url) (Z.to_nat rc) (S (Z.to_nat rc)) 0 0)
    by first [lia | intros i Hi; apply Hcont; lia].
  replace (S (Z.to_nat rc) - Z.to_nat rc)%nat with 1%nat by lia.
  cbn [seq PreFunction.attempts_loop Nat.add].
  destruct (Hall (Z.to_nat rc) ltac:(lia)) as (b & e & Hres & He).
  exists b, e. split; [exact Hres |]. split; [exact He |].
  rewrite Hres. cbn. rewrite He. unfold PreFunction.retry_or.
  assert ((Z.of_nat (Z.to_nat rc) <? rc) = false) as ->
    by (apply Z.ltb_ge; lia).
  reflexivity.
Qed.

(** A response with a status other than 200, 401 and 403 that reaches the
    loop without an exception, with an empty or JSON body, ends the call at
    once as a failure carrying that body, whatever the retry budget. *)
Theorem other_status_not_retried (url : string) (rc : Z)
    (net : PreFunction.remote) (status : Z) (body : string) (j : jval) :
  0 <= rc ->
  net url 0%nat = PreFunction.Response status body ->
  status <> 200 -> status <> 401 -> status <> 403 ->
  PreFunction.loads_or_empty json_loads body = inr j ->
  PreFunction._make_http_request json_loads url rc net = (inr (false, j), 1%nat).
Proof.
  intros Hrc Hres H200 H401 H403 Hj. unfold PreFunction._make_http_request.
  replace (Z.to_nat (rc + 1)) with (S (Z.to_nat rc)) by lia.
  cbn [seq PreFunction.attempts_loop]. rewrite Hres. cbn.
  apply Z.eqb_neq in H200, H401, H403. rewrite H200, H401, H403, Hj.
  reflexivity.
Qed.

(** The URL that is called always ends in "/auth/verify", and building it
    from an already complete URL changes nothing. *)
Theorem full_auth_url_shape (auth_service_url : string) :
  PreFunction.endswith (PreFunction.full_auth_url auth_service_url)
    "/auth/verify" = true /\
  PreFunction.full_auth_url (PreFunction.full_auth_url auth_service_url)
  = PreFunction.full_auth_url auth_service_url.
Proof.
  assert (PreFunction.endswith (PreFunction.full_auth_url auth_service_url)
            "/auth/verify" = true) as Hend.
  { unfold PreFunction.full_auth_url.
    destruct (PreFunction.endswith auth_service_url "/auth/verify") eqn:E;
      [exact E | apply endswith_append]. }
  split; [exact Hend |].
  unfold PreFunction.full_auth_url at 1. now rewrite Hend.
Qed.

(** [_call_auth_service] reports success only with the dictionary of a 200
    response whose "authorized" entry is truthy. *)
Lemma call_auth_service_success (c : PreFunction.config) (url0 : string)
    (net : PreFunction.remote) (j : jval) (made : nat) :
  PreFunction._call_auth_service json_loads c url0 net = ((true, j), made) ->
  let rc := default 0 (PreFunction.retry_count c) in
  exists (k : nat) body d a,
    Z.of_nat k <= rc /\
    net (PreFunction.full_auth_url url0) k = PreFunction.Response 200 body /\
    json_loads body = inr j /\
    j = JDict d /\ PreFunction.assoc "authorized" d = Some a /\
    PreFunction.truthy a = true.
Proof.
  unfold PreFunction._call_auth_service. cbn zeta.
  set (rc := default 0 (PreFunction.retry_count c)).
  set (url := PreFunction.full_auth_url url0).
  destruct (PreFunction._make_http_request json_loads url rc net)
    as [[e | [ok resp]] n] eqn:Hreq; [discriminate |].
  destruct ok; cbn [negb].
  2: { destruct (PreFunction.dict_get resp "error"); discriminate. }
  destruct (PreFunction.dict_get resp "authorized") as [e | oa] eqn:Hget;
    [discriminate |].
  destruct oa as [a |]; cbn [from_option]; [| discriminate].
  destruct (PreFunction.truthy a) eqn:Ha; [| discriminate].
  intros [= <- <-].
  destruct resp as [| | | | | d]; try discriminate.
  cbn in Hget. injection Hget as Hget.
  destruct (request_success_from_200 json_loads url rc net (JDict d))
    as (k & body & Hk & Hbody & Hj); [now rewrite Hreq |].
  exists k, body, d, a. repeat split; auto.
Qed.

(** [access] lets a request through only when the verifier answered one of
    the attempts within the budget with 200 and a JSON object whose
    "authorized" entry is truthy; the upstream headers are taken from that
    object. *)
Theorem prefunction_forwards_only_authorized (c : PreFunction.config)
    (req : PreFunction.request) (net : PreFunction.remote)
    (headers : list (string * jval)) :
  PreFunction.access json_loads c req net = PreFunction.Forward headers ->
  exists url0 (k : nat) body d a,
    PreFunction.auth_service_url c = Some url0 /\ url0 <> "" /\
    Py.truthy_str (PreFunction.req_authorization req) = true /\
    Z.of_nat k <= default 0 (PreFunction.retry_count c) /\
    net (PreFunction.full_auth_url url0) k = PreFunction.Response 200 body /\
    json_loads body = inr (JDict d) /\
    PreFunction.assoc "authorized" d = Some a /\
    PreFunction.truthy a = true /\
    headers = PreFunction.upstream_headers (JDict d).
Proof.
  unfold PreFunction.access.
  destruct (PreFunction.auth_service_url c) as [url0 |] eqn:Hurl;
    [| discriminate].
  cbn [Py.truthy_str from_option id].
  destruct (String.eqb url0 "") eqn:Hne; [discriminate |]. cbn [negb].
  destruct (Py.truthy_str (PreFunction.req_authorization req)) eqn:Hauth;
    [| discriminate]. cbn [negb].
  destruct (PreFunction._call_auth_service json_loads c url0 net)
    as [[ok resp] made] eqn:Hcall.
  destruct ok; [| discriminate]. cbn [negb].
  destruct (call_auth_service_success c url0 net resp made Hcall)
    as (k & body & d & a & Hk & Hres & Hj & -> & Ha & Ht).
  assert (PreFunction.truthy (JDict d) = true) as ->
    by (destruct d; [discriminate | reflexivity]).
  cbn [PreFunction.dict_get]. rewrite Ha, Ht.
  intros [= <-]. apply String.eqb_neq in Hne.
  exists url0, k, body, d, a. repeat split; auto.
Qed.

(** Whatever [access] refuses, it refuses with one of three answers: 500
    when no verifier URL is configured, 401 when the Authorization header
    is missing, and 403 "Access denied" for every other failure. *)
Theorem prefunction_exit_codes (c : PreFunction.config)
    (req : PreFunction.request) (net : PreFunction.remote)
    (status : Z) (body : jval) :
  PreFunction.access json_loads c req net = PreFunction.Exit status body ->
  (Py.truthy_str (PreFunction.auth_service_url c) = false /\
   status = 500 /\
   body = PreFunction.err "Authentication service not configured")
  \/ (Py.truthy_str (PreFunction.auth_service_url c) = true /\
      Py.truthy_str (PreFunction.req_authorization req) = false /\
      status = 401 /\ body = PreFunction.err "Authorization header required")
  \/ (Py.truthy_str (PreFunction.auth_service_url c) = true /\
      Py.truthy_str (PreFunction.req_authorization req) = true /\
      status = 403 /\ body = PreFunction.err "Access denied").
Proof.
  unfold PreFunction.access.
  destruct (Py.truthy_str (PreFunction.auth_service_url c)); cbn [negb];
    [| intros [= <- <-]; left; auto].
  destruct (Py.truthy_str (PreFunction.req_authorization req)); cbn [negb];
    [| intros [= <- <-]; right; left; auto].
  destruct (PreFunction._call_auth_service json_loads c _ net)
    as [[ok resp] made] eqn:Hcall.
  destruct ok; cbn [negb]; [| intros [= <- <-]; right; right; auto].
  destruct (call_auth_service_success c _ net resp made Hcall)
    as (k & b & d & a & _ & _ & _ & -> & Ha & Ht).
  assert (PreFunction.truthy (JDict d) = true) as ->
    by (destruct d; [discriminate | reflexivity]).
  cbn [PreFunction.dict_get]. rewrite Ha, Ht. discriminate.
Qed.

End PreFunctionMore.

(** ** Instances on the sample data *)

Lemma verify_auth_bad_request_no_io_witness :
  (AuthServiceApi.verify_auth (L := Sample.libs) "kong"
     (inr Sample.no_token_body) 1000 "t" Sample.net_up
     AuthService.initial_state).2 = AuthService.initial_state /\
  exists p e,
    AuthService.verify_jwt_token (L := Sample.libs) "kong" "Bearer t.good" 1000
      Sample.net_up AuthService.initial_state
    = (Some p,
       (AuthServiceApi.verify_auth (L := Sample.libs) "kong"
          (inr Sample.numeric_path_body) 1000 "t" Sample.net_up
          AuthService.initial_state).2) /\
    AuthServiceApi.is_authorized p (JNum 123) (JStr "GET") = inl e.
Proof.
  split.
  - apply (verify_auth_bad_request_no_io (L := Sample.libs) "kong"
             (inr Sample.no_token_body) 1000 "t" Sample.net_up
             AuthService.initial_state).
    reflexivity.
  - destruct (verify_auth_bad_request_no_io (L := Sample.libs) "kong"
                (inr Sample.numeric_path_body) 1000 "t" Sample.net_up
                AuthService.initial_state) as [_ H500].
    destruct (H500 eq_refl) as [Hsame | (d & token & p & e & Hd & _ & Htok & Hv & Ha)].
    + apply (f_equal (fun s => fetch_count (AuthService.trace s))) in Hsame.
      vm_compute in Hsame. discriminate Hsame.
    + injection Hd as <-. vm_compute in Htok. injection Htok as <-.
      exists p, e. split; [exact Hv | exact Ha].
Defined.

Lemma token_only_skips_policy_witness :
  exists d token p,
    (inr Sample.post_orders_body : Exc.exn + jval) = inr (JDict d) /\
    AuthServiceApi.get d "token" = JStr token /\
    (AuthService.verify_jwt_token (L := Sample.libs) "kong" token 1000
       Sample.net_up AuthService.initial_state).1 = Some p /\
    (AuthServiceApi.verify_token_only (L := Sample.libs) "kong"
       (inr Sample.post_orders_body) 1000 "t" Sample.net_up
       AuthService.initial_state).1
    = (200, AuthServiceApi.BValid (p_sub p) (p_client_id p) (p_exp p) "t").
Proof.
  apply (token_only_skips_policy (L := Sample.libs) "kong"
           (inr Sample.post_orders_body) 1000 "t" Sample.net_up
           AuthService.initial_state).
  vm_compute. reflexivity.
Defined.

Lemma public_key_sound_witness :
  exists jwks keys target n e n_bytes e_bytes,
    (JwtPlugin.cache_lookup "https://idp.example" "kong" 1000
       (JwtPlugin.init Sample.plugin_config) = Some jwks \/
     (JwtPlugin.cache_lookup "https://idp.example" "kong" 1000
        (JwtPlugin.init Sample.plugin_config) = None /\
      Sample.net_up (JwtPlugin.jwks_url "https://idp.example" "kong") false
      = inr jwks)) /\
    doc_keys jwks = inr keys /\
    JwtPlugin.find_key keys "k1" = Some target /\
    jwk_kty target = Some "RSA" /\
    (jwk_use target = Some "sig" \/ jwk_use target = None) /\
    jwk_n target = Some n /\ n <> "" /\
    jwk_e target = Some e /\ e <> "" /\
    JwtPlugin._base64url_decode (L := Sample.libs) n = inr n_bytes /\
    JwtPlugin._base64url_decode (L := Sample.libs) e = inr e_bytes /\
    rsa_public_key (Libs := Sample.libs)
      (JwtPlugin.int_from_bytes_big e_bytes)
      (JwtPlugin.int_from_bytes_big n_bytes) = inr "key-1".
Proof.
  apply (public_key_sound (L := Sample.libs) "https://idp.example" "kong" "k1"
           false 1000 Sample.net_up (JwtPlugin.init Sample.plugin_config)).
  vm_compute. reflexivity.
Defined.

Lemma validate_jwt_sound_witness :
  exists (j : jws) (kid : string) (key : pubkey (Libs := Sample.libs))
         (p : payload),
    (JwtPlugin._validate_jwt (L := Sample.libs) "t.good" "https://idp.example"
       "kong" AuthService.expected_issuer "account" false 1000 Sample.net_up
       (JwtPlugin.init Sample.plugin_config)).1 = (true, Some p, None) /\
    jws_load (Libs := Sample.libs) "t.good" = inr j /\
    h_alg (jws_header j) = Some "RS256" /\
    h_kid (jws_header j) = Some kid /\ kid <> "" /\
    (JwtPlugin._get_public_key_from_jwks (L := Sample.libs)
       "https://idp.example" "kong" kid false 1000 Sample.net_up
       (JwtPlugin.init Sample.plugin_config)).1.1 = Some key /\
    sig_verifies (Libs := Sample.libs) "t.good" key = true /\
    jws_payload j = Some p /\
    p_iss p = Some AuthService.expected_issuer /\
    (exists a, p_aud p = Some a /\ "account" ∈ PyJWT.aud_list a) /\
    (forall exp, p_exp p = Some exp -> 1000 < exp) /\
    (forall iat, p_iat p = Some iat -> iat <= 1000) /\
    (forall nbf, p_nbf p = Some nbf -> nbf <= 1000).
Proof.
  apply (validate_jwt_sound (L := Sample.libs) "t.good" "https://idp.example"
           "kong" AuthService.expected_issuer "account" false 1000
           Sample.net_up (JwtPlugin.init Sample.plugin_config)).
  vm_compute. reflexivity.
Defined.

Lemma plugin_access_forwards_only_valid_witness :
  exists base realm iss aud s p,
    JwtPlugin.keycloak_base_url Sample.plugin_config = Some base /\ base <> "" /\
    JwtPlugin.keycloak_realm Sample.plugin_config = Some realm /\ realm <> "" /\
    JwtPlugin.expected_issuer Sample.plugin_config = Some iss /\ iss <> "" /\
    JwtPlugin.expected_audience Sample.plugin_config = Some aud /\ aud <> "" /\
    Some "Bearer t.good" = Some s /\ Py.startswith s "Bearer " = true /\
    (JwtPlugin._validate_jwt (L := Sample.libs) (Py.drop_chars 7 s) base realm
       iss aud false 1000 Sample.net_up
       (JwtPlugin.init Sample.plugin_config)).1 = (true, Some p, None) /\
    [("X-User-ID", "user-1"); ("X-Username", "alice"); ("X-User-Email", "");
     ("X-User-Roles", "offline_access")] = JwtPluginApi.identity_headers p.
Proof.
  apply (plugin_access_forwards_only_valid (L := Sample.libs)
           (Some "Bearer t.good") 1000 Sample.net_up
           (JwtPlugin.init Sample.plugin_config)).
  vm_compute. reflexivity.
Defined.

Lemma plugin_access_exit_codes_witness :
  (Py.truthy_str (JwtPlugin.keycloak_base_url Sample.plugin_config)
   && Py.truthy_str (JwtPlugin.keycloak_realm Sample.plugin_config)
   && Py.truthy_str (JwtPlugin.expected_issuer Sample.plugin_config)
   && Py.truthy_str (JwtPlugin.expected_audience Sample.plugin_config) = false
   /\ 401 = 500 /\
   (JwtPluginApi.access (L := Sample.libs) (Some "Basic dXNlcg==") 1000
      Sample.net_up (JwtPlugin.init Sample.plugin_config)).2
   = JwtPlugin.init Sample.plugin_config)
  \/ (Py.truthy_str (JwtPlugin.keycloak_base_url Sample.plugin_config)
      && Py.truthy_str (JwtPlugin.keycloak_realm Sample.plugin_config)
      && Py.truthy_str (JwtPlugin.expected_issuer Sample.plugin_config)
      && Py.truthy_str (JwtPlugin.expected_audience Sample.plugin_config) = true
      /\ 401 = 401).
Proof.
  apply (plugin_access_exit_codes (L := Sample.libs) (Some "Basic dXNlcg==")
           1000 Sample.net_up (JwtPlugin.init Sample.plugin_config) 401
           [("error", "Invalid Authorization Format");
            ("message", "Authorization header must start with 'Bearer '")]).
  vm_compute. reflexivity.
Defined.

Lemma sequential_lookups_fetch_once_witness :
  JwtPlugin.run_lookups (L := Sample.libs) Sample.later_lookups Sample.warm_plugin
    = Sample.warm_plugin /\
  fetch_count
    (JwtPlugin.trace
       (JwtPlugin.run_lookups (L := Sample.libs) Sample.later_lookups
          Sample.warm_plugin)) = 1%nat.
Proof.
  apply (sequential_lookups_fetch_once (L := Sample.libs) "https://idp.example"
           "kong" false 0 Sample.net_up Sample.jwks
           (JwtPlugin.init Sample.plugin_config) Sample.later_lookups);
    [reflexivity | reflexivity |].
  repeat constructor; cbn; lia.
Defined.

Lemma success_after_retries_witness :
  PreFunction._make_http_request Sample.loads
    "http://auth-service:8003/auth/verify" 3 Sample.remote_500_then_200
  = (inr (true, JDict [("authorized", JBool true)]), 2%nat).
Proof.
  apply (success_after_retries Sample.loads
           "http://auth-service:8003/auth/verify" 3 Sample.remote_500_then_200
           1%nat "ok" (JDict [("authorized", JBool true)]));
    [lia | | reflexivity | reflexivity].
  intros i Hi. assert (i = 0%nat) as -> by lia. reflexivity.
Defined.

Lemma unparsable_200_is_retried_witness :
  exists body e,
    Sample.remote_garbage "http://auth-service:8003/auth/verify" (Z.to_nat 2)
      = PreFunction.Response 200 body /\
    Sample.loads body = inl e /\
    PreFunction._make_http_request Sample.loads
      "http://auth-service:8003/auth/verify" 2 Sample.remote_garbage
    = (inr (false, PreFunction.err ("Request error: " ++ Exc.exn_str e)),
       3%nat).
Proof.
  apply (unparsable_200_is_retried Sample.loads
           "http://auth-service:8003/auth/verify" 2 Sample.remote_garbage);
    [lia |].
  intros i _. eexists _, _. split; reflexivity.
Defined.

Lemma other_status_not_retried_witness :
  PreFunction._make_http_request Sample.loads
    "http://auth-service:8003/auth/verify" 5 Sample.remote_204
  = (inr (false, JDict []), 1%nat).
Proof.
  apply (other_status_not_retried Sample.loads
           "http://auth-service:8003/auth/verify" 5 Sample.remote_204 204 "");
    [lia | reflexivity | lia | lia | lia | reflexivity].
Defined.

Lemma prefunction_forwards_only_authorized_witness :
  exists url0 (k : nat) body d a,
    PreFunction.auth_service_url (Sample.prefunction_config 3) = Some url0 /\
    url0 <> "" /\
    Py.truthy_str (PreFunction.req_authorization Sample.get_orders) = true /\
    Z.of_nat k <= default 0 (PreFunction.retry_count (Sample.prefunction_config 3)) /\
    Sample.remote_500_then_200 (PreFunction.full_auth_url url0) k
      = PreFunction.Response 200 body /\
    Sample.loads body = inr (JDict d) /\
    PreFunction.assoc "authorized" d = Some a /\
    PreFunction.truthy a = true /\
    [("X-User-ID", JStr ""); ("X-Enterprise-ID", JStr "");
     ("X-Client-ID", JStr ""); ("X-Username", JStr "")]
    = PreFunction.upstream_headers (JDict d).
Proof.
  apply (prefunction_forwards_only_authorized Sample.loads
           (Sample.prefunction_config 3) Sample.get_orders
           Sample.remote_500_then_200).
  vm_compute. reflexivity.
Defined.

Lemma prefunction_exit_codes_witness :
  (Py.truthy_str (PreFunction.auth_service_url (Sample.prefunction_config 0))
     = false /\ 403 = 500 /\
   PreFunction.err "Access denied"
     = PreFunction.err "Authentication service not configured")
  \/ (Py.truthy_str (PreFunction.auth_service_url (Sample.prefunction_config 0))
        = true /\
      Py.truthy_str (PreFunction.req_authorization Sample.get_orders) = false /\
      403 = 401 /\
      PreFunction.err "Access denied"
        = PreFunction.err "Authorization header required")
  \/ (Py.truthy_str (PreFunction.auth_service_url (Sample.prefunction_config 0))
        = true /\
      Py.truthy_str (PreFunction.req_authorization Sample.get_orders) = true /\
      403 = 403 /\
      PreFunction.err "Access denied" = PreFunction.err "Access denied").
Proof.
  apply (prefunction_exit_codes Sample.loads (Sample.prefunction_config 0)
           Sample.get_orders Sample.remote_204 403
           (PreFunction.err "Access denied")).
  vm_compute. reflexivity.
Defined.

(** ** Error messages of the gateway plugin *)

Section PluginMessages.
Context `{L : Libs}.

Ltac differ := let H := fresh in intro H; discriminate H.

(** The messages of the key lookup all start differently from the three
    specific token messages. *)
Lemma key_lookup_message_head (base realm kid : string) (ssl : bool) (now : Z)
    (net : network) (st : JwtPlugin.plugin) (m rest : string) :
  (JwtPlugin._get_public_key_from_jwks base realm kid ssl now net st).1.2
    = Some m ->
  m <> "Invalid issuer: expected " ++ rest /\
  m <> "Invalid audience: expected " ++ rest /\
  m <> "Invalid token signature".
Proof.
  unfold JwtPlugin._get_public_key_from_jwks, JwtPlugin.obtain_jwks,
    JwtPlugin.outer_handler.
  assert (forall (jwks : jwks_doc) (st1 : JwtPlugin.plugin),
            (match JwtPlugin.select_key jwks kid with
             | inl e =>
                 ((None, Some ("Error getting public key from JWKS: "
                               ++ Exc.exn_str e)), st1)
             | inr r => (r, st1)
             end).1.2 = Some m ->
            m <> "Invalid issuer: expected " ++ rest /\
            m <> "Invalid audience: expected " ++ rest /\
            m <> "Invalid token signature") as Hsel.
  { intros jwks st1. unfold JwtPlugin.select_key, JwtPlugin.construct_key.
    destruct (doc_keys jwks) as [e | keys];
      [intros [= <-]; repeat split; differ |].
    destruct (JwtPlugin.find_key keys kid) as [target |];
      [| intros [= <-]; repeat split; differ].
    destruct (negb (bool_decide (jwk_kty target = Some "RSA")));
      [intros [= <-]; repeat split; differ |].
    destruct (negb _); [intros [= <-]; repeat split; differ |].
    destruct (_ || _); [intros [= <-]; repeat split; differ |].
    destruct (JwtPlugin._base64url_decode _) as [ex | nb];
      [intros [= <-]; repeat split; differ |].
    destruct (JwtPlugin._base64url_decode _) as [ex | eb];
      [intros [= <-]; repeat split; differ |].
    destruct (rsa_public_key _ _);
      [intros [= <-]; repeat split; differ | discriminate]. }
  destruct (JwtPlugin.cache_lookup base realm now st) as [jwks |];
    [apply Hsel |].
  unfold JwtPlugin.refresh. destruct (net _ _) as [e | doc]; [| apply Hsel].
  cbn [Exc.dispatch].
  destruct (Exc.issubclass (Exc.exn_class e) Exc.RequestException);
    [intros [= <-]; repeat split; differ |].
  destruct (Exc.issubclass (Exc.exn_class e) Exc.JSONDecodeError);
    intros [= <-]; repeat split; differ.
Qed.

(** [_validate_jwt] has clauses that would answer "Invalid issuer: expected
    ...", "Invalid audience: expected ..." and "Invalid token signature",
    but the clause for the base class [InvalidTokenError] stands before
    them: no input makes the function return one of these three messages. *)
Theorem specific_messages_never_returned (token base realm iss aud : string)
    (ssl : bool) (now : Z) (net : network) (st : JwtPlugin.plugin) :
  let msg := (JwtPlugin._validate_jwt token base realm iss aud ssl now net st).1.2 in
  msg <> Some ("Invalid issuer: expected " ++ iss) /\
  msg <> Some ("Invalid audience: expected " ++ aud) /\
  msg <> Some "Invalid token signature".
Proof.
  cbn zeta. unfold JwtPlugin._validate_jwt.
  destruct (PyJWT.get_unverified_header token); [repeat split; differ |].
  destruct (negb (String.eqb _ "RS256")); [repeat split; differ |].
  destruct (negb (Py.truthy_str _)); [repeat split; differ |].
  pose proof (key_lookup_message_head base realm (default "" (h_kid h)) ssl
                now net st) as Hhead.
  destruct (JwtPlugin._get_public_key_from_jwks _ _ _ _ _ _ _) as [[pk m] st1].
  cbn [fst snd] in Hhead.
  destruct pk as [key |].
  - destruct (PyJWT.decode _ _ _ _ _ _ _) as [[[c s] | p] evs];
      [| repeat split; differ].
    destruct c; cbn; repeat split; differ.
  - destruct m as [m |]; cbn [Py.truthy_str from_option id fst snd].
    + destruct (negb (String.eqb m "")).
      * destruct (Hhead m iss eq_refl) as (H1 & _ & H3).
        destruct (Hhead m aud eq_refl) as (_ & H2 & _).
        repeat split; congruence.
      * repeat split; differ.
    + repeat split; differ.
Qed.

(** What an expired token gets: when everything up to the claims is in
    order and the expiry has passed, the message is "Token has expired". *)
Theorem expired_token_message (token base realm iss aud : string) (ssl : bool)
    (now : Z) (net : network) (st : JwtPlugin.plugin)
    (j : jws) (kid : string) (key : pubkey) (p : payload) (exp iat : Z) :
  jws_load token = inr j ->
  h_alg (jws_header j) = Some "RS256" ->
  h_kid (jws_header j) = Some kid -> kid <> "" ->
  (JwtPlugin._get_public_key_from_jwks base realm kid ssl now net st).1.1
    = Some key ->
  sig_verifies token key = true ->
  jws_payload j = Some p ->
  p_exp p = Some exp -> exp <= now ->
  p_iat p = Some iat -> iat <= now ->
  p_nbf p = None ->
  (JwtPlugin._validate_jwt token base realm iss aud ssl now net st).1
  = (false, None, Some "Token has expired").
Proof.
  intros Hload Halg Hkid Hne Hkey Hsig Hp Hexp Hle Hiat Hile Hnbf.
  unfold JwtPlugin._validate_jwt, PyJWT.get_unverified_header.
  rewrite Hload, Halg, Hkid. cbn [from_option id Py.truthy_str].
  apply String.eqb_neq in Hne. rewrite String.eqb_refl, Hne. cbn [negb].
  destruct (JwtPlugin._get_public_key_from_jwks base realm kid ssl now net st)
    as [[pk m] st1].
  cbn [fst snd] in Hkey. subst pk.
  unfold PyJWT.decode, PyJWT.verify_signature_step.
  rewrite Hload, Halg, Hsig, Hp. cbn [JwtPlugin.decode_options
    PyJWT.verify_signature Py.in_list existsb String.eqb].
  assert (PyJWT.validate_claims p JwtPlugin.decode_options (Some aud) (Some iss)
            now = Exc.raise Exc.ExpiredSignatureError "Signature has expired")
    as Hc.
  { unfold PyJWT.validate_claims, PyJWT.validate_required, PyJWT.validate_iat,
      PyJWT.validate_nbf, PyJWT.validate_exp.
    rewrite Hexp, Hiat, Hnbf. cbn.
    assert ((now <? iat) = false) as -> by (apply Z.ltb_ge; lia).
    assert ((exp <=? now) = true) as -> by (apply Z.leb_le; lia).
    reflexivity. }
  cbn -[PyJWT.validate_claims]. rewrite Hc. reflexivity.
Qed.

End PluginMessages.

Lemma expired_token_message_witness :
  (JwtPlugin._validate_jwt (L := Sample.libs) "t.good" "https://idp.example"
     "kong" AuthService.expected_issuer "account" false 2000 Sample.net_up
     (JwtPlugin.init Sample.plugin_config)).1
  = (false, None, Some "Token has expired").
Proof.
  apply (expired_token_message (L := Sample.libs) "t.good" "https://idp.example"
           "kong" AuthService.expected_issuer "account" false 2000
           Sample.net_up (JwtPlugin.init Sample.plugin_config)
           {| jws_header := Sample.hdr "RS256" "k1";
              jws_payload := Some Sample.good_claims |}
           "k1" "key-1" Sample.good_claims 2000 900);
    first [reflexivity | discriminate | lia].
Defined.
